(** * Provisioning service: node pool, user tracker, allocator, predictor
    and provisioner, embedded from the Go sources under
    [provisioning-service/internal]. *)

From Stdlib Require Import ZArith Lia.
From stdpp Require Import base tactics option list gmap strings.

Local Open Scope Z_scope.

(** ** Go's [int] and [time] *)

(** Go's [int] is a 64-bit two's-complement integer on the platforms the
    service is built for; arithmetic wraps around. *)
Module GoInt.

Definition min_int : Z := - 2 ^ 63.
Definition max_int : Z := 2 ^ 63 - 1.

Definition in_range (z : Z) : Prop := min_int <= z <= max_int.

Definition wrap (z : Z) : Z := (z + 2 ^ 63) mod 2 ^ 64 - 2 ^ 63.

Definition add (a b : Z) : Z := wrap (a + b).
Definition sub (a b : Z) : Z := wrap (a - b).
Definition neg (a : Z) : Z := wrap (- a).

(** [len(s)] of a slice or map. *)
Definition len {A} (l : list A) : Z := Z.of_nat (length l).

End GoInt.

(** [time.Time] is modelled by the instant it denotes, counted in
    nanoseconds from the zero [Time] (January 1, year 1 UTC), and
    [time.Duration] by its [int64] nanosecond count. *)
Module GoTime.

Definition Time : Type := Z.
Definition Duration : Type := Z.

(** The zero value of [time.Time]. *)
Definition zero : Time := 0.

(** Seconds between the zero [Time] and the Unix epoch. *)
Definition unixToInternal : Z := 62135596800.

(** [time.Unix(sec, 0)]: the seconds since the zero [Time] are
    [sec + unixToInternal] computed in [int64], so a [sec] above
    [MaxInt64 - unixToInternal] wraps to an instant far in the past. *)
Definition Unix (sec : Z) : Time :=
  GoInt.add sec unixToInternal * 1000000000.

(** [t.Add(d)]. *)
Definition Add (t : Time) (d : Duration) : Time := t + d.

(** [t.Before(u)] and [t.After(u)]. *)
Definition Before (t u : Time) : bool := bool_decide (t < u).
Definition After (t u : Time) : bool := bool_decide (u < t).

Definition Second : Duration := 1000000000.
Definition Minute : Duration := 60 * Second.

End GoTime.

Import GoTime.

(** ** Package [node]: the node record *)

Module node.

(** [type NodeStatus string]: any string converts to a status (the
    provisioner converts the status text of a bus event). *)
Definition NodeStatus : Type := string.

Definition NodeStatusBooting : NodeStatus := "booting".
Definition NodeStatusReady : NodeStatus := "ready".
Definition NodeStatusAllocated : NodeStatus := "allocated".
Definition NodeStatusTerminated : NodeStatus := "terminated".

Record Node : Type := mkNode {
  ID : string;
  Status : NodeStatus;
  UserID : string; (* Empty if not allocated *)
  CreatedAt : Time;
  UpdatedAt : Time;
}.

#[global] Instance Node_eq_dec : EqDecision Node.
Proof. solve_decision. Defined.

End node.

(** ** Package [user]: the user activity record *)

Module user.

Record UserState : Type := mkUserState {
  UserID : string;
  LastActivityTime : Time;
  ActivityCount : Z;
  IsConnected : bool;
  AllocatedNodeID : string;
}.

#[global] Instance UserState_eq_dec : EqDecision UserState.
Proof. solve_decision. Defined.

End user.

(** ** Package [events]: payloads of the four bus channels *)

Module events.

Inductive Event : Type :=
| UserActivityEvent (UserID : string) (Timestamp : Z)
| UserConnectEvent (UserID : string)
| UserDisconnectEvent (UserID : string)
| NodeStatusEvent (NodeID : string) (Status : string).

End events.

(** ** Errors *)

(** The sentinel errors of package [allocator], and the error a failed
    call to the node management API yields.  A Go [error] result is an
    [option GoError], [None] standing for [nil]. *)
Inductive GoError : Type :=
| ErrNoReadyNode
| ErrUserNotFound
| ErrNodeNotFound
| ErrNodeNotReady
| ErrAlreadyAllocated
| ErrNodeAPI.

#[global] Instance GoError_eq_dec : EqDecision GoError.
Proof. solve_decision. Defined.

(** ** The world the service runs in *)

(** Requests sent to the node management API. *)
Inductive ApiCall : Type :=
| PostNodes
| DeleteNodes (nodeID : string).

#[global] Instance ApiCall_eq_dec : EqDecision ApiCall.
Proof. solve_decision. Defined.

(** Everything the code does not decide itself: the wall clock, the order
    in which [range] walks a map, the answers of the node management API,
    and what the other goroutines do to the shared maps while this one
    waits for a mutex. *)
Record Env : Type := mkEnv {
  clockAt : nat → Time;
  orderNodes : nat → gmap string node.Node → list node.Node;
  orderUsers : nat → gmap string user.UserState → list user.UserState;
  createNode : nat → option string;
  deleteNode : nat → string → bool;
  others : nat → gmap string node.Node * gmap string user.UserState
           → gmap string node.Node * gmap string user.UserState;
}.

(** [nodes] and [users] are the maps behind [NodePool.nodes] and
    [UserTracker.users]: every record is reached through its map only,
    so the maps hold the records themselves.  [apiLog] lists the API
    requests made so far; [clockReads] and [sched] count the clock
    readings and the scheduling decisions (mutex acquisitions, map
    walks) consumed so far. *)
Record World : Type := mkWorld {
  nodes : gmap string node.Node;
  users : gmap string user.UserState;
  apiLog : list ApiCall;
  clockReads : nat;
  sched : nat;
}.

(** The records of a map, in key order. *)
Definition values {A} (m : gmap string A) : list A := (map_to_list m).*2.

(** [range] visits every entry of the map exactly once. *)
Definition FairRange (env : Env) : Prop :=
  (∀ k (p : gmap string node.Node),
     orderNodes env k p ≡ₚ values p) ∧
  (∀ k (t : gmap string user.UserState),
     orderUsers env k t ≡ₚ values t).

(** No other goroutine changes the shared maps. *)
Definition Alone (env : Env) : Prop := ∀ k s, others env k s = s.

(** State passing over [World]. *)
Definition M (A : Type) : Type := World → A * World.

#[global] Instance M_ret : MRet M := λ A a w, (a, w).
#[global] Instance M_bind : MBind M :=
  λ A B f m w, let '(a, w') := m w in f a w'.

Section Runtime.

Variable env : Env.

(** [time.Now()]. *)
Definition timeNow : M Time := λ w,
  (clockAt env (clockReads w),
   mkWorld (nodes w) (users w) (apiLog w) (S (clockReads w)) (sched w)).

(** [mu.Lock()] / [mu.RLock()]: the other goroutines run until the
    mutex is acquired.  The matching unlock is the end of the method. *)
Definition lock : M unit := λ w,
  let '(p, t) := others env (sched w) (nodes w, users w) in
  (tt, mkWorld p t (apiLog w) (clockReads w) (S (sched w))).

Definition getNodes : M (gmap string node.Node) := λ w, (nodes w, w).
Definition getUsers : M (gmap string user.UserState) := λ w, (users w, w).

Definition setNodes (p : gmap string node.Node) : M unit := λ w,
  (tt, mkWorld p (users w) (apiLog w) (clockReads w) (sched w)).
Definition setUsers (t : gmap string user.UserState) : M unit := λ w,
  (tt, mkWorld (nodes w) t (apiLog w) (clockReads w) (sched w)).

(** The order of one [for ... := range p.nodes]. *)
Definition rangeNodes : M (list node.Node) := λ w,
  (orderNodes env (sched w) (nodes w),
   mkWorld (nodes w) (users w) (apiLog w) (clockReads w) (S (sched w))).

(** The order of one [for ... := range t.users]. *)
Definition rangeUsers : M (list user.UserState) := λ w,
  (orderUsers env (sched w) (users w),
   mkWorld (nodes w) (users w) (apiLog w) (clockReads w) (S (sched w))).

(** [for _, x := range l { body }]. *)
Fixpoint forEach {A} (l : list A) (body : A → M unit) : M unit :=
  match l with
  | [] => mret tt
  | x :: l' => body x;; forEach l' body
  end.

(** [for i := 0; i < n; i++ { body }]. *)
Fixpoint times (n : nat) (body : M unit) : M unit :=
  match n with
  | O => mret tt
  | S n' => body;; times n' body
  end.

End Runtime.

(** ** [node.NodePool] *)

Module NodePool.
Section Methods.

Variable env : Env.

Definition NewNodePool : gmap string node.Node := ∅.

Definition Add (n : node.Node) : M unit :=
  lock env;;
  p ← getNodes;
  setNodes (<[node.ID n := n]> p).

Definition Get (nodeID : string) : M (option node.Node) :=
  lock env;;
  p ← getNodes;
  mret (p !! nodeID).

Definition Remove (nodeID : string) : M unit :=
  lock env;;
  p ← getNodes;
  setNodes (delete nodeID p).

Definition GetAllByStatus (status : node.NodeStatus)
  : M (list node.Node) :=
  lock env;;
  order ← rangeNodes env;
  mret (filter (λ n, node.Status n = status) order).

Definition GetReadyNode : M (option node.Node) :=
  lock env;;
  order ← rangeNodes env;
  mret (find (λ n, bool_decide (node.Status n = node.NodeStatusReady))
             order).

Definition AllocateNode (nodeID userID : string) : M bool :=
  lock env;;
  p ← getNodes;
  match p !! nodeID with
  | None => mret false
  | Some n =>
      if decide (node.Status n ≠ node.NodeStatusReady) then mret false
      else
        now ← timeNow env;
        setNodes (<[nodeID := node.mkNode (node.ID n)
                                node.NodeStatusAllocated userID
                                (node.CreatedAt n) now]> p);;
        mret true
  end.

Definition DeallocateNode (nodeID : string) : M unit :=
  lock env;;
  p ← getNodes;
  match p !! nodeID with
  | Some n =>
      now ← timeNow env;
      setNodes (<[nodeID := node.mkNode (node.ID n)
                              node.NodeStatusReady ""
                              (node.CreatedAt n) now]> p)
  | None => mret tt
  end.

Definition UpdateStatus (nodeID : string) (status : node.NodeStatus)
  : M unit :=
  lock env;;
  p ← getNodes;
  match p !! nodeID with
  | Some n =>
      now ← timeNow env;
      setNodes (<[nodeID := node.mkNode (node.ID n) status
                              (node.UserID n) (node.CreatedAt n) now]> p)
  | None => mret tt
  end.

Definition Count : M Z :=
  lock env;;
  p ← getNodes;
  mret (Z.of_nat (size p)).

Definition CountByStatus (status : node.NodeStatus) : M Z :=
  lock env;;
  order ← rangeNodes env;
  mret (foldl (λ count n,
                 if decide (node.Status n = status)
                 then GoInt.add count 1 else count)
              0 order).

Definition GetAll : M (list node.Node) :=
  lock env;;
  order ← rangeNodes env;
  mret order.

End Methods.
End NodePool.

(** ** [user.UserTracker] *)

Module UserTracker.
Section Methods.

Variable env : Env.

Definition NewUserTracker : gmap string user.UserState := ∅.

Definition RecordActivity (userID : string) (timestamp : Time)
  : M unit :=
  lock env;;
  t ← getUsers;
  match t !! userID with
  | None =>
      setUsers (<[userID := user.mkUserState userID timestamp 1
                              false ""]> t)
  | Some state =>
      setUsers (<[userID := user.mkUserState (user.UserID state)
                              timestamp
                              (GoInt.add (user.ActivityCount state) 1)
                              (user.IsConnected state)
                              (user.AllocatedNodeID state)]> t)
  end.

Definition GetUserState (userID : string)
  : M (option user.UserState) :=
  lock env;;
  t ← getUsers;
  mret (t !! userID).

Definition MarkConnected (userID nodeID : string) : M unit :=
  lock env;;
  t ← getUsers;
  let state :=
    match t !! userID with
    | None => user.mkUserState userID GoTime.zero 0 false ""
    | Some state => state
    end in
  setUsers (<[userID := user.mkUserState (user.UserID state)
                          (user.LastActivityTime state)
                          (user.ActivityCount state)
                          true nodeID]> t).

Definition MarkDisconnected (userID : string) : M unit :=
  lock env;;
  t ← getUsers;
  match t !! userID with
  | Some state =>
      setUsers (<[userID := user.mkUserState (user.UserID state)
                              (user.LastActivityTime state)
                              (user.ActivityCount state)
                              false ""]> t)
  | None => mret tt
  end.

Definition GetActiveUsers (since : Time) : M (list user.UserState) :=
  lock env;;
  order ← rangeUsers env;
  mret (filter (λ state, After (user.LastActivityTime state) since = true)
               order).

Definition GetLikelyToConnect (threshold : Z) (within : Duration)
  : M (list user.UserState) :=
  lock env;;
  now ← timeNow env;
  let cutoff := Add now (GoInt.neg within) in
  order ← rangeUsers env;
  mret (filter (λ state,
                  negb (user.IsConnected state)
                  && After (user.LastActivityTime state) cutoff
                  && bool_decide (threshold <= user.ActivityCount state)
                  = true)
               order).

(** Deleting the entry under visit is allowed during a [range]; every
    entry present at the start is visited, so the entries that go are
    those the test holds for, whatever the order. *)
Definition CleanupOldActivity (before : Time) : M unit :=
  lock env;;
  t ← getUsers;
  setUsers
    (filter (λ entry : string * user.UserState,
               ¬ (negb (user.IsConnected entry.2)
                  && Before (user.LastActivityTime entry.2) before
                  = true))
            t).

Definition GetConnectedUsers : M (list user.UserState) :=
  lock env;;
  order ← rangeUsers env;
  mret (filter (λ state, user.IsConnected state = true) order).

Definition ResetActivityCount (userID : string) : M unit :=
  lock env;;
  t ← getUsers;
  match t !! userID with
  | Some state =>
      setUsers (<[userID := user.mkUserState (user.UserID state)
                              (user.LastActivityTime state)
                              0
                              (user.IsConnected state)
                              (user.AllocatedNodeID state)]> t)
  | None => mret tt
  end.

End Methods.
End UserTracker.

(** ** [allocator.NodeAllocator] *)

Module NodeAllocator.
Section Methods.

Variable env : Env.

(** [exists && state.IsConnected && state.AllocatedNodeID != ""],
    [state] being the result of [GetUserState]. *)
Definition hasNode (state : option user.UserState) : bool :=
  match state with
  | Some st =>
      user.IsConnected st && bool_decide (user.AllocatedNodeID st ≠ "")
  | None => false
  end.

Definition AllocateNodeToUser (userID : string)
  : M (string * option GoError) :=
  (* Check if user already has a node *)
  state ← UserTracker.GetUserState env userID;
  if hasNode state then
    mret (from_option user.AllocatedNodeID "" state,
          Some ErrAlreadyAllocated)
  else
    (* Get a ready node *)
    n ← NodePool.GetReadyNode env;
    match n with
    | None => mret ("", Some ErrNoReadyNode)
    | Some n =>
        (* Allocate the node *)
        success ← NodePool.AllocateNode env (node.ID n) userID;
        if negb success then mret ("", Some ErrNodeNotReady)
        else
          (* Mark user as connected *)
          UserTracker.MarkConnected env userID (node.ID n);;
          mret (node.ID n, None)
    end.

Definition DeallocateNodeFromUser (userID : string)
  : M (option GoError) :=
  (* Get user state *)
  state ← UserTracker.GetUserState env userID;
  match state with
  | None => mret (Some ErrUserNotFound)
  | Some st =>
      if negb (user.IsConnected st) then mret (Some ErrUserNotFound)
      else
        let nodeID := user.AllocatedNodeID st in
        if decide (nodeID = "") then mret (Some ErrNodeNotFound)
        else
          (* Deallocate the node *)
          NodePool.DeallocateNode env nodeID;;
          (* Mark user as disconnected *)
          UserTracker.MarkDisconnected env userID;;
          mret None
  end.

Definition GetAllocation (userID : string) : M (string * bool) :=
  state ← UserTracker.GetUserState env userID;
  match state with
  | None => mret ("", false)
  | Some st =>
      if negb (user.IsConnected st) then mret ("", false)
      else mret (user.AllocatedNodeID st, true)
  end.

Definition GetNodeAllocation (nodeID : string) : M (string * bool) :=
  n ← NodePool.Get env nodeID;
  match n with
  | None => mret ("", false)
  | Some n =>
      if decide (node.Status n ≠ node.NodeStatusAllocated)
      then mret ("", false)
      else mret (node.UserID n, true)
  end.

End Methods.
End NodeAllocator.

(** ** Package [predictor] *)

Module predictor.

Record PredictionConfig : Type := mkPredictionConfig {
  ActivityWindow : Duration;
  ActivityThreshold : Z;
  PredictionWindow : Duration;
  MinReadyNodes : Z;
  MaxReadyNodes : Z;
  IdleTerminationTimeout : Duration;
  BootingNodeTimeout : Duration;
}.

Definition DefaultPredictionConfig : PredictionConfig :=
  {| ActivityWindow := 2 * Minute;
     ActivityThreshold := 3;
     PredictionWindow := 1 * Minute;
     MinReadyNodes := 1;
     MaxReadyNodes := 5;
     IdleTerminationTimeout := 5 * Minute;
     BootingNodeTimeout := 2 * Minute |}.

Record ScalingDecision : Type := mkScalingDecision {
  ShouldScaleUp : bool;
  ShouldScaleDown : bool;
  TargetNodes : Z;
  Reason : string;
}.

#[global] Instance ScalingDecision_eq_dec : EqDecision ScalingDecision.
Proof. solve_decision. Defined.

End predictor.

Module Predictor.
Section Methods.

Import predictor.

Variable env : Env.
Variable config : PredictionConfig.

(** The decision logic of [CalculateScaling], after the counts have
    been read: the successive assignments to [decision]. *)
Definition decide_scaling
    (readyCount bootingCount allocatedCount demand : Z)
  : ScalingDecision :=
  (* Calculate available capacity (ready + booting nodes) *)
  let availableCapacity := GoInt.add readyCount bootingCount in
  let decision := mkScalingDecision false false 0 "" in
  let decision :=
    if decide (availableCapacity < demand) then
      mkScalingDecision true (ShouldScaleDown decision)
        (GoInt.sub demand availableCapacity)
        "demand exceeds capacity"
    else if decide (readyCount < MinReadyNodes config
                    ∧ GoInt.add readyCount bootingCount
                      < MinReadyNodes config) then
      mkScalingDecision true (ShouldScaleDown decision)
        (GoInt.sub (MinReadyNodes config)
                   (GoInt.add readyCount bootingCount))
        "maintaining minimum ready nodes"
    else decision in
  (* Cap scale-up to max ready nodes *)
  let decision :=
    if ShouldScaleUp decision then
      let totalNodes :=
        GoInt.add (GoInt.add (GoInt.add readyCount bootingCount)
                             allocatedCount)
                  (TargetNodes decision) in
      if decide (MaxReadyNodes config < totalNodes) then
        let target :=
          GoInt.sub (MaxReadyNodes config)
                    (GoInt.add (GoInt.add readyCount bootingCount)
                               allocatedCount) in
        mkScalingDecision
          (if decide (target <= 0) then false
           else ShouldScaleUp decision)
          (ShouldScaleDown decision) target (Reason decision)
      else decision
    else decision in
  (* Scale down *)
  let excessNodes := GoInt.sub readyCount (MinReadyNodes config) in
  if decide (0 < excessNodes ∧ demand = 0) then
    mkScalingDecision (ShouldScaleUp decision) true excessNodes
      "excess capacity with no demand"
  else decision.

Definition CalculateScaling : M ScalingDecision :=
  (* Get current node counts *)
  readyCount ← NodePool.CountByStatus env node.NodeStatusReady;
  bootingCount ← NodePool.CountByStatus env node.NodeStatusBooting;
  allocatedCount ← NodePool.CountByStatus env node.NodeStatusAllocated;
  (* Get likely-to-connect users *)
  likelyUsers ← UserTracker.GetLikelyToConnect env
                  (ActivityThreshold config) (ActivityWindow config);
  (* Calculate demand: number of users likely to connect *)
  let demand := GoInt.len likelyUsers in
  mret (decide_scaling readyCount bootingCount allocatedCount demand).

Definition GetIdleNodes : M (list node.Node) :=
  readyNodes ← NodePool.GetAllByStatus env node.NodeStatusReady;
  now ← timeNow env;
  let cutoff := Add now (GoInt.neg (IdleTerminationTimeout config)) in
  let idleNodes :=
    filter (λ n, Before (node.UpdatedAt n) cutoff = true) readyNodes in
  (* Ensure we don't terminate below minimum *)
  let readyCount := GoInt.len readyNodes in
  let maxTerminations := GoInt.sub readyCount (MinReadyNodes config) in
  let maxTerminations :=
    if decide (maxTerminations < 0) then 0 else maxTerminations in
  let idleNodes :=
    if decide (maxTerminations < GoInt.len idleNodes)
    then take (Z.to_nat maxTerminations) idleNodes
    else idleNodes in
  mret idleNodes.

Definition GetStuckBootingNodes : M (list node.Node) :=
  bootingNodes ← NodePool.GetAllByStatus env node.NodeStatusBooting;
  now ← timeNow env;
  let cutoff := Add now (GoInt.neg (BootingNodeTimeout config)) in
  mret (filter (λ n, Before (node.CreatedAt n) cutoff = true)
               bootingNodes).

Definition ShouldAllocateNode (userID : string) : M bool :=
  state ← UserTracker.GetUserState env userID;
  match state with
  | None => mret true
  | Some st => if user.IsConnected st then mret false else mret true
  end.

End Methods.
End Predictor.

(** ** [nodeapi.NodeManager] *)

Module NodeManager.
Section Methods.

Variable env : Env.

(** [ProvisionNode]: one [POST /api/nodes]; the answer is the
    environment's. *)
Definition ProvisionNode : M (string * option GoError) := λ w,
  let w' := mkWorld (nodes w) (users w) (apiLog w ++ [PostNodes])
                    (clockReads w) (sched w) in
  match createNode env (length (apiLog w)) with
  | Some nodeID => ((nodeID, None), w')
  | None => (("", Some ErrNodeAPI), w')
  end.

(** [TerminateNode]: one [DELETE /api/nodes/{nodeID}]. *)
Definition TerminateNode (nodeID : string) : M (option GoError) := λ w,
  let w' := mkWorld (nodes w) (users w) (apiLog w ++ [DeleteNodes nodeID])
                    (clockReads w) (sched w) in
  if deleteNode env (length (apiLog w)) nodeID then (None, w')
  else (Some ErrNodeAPI, w').

End Methods.
End NodeManager.

(** ** [service.Provisioner] *)

(** Calls to the logger leave the state alone and are left out. *)
Module Provisioner.
Section Methods.

Import predictor.

Variable env : Env.
Variable config : PredictionConfig.

Definition provisionNode : M (option GoError) :=
  r ← NodeManager.ProvisionNode env;
  match r with
  | (_, Some err) => mret (Some err)
  | (nodeID, None) =>
      (* Add node to pool with booting status *)
      created ← timeNow env;
      updated ← timeNow env;
      NodePool.Add env (node.mkNode nodeID node.NodeStatusBooting ""
                                    created updated);;
      mret None
  end.

Definition performScalingCheck : M unit :=
  decision ← Predictor.CalculateScaling env config;
  if ShouldScaleUp decision then
    times (Z.to_nat (TargetNodes decision))
          (provisionNode;; mret tt)
  else mret tt.
  (* Scale down is handled by idle cleanup *)

Definition cleanupIdleNodes : M unit :=
  idleNodes ← Predictor.GetIdleNodes env config;
  forEach idleNodes (λ n,
    err ← NodeManager.TerminateNode env (node.ID n);
    match err with
    | Some _ => mret tt
    | None =>
        (* Update status to terminated *)
        NodePool.UpdateStatus env (node.ID n) node.NodeStatusTerminated
    end).

Definition cleanupStuckNodes : M unit :=
  stuckNodes ← Predictor.GetStuckBootingNodes env config;
  forEach stuckNodes (λ n,
    err ← NodeManager.TerminateNode env (node.ID n);
    match err with
    | Some _ => mret tt
    | None =>
        (* Remove from pool *)
        NodePool.Remove env (node.ID n)
    end).

(** One firing of the ticker in [Start]. *)
Definition tick : M unit :=
  performScalingCheck;;
  cleanupIdleNodes;;
  cleanupStuckNodes.

Definition HandleUserActivity (UserID : string) (Timestamp : Z)
  : M (option GoError) :=
  let timestamp := GoTime.Unix Timestamp in
  UserTracker.RecordActivity env UserID timestamp;;
  mret None.

Definition HandleUserConnect (UserID : string) : M (option GoError) :=
  r ← NodeAllocator.AllocateNodeToUser env UserID;
  match r with
  | (_, Some ErrNoReadyNode) =>
      (* Emergency provision *)
      provisionNode;;
      mret (Some ErrNoReadyNode)
  | (_, Some ErrAlreadyAllocated) => mret None
  | (_, Some err) => mret (Some err)
  | (_, None) => mret None
  end.

Definition HandleUserDisconnect (UserID : string)
  : M (option GoError) :=
  NodeAllocator.DeallocateNodeFromUser env UserID.

Definition HandleNodeStatus (NodeID : string) (Status : string)
  : M (option GoError) :=
  n ← NodePool.Get env NodeID;
  match n with
  | None =>
      created ← timeNow env;
      updated ← timeNow env;
      NodePool.Add env (node.mkNode NodeID Status "" created updated);;
      mret None
  | Some _ =>
      NodePool.UpdateStatus env NodeID Status;;
      mret None
  end.

(** The dispatch of the subscriber's [handleMessage] on a decoded
    payload. *)
Definition handle (e : events.Event) : M (option GoError) :=
  match e with
  | events.UserActivityEvent u ts => HandleUserActivity u ts
  | events.UserConnectEvent u => HandleUserConnect u
  | events.UserDisconnectEvent u => HandleUserDisconnect u
  | events.NodeStatusEvent n s => HandleNodeStatus n s
  end.

(** A run of handled events, in the order received. *)
Fixpoint handleAll (es : list events.Event) : M unit :=
  match es with
  | [] => mret tt
  | e :: es' => handle e;; handleAll es'
  end.

(** What the provisioner does next: handle a message of the bus, or
    run one tick of [Start]. *)
Inductive Step : Type :=
| Handle (e : events.Event)
| Tick.

Definition step (s : Step) : M unit :=
  match s with
  | Handle e => handle e;; mret tt
  | Tick => tick
  end.

End Methods.
End Provisioner.

(** The world at start-up: [NewNodePool], [NewUserTracker], no request
    sent. *)
Definition initial : World :=
  mkWorld NodePool.NewNodePool UserTracker.NewUserTracker [] 0 0.

(** ** The allocator as the specification words it *)

Module SpecAllocator.
Section Methods.

Variable env : Env.

(** One pick-and-allocate step; [None] reports the race (the picked
    node was no longer ready). *)
Definition pickAndAllocate (userID : string)
  : M (option (string * option GoError)) :=
  n ← NodePool.GetReadyNode env;
  match n with
  | None => mret (Some ("", Some ErrNoReadyNode))
  | Some n =>
      success ← NodePool.AllocateNode env (node.ID n) userID;
      if negb success then mret None
      else
        UserTracker.MarkConnected env userID (node.ID n);;
        mret (Some (node.ID n, None))
  end.

(** "On race (picked node no longer ready), retry once; if still
    unresolvable, return [ErrNoReadyNode]." *)
Definition AllocateNodeToUser (userID : string)
  : M (string * option GoError) :=
  state ← UserTracker.GetUserState env userID;
  if NodeAllocator.hasNode state then
    mret (from_option user.AllocatedNodeID "" state,
          Some ErrAlreadyAllocated)
  else
    first ← pickAndAllocate userID;
    match first with
    | Some r => mret r
    | None =>
        second ← pickAndAllocate userID;
        match second with
        | Some r => mret r
        | None => mret ("", Some ErrNoReadyNode)
        end
    end.

End Methods.
End SpecAllocator.

(** ** Notions the statements use *)

(** How many nodes of the pool have the given status. *)
Definition countStatus (p : gmap string node.Node) (s : node.NodeStatus)
  : nat :=
  length (filter (λ n, node.Status n = s) (values p)).

(** The number of terminations [GetIdleNodes] allows itself. *)
Definition maxTerminations (config : predictor.PredictionConfig)
    (readyCount : Z) : Z :=
  let m := GoInt.sub readyCount (predictor.MinReadyNodes config) in
  if decide (m < 0) then 0 else m.

(** Computations that carry a property of the pool along. *)
Definition preserves (I : gmap string node.Node → Prop) {A} (m : M A)
  : Prop :=
  ∀ w, I (nodes w) → I (nodes (m w).2).

(** Every record sits under its own identifier ([Add] is the only
    insertion and keys by [node.ID]). *)
Definition keyed (p : gmap string node.Node) : Prop :=
  ∀ k n, p !! k = Some n → node.ID n = k.

(** The pool holds [nodeID] with status [terminated]. *)
Definition isTerminated (p : gmap string node.Node) (nodeID : string)
  : Prop :=
  ∃ n, p !! nodeID = Some n ∧ node.Status n = node.NodeStatusTerminated.

(** The invariant a terminated node carries through a step. *)
Definition terminatedInv (nodeID : string) (p : gmap string node.Node)
  : Prop :=
  keyed p ∧ isTerminated p nodeID.

(** The steps that overwrite the status of [nodeID] whatever it is: a
    status event for it carrying another status, and the disconnect of
    a user bound to it. *)
Definition revives (w : World) (nodeID : string) (s : Provisioner.Step)
  : Prop :=
  match s with
  | Provisioner.Handle (events.NodeStatusEvent id status) =>
      id = nodeID ∧ status ≠ node.NodeStatusTerminated
  | Provisioner.Handle (events.UserDisconnectEvent u) =>
      ∃ st, users w !! u = Some st
            ∧ user.IsConnected st = true
            ∧ user.AllocatedNodeID st = nodeID
  | _ => False
  end.

(** Every node has a bound user exactly when it is allocated. *)
Definition bound_iff_allocated (p : gmap string node.Node) : Prop :=
  ∀ k n, p !! k = Some n →
    (node.UserID n ≠ "" ↔ node.Status n = node.NodeStatusAllocated).

(** ** Further notions *)

(** The tracker records [userID] as connected. *)
Definition isConnected (t : gmap string user.UserState) (userID : string)
  : bool :=
  from_option user.IsConnected false (t !! userID).

(** The record [MarkConnected] writes. *)
Definition connectedState (t : gmap string user.UserState)
    (userID nodeID : string) : user.UserState :=
  user.mkUserState
    (from_option user.UserID userID (t !! userID))
    (from_option user.LastActivityTime GoTime.zero (t !! userID))
    (from_option user.ActivityCount 0 (t !! userID))
    true nodeID.

(** Ready, booting and allocated nodes: what [MaxReadyNodes] caps. *)
Definition liveCount (p : gmap string node.Node) : nat :=
  countStatus p node.NodeStatusReady
  + countStatus p node.NodeStatusBooting
  + countStatus p node.NodeStatusAllocated.

(** Sizes for which the sums of [CalculateScaling] do not wrap. *)
Definition fitsInt (config : predictor.PredictionConfig) (w : World)
  : Prop :=
  Z.of_nat (size (nodes w)) + Z.of_nat (size (users w)) <= GoInt.max_int
  ∧ predictor.MinReadyNodes config + Z.of_nat (size (nodes w))
    <= GoInt.max_int
  ∧ GoInt.in_range (predictor.MinReadyNodes config)
  ∧ 0 <= predictor.MaxReadyNodes config <= GoInt.max_int.

(** A node as [UpdateStatus] leaves it when it sets [terminated]. *)
Definition terminatedVersion (n n' : node.Node) : Prop :=
  node.ID n' = node.ID n
  ∧ node.Status n' = node.NodeStatusTerminated
  ∧ node.UserID n' = node.UserID n
  ∧ node.CreatedAt n' = node.CreatedAt n.

(** Every user record sits under its own identifier, and a record that
    is not connected holds no node identifier. *)
Definition usersWf (t : gmap string user.UserState) : Prop :=
  ∀ k st, t !! k = Some st →
    user.UserID st = k
    ∧ (user.IsConnected st = false → user.AllocatedNodeID st = "").

(** Computations that carry a property of the tracker along. *)
Definition preservesUsers (I : gmap string user.UserState → Prop) {A}
    (m : M A) : Prop :=
  ∀ w, I (users w) → I (users (m w).2).

(** * Example runs *)

(** An environment for running examples: the clock advances by one
    second per reading from [start], [range] follows the map's key
    order, the API names its nodes [ids] in turn and accepts every
    deletion, and no other goroutine runs. *)
Definition quietEnv (start : Time) (ids : list string) : Env :=
  {| clockAt := λ k, start + Z.of_nat k * Second;
     orderNodes := λ _ p, values p;
     orderUsers := λ _ t, values t;
     createNode := λ k, ids !! k;
     deleteNode := λ _ _, true;
     others := λ _ s, s |}.


(** The defaults with [APP_PREDICTION_MAX_READY_NODES=1]. *)
Definition capOne : predictor.PredictionConfig :=
  {| predictor.ActivityWindow := 2 * Minute;
     predictor.ActivityThreshold := 3;
     predictor.PredictionWindow := 1 * Minute;
     predictor.MinReadyNodes := 1;
     predictor.MaxReadyNodes := 1;
     predictor.IdleTerminationTimeout := 5 * Minute;
     predictor.BootingNodeTimeout := 2 * Minute |}.

(** The world after an activity of [u1] stamped 200 s after the epoch. *)
Definition oneActivity : World :=
  (Provisioner.HandleUserActivity (quietEnv 0 []) "u1" 200 initial).2.

(** Two nodes announced ready. *)
Definition twoReady : World :=
  (Provisioner.handleAll (quietEnv 0 [])
     [ events.NodeStatusEvent "n1" "ready";
       events.NodeStatusEvent "n2" "ready" ] initial).2.

(** One node announced ready, then three activities of [u1]. *)
Definition warmEvents : list events.Event :=
  [ events.NodeStatusEvent "n1" "ready";
    events.UserActivityEvent "u1" 1000;
    events.UserActivityEvent "u1" 1001;
    events.UserActivityEvent "u1" 1002 ].

Definition warm : World :=
  (Provisioner.handleAll (quietEnv (GoTime.Unix 1000) []) warmEvents
     initial).2.

(** Two nodes announced ready on the bus and taken by [u1] and [u2],
    then three activities of [u3]; the clock starts 1000 s after the
    epoch. *)
Definition overCapEvents : list events.Event :=
  [ events.NodeStatusEvent "n1" "ready"; events.UserConnectEvent "u1";
    events.NodeStatusEvent "n2" "ready"; events.UserConnectEvent "u2";
    events.UserActivityEvent "u3" 1000;
    events.UserActivityEvent "u3" 1001;
    events.UserActivityEvent "u3" 1002 ].

Definition overCap : World :=
  (Provisioner.handleAll (quietEnv (GoTime.Unix 1000) []) overCapEvents
     initial).2.

(** [n1] is announced ready and taken by [u1]. *)
Definition allocatedEvents : list events.Event :=
  [ events.NodeStatusEvent "n1" "ready"; events.UserConnectEvent "u1" ].

Definition allocated : World :=
  (Provisioner.handleAll (quietEnv 0 []) allocatedEvents initial).2.

(** [n1] is announced ready, then terminated. *)
Definition terminated : World :=
  (Provisioner.handleAll (quietEnv 0 [])
     [ events.NodeStatusEvent "n1" "ready";
       events.NodeStatusEvent "n1" "terminated" ] initial).2.

(** [n1] is taken by [u1], then announced terminated while [u1] is
    still connected. *)
Definition terminatedInUse : World :=
  (Provisioner.HandleNodeStatus (quietEnv 0 []) "n1" "terminated"
     allocated).2.

(** [n1] announced booting and [n2] announced ready, at the start of
    the clock. *)
Definition bootingAndReady : World :=
  (Provisioner.handleAll (quietEnv 0 [])
     [ events.NodeStatusEvent "n1" "booting";
       events.NodeStatusEvent "n2" "ready" ] initial).2.

(** One node taken by [u1], one node ready, and two activities of
    [u2]; the clock starts 1000 s after the epoch. *)
Definition atRest : World :=
  (Provisioner.handleAll (quietEnv (GoTime.Unix 1000) [])
     [ events.NodeStatusEvent "n1" "ready"; events.UserConnectEvent "u1";
       events.NodeStatusEvent "n2" "ready";
       events.UserActivityEvent "u2" 1000;
       events.UserActivityEvent "u2" 1001 ] initial).2.

(** A node with the empty identifier is announced ready and taken by
    [u1]; no ready node is left. *)
Definition emptyIdHeld : World :=
  (Provisioner.handleAll (quietEnv 0 [])
     [ events.NodeStatusEvent EmptyString "ready";
       events.UserConnectEvent "u1" ] initial).2.

(** A node with the empty identifier is announced ready and taken by
    [u1], then [n2] is announced ready. *)
Definition emptyIdTaken : World :=
  (Provisioner.handleAll (quietEnv 0 [])
     [ events.NodeStatusEvent EmptyString "ready";
       events.UserConnectEvent "u1";
       events.NodeStatusEvent "n2" "ready" ] initial).2.

(** * Properties *)

(** ** Wrap-around arithmetic *)

Lemma wrap_in_range (z : Z) : GoInt.in_range z → GoInt.wrap z = z.
Proof.
  unfold GoInt.in_range, GoInt.min_int, GoInt.max_int, GoInt.wrap.
  intros Hz. rewrite Z.mod_small; lia.
Qed.

(** ** Running the primitives *)

Lemma quietEnv_alone start ids : Alone (quietEnv start ids).
Proof. intros k s. reflexivity. Qed.

Lemma quietEnv_fair start ids : FairRange (quietEnv start ids).
Proof. split; intros k m; reflexivity. Qed.

Lemma lock_alone env w :
  Alone env →
  lock env w
  = (tt, mkWorld (nodes w) (users w) (apiLog w) (clockReads w)
                 (S (sched w))).
Proof. intros Ha. unfold lock. rewrite Ha. reflexivity. Qed.

(** Unfolds the state passing down to the primitives. *)
Ltac unfold_M :=
  unfold mbind, M_bind, mret, M_ret, getNodes, getUsers, setNodes,
    setUsers, timeNow, rangeNodes, rangeUsers in *.

Ltac run_alone H :=
  unfold_M;
  repeat (progress
            (cbn [fst snd nodes users apiLog clockReads sched negb] in *;
             try rewrite lock_alone in * by exact H)).

(** ** Activity timestamps *)

(** C9. For a user the tracker already knows, [RecordActivity] stores
    the timestamp it is given as the last-activity time, whatever the
    time stored before, and counts the activity; a timestamp earlier
    than the stored one therefore moves the last-activity time
    backwards. *)
Theorem RecordActivity_overwrites_last_activity
    (env : Env) (w : World) (userID : string) (ts : Time)
    (st : user.UserState) :
  Alone env →
  users w !! userID = Some st →
  ∃ st',
    users (UserTracker.RecordActivity env userID ts w).2 !! userID
      = Some st'
    ∧ user.LastActivityTime st' = ts
    ∧ user.ActivityCount st' = GoInt.add (user.ActivityCount st) 1
    ∧ (ts < user.LastActivityTime st →
       user.LastActivityTime st' < user.LastActivityTime st).
Proof.
  intros Ha Hst. unfold UserTracker.RecordActivity. run_alone Ha.
  rewrite Hst. cbn. rewrite lookup_insert_eq.
  eexists. split; [reflexivity|]. cbn. auto.
Qed.

Lemma RecordActivity_overwrites_witness :
  ∃ st',
    users (UserTracker.RecordActivity (quietEnv 0 []) "u1"
             (GoTime.Unix 100) oneActivity).2 !! "u1" = Some st'
    ∧ user.LastActivityTime st' = GoTime.Unix 100
    ∧ user.LastActivityTime st' < GoTime.Unix 200.
Proof.
  destruct (RecordActivity_overwrites_last_activity (quietEnv 0 [])
              oneActivity "u1" (GoTime.Unix 100)
              (user.mkUserState "u1" (GoTime.Unix 200) 1 false ""))
    as (st' & Hst' & Hlast & _ & Hback).
  - apply quietEnv_alone.
  - vm_compute. reflexivity.
  - exists st'. split; [exact Hst'|]. split; [exact Hlast|].
    apply Hback. vm_compute. reflexivity.
Defined.

(** ** Counting nodes *)

Lemma count_loop (s : node.NodeStatus) (l : list node.Node) (c : Z) :
  0 <= c →
  c + Z.of_nat (length l) <= GoInt.max_int →
  foldl (λ count n,
           if decide (node.Status n = s) then GoInt.add count 1
           else count) c l
  = c + Z.of_nat (length (filter (λ n, node.Status n = s) l)).
Proof.
  revert c. induction l as [|n l IH]; intros c Hc Hlen; cbn [foldl].
  - cbn. lia.
  - cbn [length] in Hlen. rewrite filter_cons.
    destruct (decide (node.Status n = s)) as [Hs|Hs].
    + unfold GoInt.add. rewrite wrap_in_range.
      * rewrite IH by lia. cbn [length]. lia.
      * unfold GoInt.in_range, GoInt.min_int, GoInt.max_int in *. lia.
    + rewrite IH by lia. reflexivity.
Qed.

Lemma length_values {A} (m : gmap string A) : length (values m) = size m.
Proof. unfold values. rewrite length_fmap. apply length_map_to_list. Qed.

Lemma count_order (p : gmap string node.Node) (s : node.NodeStatus)
    (order : list node.Node) :
  order ≡ₚ values p →
  length (filter (λ n, node.Status n = s) order) = countStatus p s.
Proof. intros Ho. unfold countStatus. rewrite Ho. reflexivity. Qed.

Lemma filter_length_disjoint3 {A} (P Q R : A → Prop)
    `{∀ x, Decision (P x)} `{∀ x, Decision (Q x)} `{∀ x, Decision (R x)}
    (l : list A) :
  (∀ x, P x → Q x → False) →
  (∀ x, P x → R x → False) →
  (∀ x, Q x → R x → False) →
  (length (filter P l) + length (filter Q l) + length (filter R l)
   <= length l)%nat.
Proof.
  intros HPQ HPR HQR. induction l as [|x l IH]; [reflexivity|].
  rewrite !filter_cons.
  destruct (decide (P x)), (decide (Q x)), (decide (R x));
    cbn [length]; try lia;
    exfalso; eauto.
Qed.

Lemma countStatus_live_le_size (p : gmap string node.Node) :
  (countStatus p node.NodeStatusReady
   + countStatus p node.NodeStatusBooting
   + countStatus p node.NodeStatusAllocated <= size p)%nat.
Proof.
  unfold countStatus. rewrite <- (length_values p).
  apply filter_length_disjoint3; intros x H1 H2; rewrite H1 in H2;
    discriminate H2.
Qed.

(** ** The scaling decision *)

Section DecideScaling.

Import predictor.

Variable config : PredictionConfig.
Variables r b a d : Z.

Hypothesis r_nonneg : 0 <= r.
Hypothesis b_nonneg : 0 <= b.
Hypothesis a_nonneg : 0 <= a.
Hypothesis d_nonneg : 0 <= d.
Hypothesis pool_fits : r + b + a <= GoInt.max_int.
Hypothesis demand_fits : d <= GoInt.max_int.
Hypothesis min_is_int : GoInt.in_range (MinReadyNodes config).

Let capacity_exact : GoInt.add r b = r + b.
Proof.
  unfold GoInt.add. apply wrap_in_range.
  unfold GoInt.in_range, GoInt.min_int, GoInt.max_int in *. lia.
Qed.

Lemma decide_scaling_exclusive :
  let decision := Predictor.decide_scaling config r b a d in
  ¬ (ShouldScaleUp decision = true ∧ ShouldScaleDown decision = true).
Proof.
  unfold Predictor.decide_scaling. rewrite !capacity_exact.
  cbv zeta. cbn [ShouldScaleUp ShouldScaleDown TargetNodes Reason].
  destruct (decide (0 < GoInt.sub r (MinReadyNodes config) ∧ d = 0))
    as [[Hex Hd]|Hno].
  - cbn [ShouldScaleUp ShouldScaleDown].
    assert (Hlt : MinReadyNodes config < r).
    { unfold GoInt.sub in Hex.
      destruct (decide (r < MinReadyNodes config)) as [Hlt|]; [|
        destruct (decide (r = MinReadyNodes config)) as [->|]; [|lia]].
      - rewrite wrap_in_range in Hex; [lia|].
        unfold GoInt.in_range, GoInt.min_int, GoInt.max_int in *. lia.
      - rewrite Z.sub_diag in Hex. vm_compute in Hex. discriminate. }
    destruct (decide (r + b < d)); [lia|].
    destruct (decide (r < MinReadyNodes config ∧
                      r + b < MinReadyNodes config)); [lia|].
    cbn. intros [? _]. discriminate.
  - repeat case_decide; cbn; intros [_ ?]; discriminate.
Qed.

Lemma decide_scaling_flag_positive :
  let decision := Predictor.decide_scaling config r b a d in
  ShouldScaleUp decision = true ∨ ShouldScaleDown decision = true →
  0 < TargetNodes decision.
Proof.
  unfold Predictor.decide_scaling. rewrite !capacity_exact.
  cbv zeta. cbn [ShouldScaleUp ShouldScaleDown TargetNodes Reason].
  destruct (decide (0 < GoInt.sub r (MinReadyNodes config) ∧ d = 0))
    as [[Hex Hd]|Hno]; [cbn; tauto|].
  destruct (decide (r + b < d)) as [Hd|Hd].
  - cbn [ShouldScaleUp ShouldScaleDown TargetNodes Reason].
    assert (Ht : GoInt.sub d (r + b) = d - (r + b)).
    { unfold GoInt.sub. apply wrap_in_range.
      unfold GoInt.in_range, GoInt.min_int, GoInt.max_int in *. lia. }
    rewrite Ht.
    repeat case_decide; cbn; intros [?|?]; try discriminate; lia.
  - destruct (decide (r < MinReadyNodes config ∧
                      r + b < MinReadyNodes config)) as [[Hr Hm]|Hm].
    + cbn [ShouldScaleUp ShouldScaleDown TargetNodes Reason].
      assert (Ht : GoInt.sub (MinReadyNodes config) (r + b)
                   = MinReadyNodes config - (r + b)).
      { unfold GoInt.sub. apply wrap_in_range.
        unfold GoInt.in_range, GoInt.min_int, GoInt.max_int in *. lia. }
      rewrite Ht.
      repeat case_decide; cbn; intros [?|?]; try discriminate; lia.
    + cbn. intros [?|?]; discriminate.
Qed.

Lemma decide_scaling_negative_only_capped :
  let decision := Predictor.decide_scaling config r b a d in
  TargetNodes decision < 0 →
  ShouldScaleUp decision = false ∧ ShouldScaleDown decision = false
  ∧ TargetNodes decision = GoInt.sub (MaxReadyNodes config) (r + b + a).
Proof.
  assert (Htot : GoInt.add (r + b) a = r + b + a).
  { unfold GoInt.add. apply wrap_in_range.
    unfold GoInt.in_range, GoInt.min_int, GoInt.max_int in *. lia. }
  unfold Predictor.decide_scaling. rewrite !capacity_exact, !Htot.
  cbv zeta. cbn [ShouldScaleUp ShouldScaleDown TargetNodes Reason].
  destruct (decide (0 < GoInt.sub r (MinReadyNodes config) ∧ d = 0))
    as [[Hex Hd]|Hno]; [cbn; lia|].
  destruct (decide (r + b < d)) as [Hd|Hd].
  - cbn [ShouldScaleUp ShouldScaleDown TargetNodes Reason].
    assert (Ht : GoInt.sub d (r + b) = d - (r + b)).
    { unfold GoInt.sub. apply wrap_in_range.
      unfold GoInt.in_range, GoInt.min_int, GoInt.max_int in *. lia. }
    rewrite Ht.
    repeat case_decide; cbn; intros ?; try lia; auto.
  - destruct (decide (r < MinReadyNodes config ∧
                      r + b < MinReadyNodes config)) as [[Hr Hm]|Hm].
    + cbn [ShouldScaleUp ShouldScaleDown TargetNodes Reason].
      assert (Ht : GoInt.sub (MinReadyNodes config) (r + b)
                   = MinReadyNodes config - (r + b)).
      { unfold GoInt.sub. apply wrap_in_range.
        unfold GoInt.in_range, GoInt.min_int, GoInt.max_int in *. lia. }
      rewrite Ht.
      repeat case_decide; cbn; intros ?; try lia; auto.
    + cbn. lia.
Qed.

End DecideScaling.

Lemma CountByStatus_run env w s :
  Alone env → FairRange env →
  Z.of_nat (size (nodes w)) <= GoInt.max_int →
  NodePool.CountByStatus env s w
  = (Z.of_nat (countStatus (nodes w) s),
     mkWorld (nodes w) (users w) (apiLog w) (clockReads w)
             (S (S (sched w)))).
Proof.
  intros Ha [Hn _] Hsz. unfold NodePool.CountByStatus. run_alone Ha.
  f_equal. rewrite count_loop.
  - rewrite (count_order (nodes w)) by apply Hn. lia.
  - lia.
  - rewrite (Permutation_length (Hn _ _)), length_values. lia.
Qed.

Lemma CalculateScaling_run env config w :
  Alone env → FairRange env →
  Z.of_nat (size (nodes w)) <= GoInt.max_int →
  ∃ d,
    0 <= d <= Z.of_nat (size (users w)) ∧
    (Predictor.CalculateScaling env config w).1
    = Predictor.decide_scaling config
        (Z.of_nat (countStatus (nodes w) node.NodeStatusReady))
        (Z.of_nat (countStatus (nodes w) node.NodeStatusBooting))
        (Z.of_nat (countStatus (nodes w) node.NodeStatusAllocated))
        d.
Proof.
  intros Ha Hf Hsz. unfold Predictor.CalculateScaling.
  unfold mbind at 1, M_bind at 1. rewrite CountByStatus_run by done.
  unfold mbind at 1, M_bind at 1. rewrite CountByStatus_run by done.
  unfold mbind at 1, M_bind at 1. rewrite CountByStatus_run by done.
  unfold UserTracker.GetLikelyToConnect. run_alone Ha.
  eexists. split; [|reflexivity].
  unfold GoInt.len. split; [lia|].
  apply inj_le. etrans; [apply length_filter|].
  destruct Hf as [_ Hu].
  rewrite (Permutation_length (Hu _ _)), length_values. done.
Qed.

(** ** Scale-up and scale-down exclude each other *)

(** C7. Whatever the pool and the tracker hold, the decision
    [CalculateScaling] returns never has [ShouldScaleUp] and
    [ShouldScaleDown] both set. *)
Theorem CalculateScaling_never_up_and_down
    (env : Env) (config : predictor.PredictionConfig) (w : World) :
  Alone env → FairRange env →
  Z.of_nat (size (nodes w)) <= GoInt.max_int →
  GoInt.in_range (predictor.MinReadyNodes config) →
  let decision := (Predictor.CalculateScaling env config w).1 in
  ¬ (predictor.ShouldScaleUp decision = true
     ∧ predictor.ShouldScaleDown decision = true).
Proof.
  intros Ha Hf Hn Hmin.
  destruct (CalculateScaling_run env config w Ha Hf Hn) as (d & Hd & ->).
  pose proof (countStatus_live_le_size (nodes w)).
  unfold GoInt.max_int in *.
  apply decide_scaling_exclusive; unfold GoInt.max_int; try lia; done.
Qed.

Lemma CalculateScaling_never_up_and_down_witness :
  let decision :=
    (Predictor.CalculateScaling (quietEnv (GoTime.Unix 1000) [])
       predictor.DefaultPredictionConfig overCap).1 in
  ¬ (predictor.ShouldScaleUp decision = true
     ∧ predictor.ShouldScaleDown decision = true).
Proof.
  apply (CalculateScaling_never_up_and_down
           (quietEnv (GoTime.Unix 1000) [])
           predictor.DefaultPredictionConfig overCap).
  - apply quietEnv_alone.
  - apply quietEnv_fair.
  - vm_compute. discriminate.
  - vm_compute. split; discriminate.
Defined.

(** ** The sign of [TargetNodes] *)

(** With the cap at one node, two allocated nodes and one user likely to
    connect, the cap clears [ShouldScaleUp] and leaves [TargetNodes] at
    [1 - 2]. *)
Lemma CalculateScaling_negative_target :
  Predictor.CalculateScaling (quietEnv (GoTime.Unix 1000) []) capOne
    overCap
  = (predictor.mkScalingDecision false false (-1)
       "demand exceeds capacity",
     mkWorld (nodes overCap) (users overCap) (apiLog overCap)
       (S (clockReads overCap)) (8 + sched overCap))
  ∧ ¬ (0 <= predictor.TargetNodes
              (Predictor.CalculateScaling
                 (quietEnv (GoTime.Unix 1000) []) capOne overCap).1).
Proof. split; [vm_compute; reflexivity | vm_compute; auto]. Qed.

(** C4, as the code has it. Whenever the decision [CalculateScaling]
    returns sets [ShouldScaleUp] or [ShouldScaleDown], its [TargetNodes]
    is at least one; [TargetNodes] is negative only when the cap has
    cleared [ShouldScaleUp], where it is [MaxReadyNodes] minus the
    number of ready, booting and allocated nodes and both flags are
    clear. *)
Theorem CalculateScaling_target_sign
    (env : Env) (config : predictor.PredictionConfig) (w : World) :
  Alone env → FairRange env →
  Z.of_nat (size (nodes w)) <= GoInt.max_int →
  Z.of_nat (size (users w)) <= GoInt.max_int →
  GoInt.in_range (predictor.MinReadyNodes config) →
  let decision := (Predictor.CalculateScaling env config w).1 in
  (predictor.ShouldScaleUp decision = true
   ∨ predictor.ShouldScaleDown decision = true →
   1 <= predictor.TargetNodes decision)
  ∧ (predictor.TargetNodes decision < 0 →
     predictor.ShouldScaleUp decision = false
     ∧ predictor.ShouldScaleDown decision = false
     ∧ predictor.TargetNodes decision
       = GoInt.sub (predictor.MaxReadyNodes config)
           (Z.of_nat (countStatus (nodes w) node.NodeStatusReady)
            + Z.of_nat (countStatus (nodes w) node.NodeStatusBooting)
            + Z.of_nat (countStatus (nodes w) node.NodeStatusAllocated))).
Proof.
  intros Ha Hf Hn Hu Hmin.
  destruct (CalculateScaling_run env config w Ha Hf Hn) as (d & Hd & ->).
  pose proof (countStatus_live_le_size (nodes w)).
  unfold GoInt.max_int in *. cbv zeta. split.
  - intros Hflag. apply (Zlt_le_succ 0). revert Hflag.
    apply decide_scaling_flag_positive; unfold GoInt.max_int; try lia; done.
  - apply decide_scaling_negative_only_capped;
      unfold GoInt.max_int; try lia; done.
Qed.

Lemma CalculateScaling_target_sign_witness :
  let decision :=
    (Predictor.CalculateScaling (quietEnv (GoTime.Unix 1000) []) capOne
       overCap).1 in
  (predictor.ShouldScaleUp decision = true
   ∨ predictor.ShouldScaleDown decision = true →
   1 <= predictor.TargetNodes decision)
  ∧ (predictor.TargetNodes decision < 0 →
     predictor.ShouldScaleUp decision = false
     ∧ predictor.ShouldScaleDown decision = false
     ∧ predictor.TargetNodes decision
       = GoInt.sub (predictor.MaxReadyNodes capOne)
           (Z.of_nat (countStatus (nodes overCap) node.NodeStatusReady)
            + Z.of_nat (countStatus (nodes overCap) node.NodeStatusBooting)
            + Z.of_nat
                (countStatus (nodes overCap) node.NodeStatusAllocated))).
Proof.
  apply (CalculateScaling_target_sign (quietEnv (GoTime.Unix 1000) [])
           capOne overCap).
  - apply quietEnv_alone.
  - apply quietEnv_fair.
  - vm_compute. discriminate.
  - vm_compute. discriminate.
  - vm_compute. split; discriminate.
Defined.

(** ** Duplicate status events *)

(** The first [node:status{n1, ready}] inserts [n1]; its duplicate goes
    through [UpdateStatus], which stamps [UpdatedAt] afresh: the pool
    after the duplicate differs from the pool before it. *)
Lemma duplicate_NodeStatus_changes_pool :
  let env := quietEnv 0 [] in
  let w1 := (Provisioner.HandleNodeStatus env "n1" "ready" initial).2 in
  let w2 := (Provisioner.HandleNodeStatus env "n1" "ready" w1).2 in
  nodes w1 !! "n1"
  = Some (node.mkNode "n1" "ready" "" 0 (1 * Second))
  ∧ nodes w2 !! "n1"
    = Some (node.mkNode "n1" "ready" "" 0 (2 * Second))
  ∧ nodes w2 ≠ nodes w1.
Proof.
  cbv zeta. split; [vm_compute; reflexivity|].
  split; [vm_compute; reflexivity|].
  intros Heq. apply (f_equal (λ p : gmap string node.Node, p !! "n1")) in Heq.
  vm_compute in Heq. discriminate Heq.
Qed.

(** C6, as the code has it. Handling a [NodeStatusEvent] a second time
    right after the first leaves every other node, the tracker, and the
    event's node in its identifier, status, bound user and creation
    time as the first handling left them; only the [UpdatedAt] of the
    event's node changes, to the clock reading of the second
    handling. *)
Theorem duplicate_NodeStatus_refreshes_UpdatedAt_only
    (env : Env) (w : World) (NodeID Status : string) :
  Alone env →
  let w1 := (Provisioner.HandleNodeStatus env NodeID Status w).2 in
  let w2 := (Provisioner.HandleNodeStatus env NodeID Status w1).2 in
  (∀ k, k ≠ NodeID → nodes w2 !! k = nodes w1 !! k)
  ∧ users w2 = users w1
  ∧ ∃ n,
      nodes w1 !! NodeID = Some n
      ∧ node.Status n = Status
      ∧ nodes w2 !! NodeID
        = Some (node.mkNode (node.ID n) (node.Status n) (node.UserID n)
                  (node.CreatedAt n) (clockAt env (clockReads w1))).
Proof.
  intros Ha. cbv zeta.
  assert (H1 : ∃ n, nodes (Provisioner.HandleNodeStatus env NodeID Status
                             w).2 !! NodeID = Some n
                    ∧ node.Status n = Status).
  { unfold Provisioner.HandleNodeStatus, NodePool.Get, NodePool.Add,
      NodePool.UpdateStatus.
    run_alone Ha. destruct (nodes w !! NodeID) as [n|] eqn:Hn.
    - run_alone Ha. rewrite Hn. cbn. rewrite lookup_insert_eq. eauto.
    - run_alone Ha. cbn. rewrite lookup_insert_eq. eauto. }
  destruct H1 as (n & Hn1 & Hs).
  set (w1 := (Provisioner.HandleNodeStatus env NodeID Status w).2) in *.
  unfold Provisioner.HandleNodeStatus at 1 2 3, NodePool.Get, NodePool.Add,
    NodePool.UpdateStatus.
  run_alone Ha. rewrite Hn1. run_alone Ha. rewrite Hn1. cbn.
  split; [|split].
  - intros k Hk. rewrite lookup_insert_ne by done. reflexivity.
  - reflexivity.
  - exists n. rewrite lookup_insert_eq, Hs. auto.
Qed.

Lemma duplicate_NodeStatus_witness :
  let env := quietEnv 0 [] in
  let w1 := (Provisioner.HandleNodeStatus env "n1" "ready" initial).2 in
  let w2 := (Provisioner.HandleNodeStatus env "n1" "ready" w1).2 in
  (∀ k, k ≠ "n1" → nodes w2 !! k = nodes w1 !! k)
  ∧ users w2 = users w1
  ∧ ∃ n,
      nodes w1 !! "n1" = Some n
      ∧ node.Status n = "ready"
      ∧ nodes w2 !! "n1"
        = Some (node.mkNode (node.ID n) (node.Status n) (node.UserID n)
                  (node.CreatedAt n) (clockAt env (clockReads w1))).
Proof.
  apply (duplicate_NodeStatus_refreshes_UpdatedAt_only (quietEnv 0 [])
           initial "n1" "ready").
  apply quietEnv_alone.
Defined.

(** ** The allocator *)

Ltac unfold_allocator :=
  unfold NodeAllocator.AllocateNodeToUser, UserTracker.GetUserState,
    NodePool.GetReadyNode, NodePool.AllocateNode,
    UserTracker.MarkConnected in *.

(** What [AllocateNodeToUser] leaves behind when it reports
    [ErrNoReadyNode]. *)
Lemma AllocateNodeToUser_no_ready_node env w userID nodeID w1 :
  Alone env →
  NodeAllocator.AllocateNodeToUser env userID w
  = ((nodeID, Some ErrNoReadyNode), w1) →
  NodeAllocator.hasNode (users w !! userID) = false
  ∧ nodes w1 = nodes w ∧ users w1 = users w ∧ apiLog w1 = apiLog w
  ∧ clockReads w1 = clockReads w.
Proof.
  intros Ha. unfold_allocator. run_alone Ha.
  destruct (NodeAllocator.hasNode (users w !! userID)); [discriminate|].
  run_alone Ha.
  destruct (find _ _) as [n|]; run_alone Ha.
  - destruct (nodes w !! node.ID n) as [n'|]; run_alone Ha;
      [destruct (decide _); run_alone Ha|]; cbn; discriminate.
  - intros [= <- <-]. cbn. auto.
Qed.

(** ** Connecting with no ready node *)

(** [u1] holds the node whose identifier is empty, which the allocator
    does not take for an allocation; at the next [user:connect] of [u1]
    no node is ready, so [AllocateNodeToUser] returns [ErrNoReadyNode]
    and the handler provisions and returns the error, while the tracker
    has [u1] connected before and after: [GetConnectedUsers] lists it
    and [GetAllocation] answers true. *)
Lemma HandleUserConnect_error_for_connected_user :
  let env := quietEnv 0 ["n9"] in
  let r := Provisioner.HandleUserConnect env "u1" emptyIdHeld in
  (NodeAllocator.AllocateNodeToUser env "u1" emptyIdHeld).1
  = (EmptyString, Some ErrNoReadyNode)
  ∧ r.1 = Some ErrNoReadyNode
  ∧ apiLog r.2 = apiLog emptyIdHeld ++ [PostNodes]
  ∧ isConnected (users r.2) "u1" = true
  ∧ user.UserID <$> (UserTracker.GetConnectedUsers env r.2).1 = ["u1"]
  ∧ (NodeAllocator.GetAllocation env "u1" r.2).1 = (EmptyString, true).
Proof.
  cbv zeta. repeat split; vm_compute; reflexivity.
Qed.

(** C10, as the code has it. When [AllocateNodeToUser] reports
    [ErrNoReadyNode], [HandleUserConnect] sends exactly one
    [POST /api/nodes], puts the node the API names (if it names one)
    into the pool as booting, and still returns [ErrNoReadyNode]; the
    tracker is left as it was, so a user that was not connected is not
    connected afterwards, and a user that is connected afterwards was
    already recorded as connected, with an empty node identifier. *)
Theorem HandleUserConnect_no_ready_node
    (env : Env) (w : World) (UserID : string) (nodeID : string)
    (w1 : World) :
  Alone env →
  NodeAllocator.AllocateNodeToUser env UserID w
  = ((nodeID, Some ErrNoReadyNode), w1) →
  let r := Provisioner.HandleUserConnect env UserID w in
  r.1 = Some ErrNoReadyNode
  ∧ apiLog r.2 = apiLog w ++ [PostNodes]
  ∧ users r.2 = users w
  ∧ NodeAllocator.hasNode (users r.2 !! UserID) = false
  ∧ isConnected (users r.2) UserID = isConnected (users w) UserID
  ∧ (isConnected (users r.2) UserID = true →
     ∃ st, users w !! UserID = Some st
           ∧ user.IsConnected st = true
           ∧ user.AllocatedNodeID st = "")
  ∧ nodes r.2
    = match createNode env (length (apiLog w)) with
      | Some id =>
          <[id := node.mkNode id node.NodeStatusBooting ""
                    (clockAt env (clockReads w))
                    (clockAt env (S (clockReads w)))]> (nodes w)
      | None => nodes w
      end.
Proof.
  intros Ha Halloc.
  destruct (AllocateNodeToUser_no_ready_node _ _ _ _ _ Ha Halloc)
    as (Hhas & Hn & Hu & Hl & Hc).
  assert (Hheld : isConnected (users w) UserID = true →
                  ∃ st, users w !! UserID = Some st
                        ∧ user.IsConnected st = true
                        ∧ user.AllocatedNodeID st = "").
  { unfold isConnected, NodeAllocator.hasNode in *.
    destruct (users w !! UserID) as [st|]; cbn [from_option];
      [|discriminate].
    intros Hconn. exists st. rewrite Hconn in Hhas.
    cbn [andb] in Hhas. apply bool_decide_eq_false in Hhas.
    split; [done|]. split; [done|].
    by destruct (decide (user.AllocatedNodeID st = "")). }
  cbv zeta.
  destruct (Provisioner.HandleUserConnect env UserID w) as [err w2] eqn:Hr.
  unfold Provisioner.HandleUserConnect in Hr.
  unfold mbind at 1, M_bind at 1 in Hr. rewrite Halloc in Hr.
  unfold Provisioner.provisionNode, NodeManager.ProvisionNode,
    NodePool.Add in Hr.
  run_alone Ha. rewrite Hl in Hr.
  destruct (createNode env (length (apiLog w))) as [id|];
    run_alone Ha; injection Hr as <- <-; cbn;
    rewrite ?Hn, ?Hu, ?Hl, ?Hc; auto 10.
Qed.

Lemma HandleUserConnect_no_ready_node_witness :
  let env := quietEnv 0 ["n1"] in
  let r := Provisioner.HandleUserConnect env "u1" oneActivity in
  r.1 = Some ErrNoReadyNode
  ∧ apiLog r.2 = apiLog oneActivity ++ [PostNodes]
  ∧ users r.2 = users oneActivity
  ∧ NodeAllocator.hasNode (users r.2 !! "u1") = false
  ∧ isConnected (users r.2) "u1" = isConnected (users oneActivity) "u1"
  ∧ (isConnected (users r.2) "u1" = true →
     ∃ st, users oneActivity !! "u1" = Some st
           ∧ user.IsConnected st = true
           ∧ user.AllocatedNodeID st = EmptyString)
  ∧ nodes r.2
    = match createNode env (length (apiLog oneActivity)) with
      | Some id =>
          <[id := node.mkNode id node.NodeStatusBooting EmptyString
                    (clockAt env (clockReads oneActivity))
                    (clockAt env (S (clockReads oneActivity)))]>
            (nodes oneActivity)
      | None => nodes oneActivity
      end.
Proof.
  apply (HandleUserConnect_no_ready_node (quietEnv 0 ["n1"]) oneActivity
           "u1" EmptyString
           (NodeAllocator.AllocateNodeToUser (quietEnv 0 ["n1"]) "u1"
              oneActivity).2).
  - apply quietEnv_alone.
  - vm_compute. reflexivity.
Defined.

(** ** A lost race for the picked node *)




(** ** Activity count on allocation *)

(** [u1] has three activities on record when it connects and takes
    [n1]: the allocation succeeds and the activity count still reads
    three. *)
Lemma AllocateNodeToUser_keeps_activity_count :
  let env := quietEnv (GoTime.Unix 1000) [] in
  let r := NodeAllocator.AllocateNodeToUser env "u1" warm in
  user.ActivityCount <$> users warm !! "u1" = Some 3
  ∧ r.1 = ("n1", None)
  ∧ users r.2 !! "u1"
    = Some (user.mkUserState "u1" (GoTime.Unix 1002) 3 true "n1")
  ∧ user.ActivityCount <$> users r.2 !! "u1" ≠ Some 0.
Proof.
  cbv zeta. repeat split; try (vm_compute; reflexivity).
  vm_compute. discriminate.
Qed.

(** C8, as the code has it. When [AllocateNodeToUser] succeeds, the
    user is marked connected and bound to the returned node, and the
    activity count and last-activity time stay as they were: the
    allocator never resets the count.  Only a user the tracker did not
    know ends with count zero, its record being created by
    [MarkConnected]. *)
Theorem AllocateNodeToUser_success_keeps_count
    (env : Env) (w w' : World) (userID nodeID : string) :
  Alone env →
  NodeAllocator.AllocateNodeToUser env userID w = ((nodeID, None), w') →
  ∃ st',
    users w' !! userID = Some st'
    ∧ user.IsConnected st' = true
    ∧ user.AllocatedNodeID st' = nodeID
    ∧ user.ActivityCount st'
      = from_option user.ActivityCount 0 (users w !! userID)
    ∧ user.LastActivityTime st'
      = from_option user.LastActivityTime GoTime.zero
          (users w !! userID).
Proof.
  intros Ha. unfold_allocator. run_alone Ha.
  destruct (NodeAllocator.hasNode (users w !! userID)); [discriminate|].
  run_alone Ha.
  destruct (find _ _) as [n|]; run_alone Ha; [|discriminate].
  destruct (nodes w !! node.ID n) as [n'|]; run_alone Ha; [|discriminate].
  destruct (decide _); run_alone Ha; [discriminate|].
  intros [= <- <-]. cbn. rewrite lookup_insert_eq.
  eexists. split; [reflexivity|]. cbn.
  destruct (users w !! userID); cbn; auto.
Qed.

Lemma AllocateNodeToUser_success_witness :
  ∃ st',
    users
      (mkWorld
         (<["n1" := node.mkNode "n1" node.NodeStatusAllocated "u1"
                      (GoTime.Unix 1000)
                      (GoTime.Unix 1000 + 2 * Second)]> (nodes warm))
         (<["u1" := user.mkUserState "u1" (GoTime.Unix 1002) 3 true "n1"]>
            (users warm))
         [] 3 10) !! "u1" = Some st'
    ∧ user.IsConnected st' = true
    ∧ user.AllocatedNodeID st' = "n1"
    ∧ user.ActivityCount st'
      = from_option user.ActivityCount 0 (users warm !! "u1")
    ∧ user.LastActivityTime st'
      = from_option user.LastActivityTime GoTime.zero
          (users warm !! "u1").
Proof.
  apply (AllocateNodeToUser_success_keeps_count
           (quietEnv (GoTime.Unix 1000) []) warm _ "u1" "n1").
  - apply quietEnv_alone.
  - vm_compute. reflexivity.
Defined.

(** ** Bound user and allocated status *)

(** A status event for a node with a bound user keeps the user bound,
    whatever status it sets. *)
Lemma HandleNodeStatus_keeps_UserID env w NodeID Status n :
  Alone env →
  nodes w !! NodeID = Some n →
  nodes (Provisioner.HandleNodeStatus env NodeID Status w).2 !! NodeID
  = Some (node.mkNode (node.ID n) Status (node.UserID n)
            (node.CreatedAt n) (clockAt env (clockReads w))).
Proof.
  intros Ha Hn.
  unfold Provisioner.HandleNodeStatus, NodePool.Get, NodePool.UpdateStatus.
  run_alone Ha. rewrite Hn. run_alone Ha. rewrite Hn. run_alone Ha.
  unfold mret, M_ret. cbn [snd nodes]. by rewrite lookup_insert_eq.
Qed.

Lemma HandleNodeStatus_breaks_bound_iff_allocated env w NodeID Status n :
  Alone env →
  nodes w !! NodeID = Some n →
  node.UserID n ≠ "" →
  Status ≠ node.NodeStatusAllocated →
  ¬ bound_iff_allocated
      (nodes (Provisioner.HandleNodeStatus env NodeID Status w).2).
Proof.
  intros Ha Hn Hu Hs Hinv.
  pose proof (HandleNodeStatus_keeps_UserID env w NodeID Status n Ha Hn)
    as Hl.
  destruct (Hinv _ _ Hl) as [Hbound _]. cbn in Hbound. auto.
Qed.

(** C1. The equivalence holds once [n1] has been announced ready and
    allocated to [u1]; handling [node:status{n1, terminated}] then
    leaves [n1] terminated and still bound to [u1], because
    [UpdateStatus] does not clear [UserID]: the equivalence is broken. *)
Theorem NodeStatus_on_allocated_node_keeps_UserID :
  let env := quietEnv 0 [] in
  let w' := (Provisioner.HandleNodeStatus env "n1" "terminated"
               allocated).2 in
  bound_iff_allocated (nodes allocated)
  ∧ nodes allocated !! "n1"
    = Some (node.mkNode "n1" node.NodeStatusAllocated "u1" 0 (2 * Second))
  ∧ nodes w' !! "n1"
    = Some (node.mkNode "n1" node.NodeStatusTerminated "u1" 0
              (3 * Second))
  ∧ ¬ bound_iff_allocated (nodes w').
Proof.
  cbv zeta.
  assert (Hn : nodes allocated
               = {["n1" := node.mkNode "n1" node.NodeStatusAllocated "u1"
                             0 (2 * Second)]})
    by (vm_compute; reflexivity).
  split; [|split; [|split]].
  - intros k n. rewrite Hn. intros Hk.
    apply lookup_singleton_Some in Hk as [_ <-]. cbn. split; done.
  - vm_compute. reflexivity.
  - vm_compute. reflexivity.
  - intros Hinv.
    assert (Hl : nodes (Provisioner.HandleNodeStatus (quietEnv 0 []) "n1"
                          "terminated" allocated).2 !! "n1"
                 = Some (node.mkNode "n1" node.NodeStatusTerminated "u1" 0
                           (3 * Second)))
      by (vm_compute; reflexivity).
    destruct (Hinv _ _ Hl) as [Hbound _]. cbn in Hbound.
    assert (Hne : "u1" ≠ "") by discriminate.
    specialize (Hbound Hne). discriminate Hbound.
Qed.

(** ** Membership and counting under updates *)

Lemma elem_of_values {A} (m : gmap string A) (x : A) :
  x ∈ values m ↔ ∃ k, m !! k = Some x.
Proof.
  unfold values. rewrite list_elem_of_fmap. split.
  - intros ([k y] & -> & Hin). exists k.
    by apply elem_of_map_to_list.
  - intros [k Hk]. exists (k, x). split; [done|].
    by apply elem_of_map_to_list.
Qed.

(** Replacing the record under a key swaps one element of the
    enumeration. *)
Lemma values_replace {A} (m : gmap string A) (k : string) (x x' : A) :
  m !! k = Some x →
  ∃ rest, values m ≡ₚ x :: rest ∧ values (<[k := x']> m) ≡ₚ x' :: rest.
Proof.
  intros Hk. exists (values (delete k m)). unfold values. split.
  - rewrite <- (map_to_list_delete m k x Hk). reflexivity.
  - rewrite <- insert_delete_eq.
    rewrite map_to_list_insert by apply lookup_delete_eq. reflexivity.
Qed.

Lemma countStatus_replace (p : gmap string node.Node) (k : string)
    (n n' : node.Node) (s : node.NodeStatus) :
  p !! k = Some n →
  (countStatus p s <= S (countStatus (<[k := n']> p) s))%nat.
Proof.
  intros Hk. destruct (values_replace p k n n' Hk) as (rest & H1 & H2).
  unfold countStatus. rewrite H1, H2, !filter_cons.
  destruct (decide (node.Status n = s)), (decide (node.Status n' = s));
    cbn [length]; lia.
Qed.

(** ** Idle nodes *)

Lemma GetAllByStatus_run env w s :
  Alone env →
  NodePool.GetAllByStatus env s w
  = (filter (λ n, node.Status n = s)
       (orderNodes env (S (sched w)) (nodes w)),
     mkWorld (nodes w) (users w) (apiLog w) (clockReads w)
             (S (S (sched w)))).
Proof. intros Ha. unfold NodePool.GetAllByStatus. run_alone Ha. done. Qed.

Lemma maxTerminations_bound config (R : Z) :
  0 <= R <= GoInt.max_int →
  GoInt.in_range (predictor.MinReadyNodes config) →
  0 <= maxTerminations config R
     <= Z.max 0 (R - predictor.MinReadyNodes config).
Proof.
  unfold maxTerminations, GoInt.sub, GoInt.in_range, GoInt.max_int,
    GoInt.min_int. intros HR Hmin.
  case_decide; [lia|]. split; [lia|].
  destruct (decide (R - predictor.MinReadyNodes config <= 2 ^ 63 - 1)).
  - rewrite wrap_in_range; [lia|].
    unfold GoInt.in_range, GoInt.max_int, GoInt.min_int. lia.
  - exfalso. unfold GoInt.wrap in *.
    replace (R - predictor.MinReadyNodes config + 2 ^ 63)
      with (R - predictor.MinReadyNodes config - 2 ^ 63 + 1 * 2 ^ 64)
      in * by lia.
    rewrite Z.mod_add in * by lia.
    rewrite Z.mod_small in * by lia. lia.
Qed.

Lemma GetIdleNodes_run env config w :
  Alone env →
  let readyNodes :=
    filter (λ n, node.Status n = node.NodeStatusReady)
      (orderNodes env (S (sched w)) (nodes w)) in
  let cutoff :=
    Add (clockAt env (clockReads w))
        (GoInt.neg (predictor.IdleTerminationTimeout config)) in
  let idleNodes :=
    filter (λ n, Before (node.UpdatedAt n) cutoff = true) readyNodes in
  let m := maxTerminations config (GoInt.len readyNodes) in
  Predictor.GetIdleNodes env config w
  = (if decide (m < GoInt.len idleNodes)
     then take (Z.to_nat m) idleNodes else idleNodes,
     mkWorld (nodes w) (users w) (apiLog w) (S (clockReads w))
             (S (S (sched w)))).
Proof.
  intros Ha. cbv zeta. unfold Predictor.GetIdleNodes.
  unfold mbind at 1, M_bind at 1. rewrite GetAllByStatus_run by done.
  run_alone Ha. reflexivity.
Qed.

(** One pass of the loop of [cleanupIdleNodes] takes at most one node
    out of the ready ones. *)
Lemma cleanupIdle_loop_count env (l : list node.Node) (w : World) :
  Alone env →
  let body := λ n : node.Node,
    err ← NodeManager.TerminateNode env (node.ID n);
    match err with
    | Some _ => mret tt
    | None =>
        NodePool.UpdateStatus env (node.ID n) node.NodeStatusTerminated
    end in
  (countStatus (nodes w) node.NodeStatusReady
   <= countStatus (nodes (forEach l body w).2) node.NodeStatusReady
      + length l)%nat.
Proof.
  intros Ha body. revert w. induction l as [|n l IH]; intros w.
  - cbn. lia.
  - cbn [forEach length]. unfold mbind at 1, M_bind at 1.
    destruct (body n w) as [[] w1] eqn:Hb.
    assert (Hstep : (countStatus (nodes w) node.NodeStatusReady
                     <= S (countStatus (nodes w1) node.NodeStatusReady))%nat).
    { unfold body, NodeManager.TerminateNode, NodePool.UpdateStatus in Hb.
      run_alone Ha.
      destruct (deleteNode env _ _); run_alone Ha.
      - destruct (nodes w !! node.ID n) as [n'|] eqn:Hn; run_alone Ha;
          injection Hb as <-; cbn [nodes].
        + by eapply countStatus_replace.
        + lia.
      - injection Hb as <-. cbn [nodes]. lia. }
    specialize (IH w1). lia.
Qed.

(** ** Idle terminations keep the minimum *)

(** C5. [GetIdleNodes] returns only nodes of the pool that are ready and
    whose [UpdatedAt] lies before the clock reading minus
    [IdleTerminationTimeout], and at most [max 0 (R - MinReadyNodes)]
    of them, [R] being the number of ready nodes; so a pool with at
    least [MinReadyNodes] ready nodes still has that many after
    [cleanupIdleNodes]. *)
Theorem GetIdleNodes_bounded_and_floor_kept
    (env : Env) (config : predictor.PredictionConfig) (w : World) :
  Alone env → FairRange env →
  Z.of_nat (size (nodes w)) <= GoInt.max_int →
  GoInt.in_range (predictor.MinReadyNodes config) →
  GoInt.min_int < predictor.IdleTerminationTimeout config
    <= GoInt.max_int →
  let idle := (Predictor.GetIdleNodes env config w).1 in
  let now := clockAt env (clockReads w) in
  let R := Z.of_nat (countStatus (nodes w) node.NodeStatusReady) in
  (∀ n, n ∈ idle →
     (∃ k, nodes w !! k = Some n)
     ∧ node.Status n = node.NodeStatusReady
     ∧ node.UpdatedAt n < now - predictor.IdleTerminationTimeout config)
  ∧ Z.of_nat (length idle)
    <= Z.max 0 (R - predictor.MinReadyNodes config)
  ∧ (predictor.MinReadyNodes config <= R →
     predictor.MinReadyNodes config
     <= Z.of_nat
          (countStatus
             (nodes (Provisioner.cleanupIdleNodes env config w).2)
             node.NodeStatusReady)).
Proof.
  intros Ha Hf Hsz Hmin Htimeout. cbv zeta.
  pose proof (GetIdleNodes_run env config w Ha) as Hrun. cbv zeta in Hrun.
  destruct Hf as [Hn _].
  set (order := orderNodes env (S (sched w)) (nodes w)) in *.
  set (readyNodes := filter (λ n, node.Status n = node.NodeStatusReady)
                       order) in *.
  set (cutoff := Add (clockAt env (clockReads w))
                   (GoInt.neg (predictor.IdleTerminationTimeout config)))
    in *.
  set (idleNodes := filter (λ n, Before (node.UpdatedAt n) cutoff = true)
                      readyNodes) in *.
  assert (Hcut : cutoff = clockAt env (clockReads w)
                          - predictor.IdleTerminationTimeout config).
  { unfold cutoff, Add, GoInt.neg. rewrite wrap_in_range; [lia|].
    unfold GoInt.in_range, GoInt.min_int, GoInt.max_int in *. lia. }
  assert (Hready : length readyNodes
                   = countStatus (nodes w) node.NodeStatusReady).
  { unfold readyNodes. apply count_order, Hn. }
  assert (HR : 0 <= GoInt.len readyNodes <= GoInt.max_int).
  { unfold GoInt.len. rewrite Hready.
    pose proof (countStatus_live_le_size (nodes w)). lia. }
  pose proof (maxTerminations_bound config _ HR Hmin) as Hm.
  set (m := maxTerminations config (GoInt.len readyNodes)) in *.
  set (idle := if decide (m < GoInt.len idleNodes)
               then take (Z.to_nat m) idleNodes else idleNodes) in *.
  assert (Hsub : idle ⊆ idleNodes).
  { unfold idle. case_decide; [apply subseteq_take|done]. }
  assert (Hlen : Z.of_nat (length idle) <= m).
  { unfold idle. case_decide.
    - rewrite length_take. lia.
    - unfold GoInt.len in *. lia. }
  rewrite Hrun. cbn [fst]. split; [|split].
  - intros n Hin. apply Hsub in Hin. unfold idleNodes, readyNodes in Hin.
    rewrite !list_elem_of_filter in Hin.
    destruct Hin as (Hbefore & Hstatus & Hin).
    split; [|split].
    + apply elem_of_values. by rewrite <- (Hn (S (sched w))).
    + done.
    + unfold Before in Hbefore. apply bool_decide_eq_true in Hbefore. lia.
  - unfold GoInt.len in *. rewrite Hready in Hm. lia.
  - intros Hfloor. unfold Provisioner.cleanupIdleNodes.
    unfold mbind at 1, M_bind at 1. rewrite Hrun.
    pose proof (cleanupIdle_loop_count env idle
                  (mkWorld (nodes w) (users w) (apiLog w)
                     (S (clockReads w)) (S (S (sched w)))) Ha) as Hloop.
    cbv zeta in Hloop. cbn [nodes] in Hloop.
    unfold GoInt.len in *. rewrite Hready in Hm. lia.
Qed.

Lemma GetIdleNodes_bounded_witness :
  let env := quietEnv (10 * Minute) [] in
  let config := predictor.DefaultPredictionConfig in
  let idle := (Predictor.GetIdleNodes env config twoReady).1 in
  (∀ n, n ∈ idle →
     (∃ k, nodes twoReady !! k = Some n)
     ∧ node.Status n = node.NodeStatusReady
     ∧ node.UpdatedAt n < (10 * Minute + 4 * Second) - 5 * Minute)
  ∧ Z.of_nat (length idle) <= 1
  ∧ 1 <= Z.of_nat
            (countStatus
               (nodes (Provisioner.cleanupIdleNodes env config twoReady).2)
               node.NodeStatusReady).
Proof.
  destruct (GetIdleNodes_bounded_and_floor_kept (quietEnv (10 * Minute) [])
              predictor.DefaultPredictionConfig twoReady)
    as (Honly & Hmost & Hfloor).
  - apply quietEnv_alone.
  - apply quietEnv_fair.
  - vm_compute. discriminate.
  - vm_compute. split; discriminate.
  - vm_compute. split; [reflexivity | discriminate].
  - split; [exact Honly|]. split; [exact Hmost|].
    apply Hfloor. vm_compute. discriminate.
Defined.

(** Two ready nodes idle for ten minutes, one node to keep: one node is
    returned and terminated, the other stays ready. *)
Example cleanupIdleNodes_keeps_one :
  let env := quietEnv (10 * Minute) [] in
  let config := predictor.DefaultPredictionConfig in
  let w' := (Provisioner.cleanupIdleNodes env config twoReady).2 in
  node.ID <$> (Predictor.GetIdleNodes env config twoReady).1 = ["n1"]
  ∧ apiLog w' = [DeleteNodes "n1"]
  ∧ node.Status <$> nodes w' !! "n1" = Some node.NodeStatusTerminated
  ∧ node.Status <$> nodes w' !! "n2" = Some node.NodeStatusReady.
Proof. cbv zeta. repeat split; vm_compute; reflexivity. Qed.

(** ** Carrying a terminated node through a step *)

Section Terminated.

Variable env : Env.
Variable nodeID : string.

Hypothesis alone : Alone env.

Lemma Inv_insert_other p k n :
  terminatedInv nodeID p → node.ID n = k → k ≠ nodeID →
  terminatedInv nodeID (<[k := n]> p).
Proof.
  intros [Hkey (t & Ht & Hs)] Hid Hne. split.
  - intros k' n' Hl. destruct (decide (k = k')) as [<-|Hk].
    + rewrite lookup_insert_eq in Hl. by injection Hl as <-.
    + rewrite lookup_insert_ne in Hl by done. by apply Hkey.
  - exists t. by rewrite lookup_insert_ne.
Qed.

Lemma Inv_update p k n n' :
  terminatedInv nodeID p → p !! k = Some n → node.ID n' = node.ID n →
  k ≠ nodeID ∨ node.Status n' = node.NodeStatusTerminated →
  terminatedInv nodeID (<[k := n']> p).
Proof.
  intros HI Hk Hid Hor. pose proof HI as [Hkey (t & Ht & Hs)].
  destruct (decide (k = nodeID)) as [->|Hne].
  - destruct Hor as [?|Hs']; [done|]. split.
    + intros k' m Hl. destruct (decide (nodeID = k')) as [<-|Hk'].
      * rewrite lookup_insert_eq in Hl. injection Hl as <-.
        rewrite Hid. by apply Hkey.
      * rewrite lookup_insert_ne in Hl by done. by apply Hkey.
    + exists n'. by rewrite lookup_insert_eq.
  - apply Inv_insert_other; [done| |done].
    rewrite Hid. by apply Hkey.
Qed.

Lemma Inv_delete p k :
  terminatedInv nodeID p → k ≠ nodeID → terminatedInv nodeID (delete k p).
Proof.
  intros [Hkey (t & Ht & Hs)] Hne. split.
  - intros k' n' Hl. apply lookup_delete_Some in Hl as [_ Hl].
    by apply Hkey.
  - exists t. by rewrite lookup_delete_ne.
Qed.

(** A node of the pool whose status is not [terminated] is another
    node. *)
Lemma Inv_other_node p n :
  terminatedInv nodeID p → n ∈ values p →
  node.Status n ≠ node.NodeStatusTerminated →
  node.ID n ≠ nodeID.
Proof.
  intros [Hkey (t & Ht & Hs)] Hin Hst Hid.
  apply elem_of_values in Hin as [k Hk].
  pose proof (Hkey _ _ Hk) as Hidk. rewrite Hid in Hidk. subst k.
  rewrite Ht in Hk. injection Hk as <-. done.
Qed.

Lemma Add_Inv n w :
  terminatedInv nodeID (nodes w) → node.ID n ≠ nodeID →
  terminatedInv nodeID (nodes (NodePool.Add env n w).2).
Proof.
  intros HI Hne. unfold NodePool.Add. run_alone alone.
  by apply Inv_insert_other.
Qed.

Lemma UpdateStatus_Inv k s w :
  terminatedInv nodeID (nodes w) →
  k ≠ nodeID ∨ s = node.NodeStatusTerminated →
  terminatedInv nodeID (nodes (NodePool.UpdateStatus env k s w).2).
Proof.
  intros HI Hor. unfold NodePool.UpdateStatus. run_alone alone.
  destruct (nodes w !! k) as [n|] eqn:Hk; run_alone alone; [|done].
  by eapply Inv_update.
Qed.

Lemma Remove_Inv k w :
  terminatedInv nodeID (nodes w) → k ≠ nodeID →
  terminatedInv nodeID (nodes (NodePool.Remove env k w).2).
Proof.
  intros HI Hne. unfold NodePool.Remove. run_alone alone.
  by apply Inv_delete.
Qed.

Lemma AllocateNode_Inv k u w :
  terminatedInv nodeID (nodes w) →
  terminatedInv nodeID (nodes (NodePool.AllocateNode env k u w).2).
Proof.
  intros HI. unfold NodePool.AllocateNode. run_alone alone.
  destruct (nodes w !! k) as [n|] eqn:Hk; run_alone alone; [|done].
  destruct (decide _) as [Hs|Hs]; run_alone alone; [done|].
  eapply Inv_update; [done..|]. left. intros ->.
  destruct HI as [_ (t & Ht & Hst)]. rewrite Ht in Hk.
  injection Hk as <-. apply Hs. rewrite Hst. discriminate.
Qed.

Lemma DeallocateNode_Inv k w :
  terminatedInv nodeID (nodes w) → k ≠ nodeID →
  terminatedInv nodeID (nodes (NodePool.DeallocateNode env k w).2).
Proof.
  intros HI Hne. unfold NodePool.DeallocateNode. run_alone alone.
  destruct (nodes w !! k) as [n|] eqn:Hk; run_alone alone; [|done].
  eapply Inv_update; [done..|]. by left.
Qed.

Lemma preserves_ret I {A} (a : A) : preserves I (mret a : M A).
Proof. intros w HI. exact HI. Qed.

Lemma preserves_bind I {A B} (m : M A) (f : A → M B) :
  preserves I m → (∀ a, preserves I (f a)) → preserves I (m ≫= f).
Proof.
  intros Hm Hf w HI. unfold mbind, M_bind.
  specialize (Hm w HI). destruct (m w) as [a w1]. by apply Hf.
Qed.

Lemma preserves_forEach I {A} (l : list A) (body : A → M unit) :
  (∀ x, x ∈ l → preserves I (body x)) → preserves I (forEach l body).
Proof.
  induction l as [|x l IH]; intros Hbody.
  - apply preserves_ret.
  - cbn [forEach]. apply preserves_bind.
    + apply Hbody. left.
    + intros _. apply IH. intros y Hy. apply Hbody. by right.
Qed.

Lemma preserves_times I (k : nat) (body : M unit) :
  preserves I body → preserves I (times k body).
Proof.
  intros Hbody. induction k as [|k IH].
  - apply preserves_ret.
  - cbn [times]. apply preserves_bind; [done|]. intros _. exact IH.
Qed.

(** Computations that leave the pool alone. *)
Lemma preserves_same I {A} (m : M A) :
  (∀ w, nodes (m w).2 = nodes w) → preserves I m.
Proof. intros Hsame w HI. by rewrite Hsame. Qed.

Lemma GetUserState_nodes u w :
  nodes (UserTracker.GetUserState env u w).2 = nodes w.
Proof. unfold UserTracker.GetUserState. run_alone alone. done. Qed.

Lemma GetReadyNode_nodes w :
  nodes (NodePool.GetReadyNode env w).2 = nodes w.
Proof. unfold NodePool.GetReadyNode. run_alone alone. done. Qed.

Lemma Get_nodes k w : nodes (NodePool.Get env k w).2 = nodes w.
Proof. unfold NodePool.Get. run_alone alone. done. Qed.

Lemma MarkConnected_nodes u k w :
  nodes (UserTracker.MarkConnected env u k w).2 = nodes w.
Proof. unfold UserTracker.MarkConnected. run_alone alone. done. Qed.

Lemma MarkDisconnected_nodes u w :
  nodes (UserTracker.MarkDisconnected env u w).2 = nodes w.
Proof.
  unfold UserTracker.MarkDisconnected. run_alone alone.
  destruct (users w !! u); run_alone alone; done.
Qed.

Lemma RecordActivity_nodes u ts w :
  nodes (UserTracker.RecordActivity env u ts w).2 = nodes w.
Proof.
  unfold UserTracker.RecordActivity. run_alone alone.
  destruct (users w !! u); run_alone alone; done.
Qed.

Lemma CountByStatus_nodes s w :
  nodes (NodePool.CountByStatus env s w).2 = nodes w.
Proof. unfold NodePool.CountByStatus. run_alone alone. done. Qed.

Lemma GetLikelyToConnect_nodes th d w :
  nodes (UserTracker.GetLikelyToConnect env th d w).2 = nodes w.
Proof. unfold UserTracker.GetLikelyToConnect. run_alone alone. done. Qed.

Lemma TerminateNode_nodes k w :
  nodes (NodeManager.TerminateNode env k w).2 = nodes w.
Proof.
  unfold NodeManager.TerminateNode. destruct (deleteNode env _ _); done.
Qed.

Lemma timeNow_nodes w : nodes (timeNow env w).2 = nodes w.
Proof. done. Qed.

Lemma ProvisionNode_result w :
  nodes (NodeManager.ProvisionNode env w).2 = nodes w
  ∧ ∀ id, (NodeManager.ProvisionNode env w).1 = (id, None) →
          createNode env (length (apiLog w)) = Some id.
Proof.
  unfold NodeManager.ProvisionNode.
  destruct (createNode env _); cbn; split; try done.
  by intros id [= <-].
Qed.

Hypothesis fresh : ∀ k, createNode env k ≠ Some nodeID.

Lemma provisionNode_Inv :
  preserves (terminatedInv nodeID) (Provisioner.provisionNode env).
Proof.
  intros w HI. unfold Provisioner.provisionNode.
  unfold mbind at 1, M_bind at 1.
  destruct (ProvisionNode_result w) as [Hn Hid].
  destruct (NodeManager.ProvisionNode env w) as [[id [err|]] w1];
    cbn [snd fst] in Hn, Hid.
  - unfold mret, M_ret. cbn [snd]. by rewrite Hn.
  - specialize (Hid id eq_refl).
    assert (Hne : id ≠ nodeID) by (intros ->; by eapply fresh).
    assert (Hrest : preserves (terminatedInv nodeID)
              (created ← timeNow env;
               updated ← timeNow env;
               NodePool.Add env
                 (node.mkNode id node.NodeStatusBooting "" created
                    updated);;
               mret (None : option GoError))).
    { apply preserves_bind; [by apply preserves_same|]. intros created.
      apply preserves_bind; [by apply preserves_same|]. intros updated.
      apply preserves_bind; [|intros; apply preserves_ret].
      intros w2 HI2. by apply Add_Inv. }
    apply Hrest. by rewrite Hn.
Qed.

Lemma AllocateNodeToUser_Inv u :
  preserves (terminatedInv nodeID) (NodeAllocator.AllocateNodeToUser env u).
Proof.
  unfold NodeAllocator.AllocateNodeToUser.
  apply preserves_bind;
    [apply preserves_same, GetUserState_nodes|]. intros state.
  destruct (NodeAllocator.hasNode state); [apply preserves_ret|].
  apply preserves_bind; [apply preserves_same, GetReadyNode_nodes|].
  intros [n|]; [|apply preserves_ret].
  apply preserves_bind; [intros w; apply AllocateNode_Inv|].
  intros []; cbn [negb]; [|apply preserves_ret].
  apply preserves_bind; [apply preserves_same, MarkConnected_nodes|].
  intros _. apply preserves_ret.
Qed.

Lemma HandleUserConnect_Inv u :
  preserves (terminatedInv nodeID) (Provisioner.HandleUserConnect env u).
Proof.
  unfold Provisioner.HandleUserConnect.
  apply preserves_bind; [apply AllocateNodeToUser_Inv|].
  intros [id [e|]]; [destruct e|]; try apply preserves_ret.
  apply preserves_bind; [apply provisionNode_Inv|].
  intros _. apply preserves_ret.
Qed.

Lemma HandleUserActivity_Inv u ts :
  preserves (terminatedInv nodeID)
    (Provisioner.HandleUserActivity env u ts).
Proof.
  unfold Provisioner.HandleUserActivity.
  apply preserves_bind; [apply preserves_same, RecordActivity_nodes|].
  intros _. apply preserves_ret.
Qed.

Lemma HandleNodeStatus_Inv id s :
  (id = nodeID → s = node.NodeStatusTerminated) →
  preserves (terminatedInv nodeID) (Provisioner.HandleNodeStatus env id s).
Proof.
  intros Hs w HI. unfold Provisioner.HandleNodeStatus, NodePool.Get.
  run_alone alone. destruct (nodes w !! id) as [n|] eqn:Hn.
  - change (terminatedInv nodeID
              (nodes ((NodePool.UpdateStatus env id s;;
                       mret (None : option GoError))
                        (mkWorld (nodes w) (users w) (apiLog w)
                           (clockReads w) (S (sched w)))).2)).
    apply preserves_bind; [|intros; apply preserves_ret|exact HI].
    intros w1 HI1. apply UpdateStatus_Inv; [done|].
    destruct (decide (id = nodeID)); [right|left]; auto.
  - unfold NodePool.Add. run_alone alone. cbn [node.ID].
    apply Inv_insert_other; [done..|]. intros ->.
    destruct HI as [_ (t & Ht & _)]. congruence.
Qed.

Lemma HandleUserDisconnect_Inv u w :
  ¬ revives w nodeID
      (Provisioner.Handle (events.UserDisconnectEvent u)) →
  terminatedInv nodeID (nodes w) →
  terminatedInv nodeID
    (nodes (Provisioner.HandleUserDisconnect env u w).2).
Proof.
  intros Hrev HI. cbn [revives] in Hrev.
  unfold Provisioner.HandleUserDisconnect,
    NodeAllocator.DeallocateNodeFromUser, UserTracker.GetUserState.
  run_alone alone. destruct (users w !! u) as [st|] eqn:Hst; [|done].
  destruct (user.IsConnected st) eqn:Hc; cbn [negb]; [|done].
  destruct (decide (user.AllocatedNodeID st = "")) as [|Hne]; [done|].
  change (terminatedInv nodeID
            (nodes ((NodePool.DeallocateNode env (user.AllocatedNodeID st);;
                     UserTracker.MarkDisconnected env u;;
                     mret (None : option GoError))
                      (mkWorld (nodes w) (users w) (apiLog w)
                         (clockReads w) (S (sched w)))).2)).
  apply preserves_bind; [| |exact HI].
  - intros w1 HI1. apply DeallocateNode_Inv; [done|].
    intros Heq. apply Hrev. eauto.
  - intros _. apply preserves_bind;
      [apply preserves_same, MarkDisconnected_nodes|].
    intros _. apply preserves_ret.
Qed.

(** The predictor only reads. *)
Lemma CalculateScaling_preserves I config :
  preserves I (Predictor.CalculateScaling env config).
Proof.
  unfold Predictor.CalculateScaling.
  do 3 (apply preserves_bind;
          [apply preserves_same, CountByStatus_nodes|]; intros ?).
  apply preserves_bind;
    [apply preserves_same, GetLikelyToConnect_nodes|]. intros ?.
  apply preserves_ret.
Qed.

Lemma GetIdleNodes_preserves I config :
  preserves I (Predictor.GetIdleNodes env config).
Proof.
  apply preserves_same. intros w.
  rewrite (GetIdleNodes_run env config w alone). done.
Qed.

Lemma performScalingCheck_Inv config :
  preserves (terminatedInv nodeID)
    (Provisioner.performScalingCheck env config).
Proof.
  unfold Provisioner.performScalingCheck.
  apply preserves_bind; [apply CalculateScaling_preserves|].
  intros decision. destruct (predictor.ShouldScaleUp decision);
    [|apply preserves_ret].
  apply preserves_times, preserves_bind; [apply provisionNode_Inv|].
  intros _. apply preserves_ret.
Qed.

Lemma cleanupIdleNodes_Inv config :
  preserves (terminatedInv nodeID)
    (Provisioner.cleanupIdleNodes env config).
Proof.
  unfold Provisioner.cleanupIdleNodes.
  apply preserves_bind; [apply GetIdleNodes_preserves|]. intros idle.
  apply preserves_forEach. intros n _.
  apply preserves_bind; [apply preserves_same, TerminateNode_nodes|].
  intros [err|]; [apply preserves_ret|].
  intros w HI. apply UpdateStatus_Inv; auto.
Qed.

Hypothesis fair : FairRange env.

Lemma GetStuckBootingNodes_run config w :
  Predictor.GetStuckBootingNodes env config w
  = (filter (λ n, Before (node.CreatedAt n)
                    (Add (clockAt env (clockReads w))
                       (GoInt.neg (predictor.BootingNodeTimeout config)))
                  = true)
       (filter (λ n, node.Status n = node.NodeStatusBooting)
          (orderNodes env (S (sched w)) (nodes w))),
     mkWorld (nodes w) (users w) (apiLog w) (S (clockReads w))
             (S (S (sched w)))).
Proof.
  unfold Predictor.GetStuckBootingNodes.
  unfold mbind at 1, M_bind at 1. rewrite GetAllByStatus_run by done.
  run_alone alone. reflexivity.
Qed.

Lemma cleanupStuckNodes_Inv config :
  preserves (terminatedInv nodeID)
    (Provisioner.cleanupStuckNodes env config).
Proof.
  intros w HI. unfold Provisioner.cleanupStuckNodes.
  unfold mbind at 1, M_bind at 1. rewrite GetStuckBootingNodes_run.
  apply preserves_forEach; [|exact HI].
  intros n Hin. rewrite !list_elem_of_filter in Hin.
  destruct Hin as (_ & Hboot & Hin).
  destruct fair as [Hnodes _]. rewrite Hnodes in Hin.
  assert (Hne : node.ID n ≠ nodeID).
  { eapply Inv_other_node; [done..|]. rewrite Hboot. discriminate. }
  apply preserves_bind; [apply preserves_same, TerminateNode_nodes|].
  intros [err|]; [apply preserves_ret|].
  intros w1 HI1. by apply Remove_Inv.
Qed.

Lemma tick_Inv config :
  preserves (terminatedInv nodeID) (Provisioner.tick env config).
Proof.
  unfold Provisioner.tick.
  apply preserves_bind; [apply performScalingCheck_Inv|]. intros _.
  apply preserves_bind; [apply cleanupIdleNodes_Inv|]. intros _.
  apply cleanupStuckNodes_Inv.
Qed.

End Terminated.

(** ** What changes a terminated node *)

(** A terminated node becomes ready again when the bus announces it
    ready, and when the user bound to it disconnects. *)
Lemma terminated_node_revived :
  let env := quietEnv 0 [] in
  isTerminated (nodes terminated) "n1"
  ∧ node.Status
      <$> nodes (Provisioner.HandleNodeStatus env "n1" "ready"
                   terminated).2 !! "n1"
    = Some node.NodeStatusReady
  ∧ isTerminated (nodes terminatedInUse) "n1"
  ∧ (Provisioner.HandleUserDisconnect env "u1" terminatedInUse).1 = None
  ∧ node.Status
      <$> nodes (Provisioner.HandleUserDisconnect env "u1"
                   terminatedInUse).2 !! "n1"
    = Some node.NodeStatusReady
  ∧ ¬ isTerminated
        (nodes (Provisioner.HandleNodeStatus env "n1" "ready"
                  terminated).2) "n1".
Proof.
  cbv zeta. split; [|split; [|split; [|split; [|split]]]].
  - eexists. split; vm_compute; reflexivity.
  - vm_compute. reflexivity.
  - eexists. split; vm_compute; reflexivity.
  - vm_compute. reflexivity.
  - vm_compute. reflexivity.
  - intros (n & Hn & Hs).
    assert (Hl : nodes (Provisioner.HandleNodeStatus (quietEnv 0 []) "n1"
                          "ready" terminated).2 !! "n1"
                 = Some (node.mkNode "n1" "ready" "" 0 (3 * Second)))
      by (vm_compute; reflexivity).
    rewrite Hl in Hn. injection Hn as <-. discriminate Hs.
Qed.

(** C3, as the code has it. A terminated node stays terminated under
    every step of the provisioner (handling a bus message, or a tick)
    except the two that overwrite its status whatever it is: a status
    event for it carrying another status, which sets that status, and
    the disconnect of a user bound to it, which sets it ready.  The node
    API is taken not to hand out the node's identifier again. *)
Theorem terminated_node_stays_unless_revived
    (env : Env) (config : predictor.PredictionConfig) (w : World)
    (nodeID : string) (s : Provisioner.Step) :
  Alone env → FairRange env →
  (∀ k, createNode env k ≠ Some nodeID) →
  keyed (nodes w) →
  isTerminated (nodes w) nodeID →
  let w' := (Provisioner.step env config s w).2 in
  (¬ revives w nodeID s → isTerminated (nodes w') nodeID)
  ∧ (∀ status,
       s = Provisioner.Handle (events.NodeStatusEvent nodeID status) →
       node.Status <$> nodes w' !! nodeID = Some status)
  ∧ (∀ u,
       s = Provisioner.Handle (events.UserDisconnectEvent u) →
       revives w nodeID s → nodeID ≠ "" →
       node.Status <$> nodes w' !! nodeID = Some node.NodeStatusReady).
Proof.
  intros Ha Hf Hfresh Hkey Hterm. cbv zeta.
  assert (HI : terminatedInv nodeID (nodes w)) by done.
  split; [|split].
  - intros Hrev.
    cut (terminatedInv nodeID (nodes (Provisioner.step env config s w).2));
      [by intros [_ ?]|].
    destruct s as [[u ts|u|u|id status]|]; cbn [Provisioner.step
      Provisioner.handle].
    + apply preserves_bind; [|intros; apply preserves_ret|done].
      by apply HandleUserActivity_Inv.
    + apply preserves_bind; [|intros; apply preserves_ret|done].
      by apply HandleUserConnect_Inv.
    + pose proof (HandleUserDisconnect_Inv env nodeID Ha u w Hrev HI)
        as HI'.
      unfold mbind, M_bind.
      by destruct (Provisioner.HandleUserDisconnect env u w).
    + apply preserves_bind; [|intros; apply preserves_ret|done].
      apply HandleNodeStatus_Inv; [done|]. intros ->.
      destruct (decide (status = node.NodeStatusTerminated)); [done|].
      exfalso. apply Hrev. cbn. done.
    + by apply tick_Inv.
  - intros status ->. cbn [Provisioner.step Provisioner.handle].
    destruct Hterm as (n & Hn & _).
    unfold Provisioner.HandleNodeStatus, NodePool.Get,
      NodePool.UpdateStatus.
    run_alone Ha. rewrite Hn. run_alone Ha. rewrite Hn. run_alone Ha.
    unfold mret, M_ret. cbn [snd nodes].
    by rewrite lookup_insert_eq.
  - intros u -> (st & Hst & Hc & Hid) Hne.
    cbn [Provisioner.step Provisioner.handle].
    destruct Hterm as (n & Hn & _).
    unfold Provisioner.HandleUserDisconnect,
      NodeAllocator.DeallocateNodeFromUser, UserTracker.GetUserState,
      NodePool.DeallocateNode, UserTracker.MarkDisconnected.
    run_alone Ha. rewrite Hst, Hc. cbn [negb]. rewrite Hid.
    destruct (decide (nodeID = "")); [done|].
    run_alone Ha. rewrite Hn. run_alone Ha. rewrite Hst. run_alone Ha.
    unfold mret, M_ret. cbn [snd nodes].
    by rewrite lookup_insert_eq.
Qed.

Lemma terminated_nodes :
  nodes terminated
  = {["n1" := node.mkNode "n1" node.NodeStatusTerminated "" 0
                (2 * Second)]}.
Proof. vm_compute. reflexivity. Qed.

Lemma terminated_node_stays_witness :
  isTerminated
    (nodes (Provisioner.step (quietEnv 0 ["n9"])
              predictor.DefaultPredictionConfig Provisioner.Tick
              terminated).2)
    "n1".
Proof.
  refine (proj1 (terminated_node_stays_unless_revived (quietEnv 0 ["n9"])
                   predictor.DefaultPredictionConfig terminated "n1"
                   Provisioner.Tick _ _ _ _ _) _).
  - apply quietEnv_alone.
  - apply quietEnv_fair.
  - intros [|[|k]]; cbn; discriminate.
  - rewrite terminated_nodes. intros k n Hk.
    apply lookup_singleton_Some in Hk as [<- <-]. reflexivity.
  - rewrite terminated_nodes. eexists. split.
    + apply lookup_singleton_eq.
    + reflexivity.
  - cbn. tauto.
Defined.

(** After that tick the pool holds the terminated [n1] and the booting
    [n9] provisioned to restore the minimum. *)
Example tick_after_termination :
  let w' := (Provisioner.tick (quietEnv 0 ["n9"])
               predictor.DefaultPredictionConfig terminated).2 in
  node.Status <$> nodes w' !! "n1" = Some node.NodeStatusTerminated
  ∧ node.Status <$> nodes w' !! "n9" = Some node.NodeStatusBooting
  ∧ apiLog w' = [PostNodes].
Proof. cbv zeta. repeat split; vm_compute; reflexivity. Qed.

(** ** Every record stays under its own identifier *)

Section Keyed.

Variable env : Env.
Hypothesis alone : Alone env.

Lemma keyed_insert p k n :
  keyed p → node.ID n = k → keyed (<[k := n]> p).
Proof.
  intros Hkey Hid k' n' Hl. destruct (decide (k = k')) as [<-|Hk].
  - rewrite lookup_insert_eq in Hl. by injection Hl as <-.
  - rewrite lookup_insert_ne in Hl by done. by apply Hkey.
Qed.

Lemma keyed_delete p k : keyed p → keyed (delete k p).
Proof.
  intros Hkey k' n' Hl. apply lookup_delete_Some in Hl as [_ Hl].
  by apply Hkey.
Qed.

Lemma Add_keyed n : preserves keyed (NodePool.Add env n).
Proof.
  intros w Hk. unfold NodePool.Add. run_alone alone.
  by apply keyed_insert.
Qed.

Lemma Remove_keyed k : preserves keyed (NodePool.Remove env k).
Proof.
  intros w Hk. unfold NodePool.Remove. run_alone alone.
  by apply keyed_delete.
Qed.

Lemma UpdateStatus_keyed k s :
  preserves keyed (NodePool.UpdateStatus env k s).
Proof.
  intros w Hk. unfold NodePool.UpdateStatus. run_alone alone.
  destruct (nodes w !! k) as [n|] eqn:Hn; run_alone alone; [|done].
  apply keyed_insert; [done|]. cbn [node.ID]. by apply Hk.
Qed.

Lemma AllocateNode_keyed k u :
  preserves keyed (NodePool.AllocateNode env k u).
Proof.
  intros w Hk. unfold NodePool.AllocateNode. run_alone alone.
  destruct (nodes w !! k) as [n|] eqn:Hn; run_alone alone; [|done].
  destruct (decide _); run_alone alone; [done|].
  apply keyed_insert; [done|]. cbn [node.ID]. by apply Hk.
Qed.

Lemma DeallocateNode_keyed k :
  preserves keyed (NodePool.DeallocateNode env k).
Proof.
  intros w Hk. unfold NodePool.DeallocateNode. run_alone alone.
  destruct (nodes w !! k) as [n|] eqn:Hn; run_alone alone; [|done].
  apply keyed_insert; [done|]. cbn [node.ID]. by apply Hk.
Qed.

Lemma provisionNode_keyed :
  preserves keyed (Provisioner.provisionNode env).
Proof.
  unfold Provisioner.provisionNode.
  apply preserves_bind.
  { apply preserves_same. intros w. apply ProvisionNode_result. }
  intros [id [err|]]; [apply preserves_ret|].
  apply preserves_bind; [by apply preserves_same|]. intros created.
  apply preserves_bind; [by apply preserves_same|]. intros updated.
  apply preserves_bind; [apply Add_keyed|]. intros _.
  apply preserves_ret.
Qed.

Lemma handle_keyed e : preserves keyed (Provisioner.handle env e).
Proof.
  destruct e as [u ts|u|u|id status]; cbn [Provisioner.handle].
  - unfold Provisioner.HandleUserActivity.
    apply preserves_bind;
      [apply preserves_same, (RecordActivity_nodes env alone)|].
    intros _. apply preserves_ret.
  - unfold Provisioner.HandleUserConnect,
      NodeAllocator.AllocateNodeToUser.
    apply preserves_bind.
    { apply preserves_bind;
        [apply preserves_same, (GetUserState_nodes env alone)|].
      intros state.
      destruct (NodeAllocator.hasNode state); [apply preserves_ret|].
      apply preserves_bind;
        [apply preserves_same, (GetReadyNode_nodes env alone)|].
      intros [n|]; [|apply preserves_ret].
      apply preserves_bind; [apply AllocateNode_keyed|].
      intros []; cbn [negb]; [|apply preserves_ret].
      apply preserves_bind;
        [apply preserves_same, (MarkConnected_nodes env alone)|].
      intros _. apply preserves_ret. }
    intros [id [e|]]; [destruct e|]; try apply preserves_ret.
    apply preserves_bind; [apply provisionNode_keyed|].
    intros _. apply preserves_ret.
  - unfold Provisioner.HandleUserDisconnect,
      NodeAllocator.DeallocateNodeFromUser.
    apply preserves_bind;
      [apply preserves_same, (GetUserState_nodes env alone)|].
    intros [st|]; [|apply preserves_ret].
    destruct (negb (user.IsConnected st)); [apply preserves_ret|].
    cbv zeta. destruct (decide _); [apply preserves_ret|].
    apply preserves_bind; [apply DeallocateNode_keyed|]. intros _.
    apply preserves_bind;
      [apply preserves_same, (MarkDisconnected_nodes env alone)|].
    intros _. apply preserves_ret.
  - unfold Provisioner.HandleNodeStatus.
    apply preserves_bind;
      [apply preserves_same, (Get_nodes env alone)|].
    intros [n|].
    + apply preserves_bind; [apply UpdateStatus_keyed|]. intros _.
      apply preserves_ret.
    + apply preserves_bind; [by apply preserves_same|]. intros created.
      apply preserves_bind; [by apply preserves_same|]. intros updated.
      apply preserves_bind; [apply Add_keyed|]. intros _.
      apply preserves_ret.
Qed.

Lemma tick_keyed config : preserves keyed (Provisioner.tick env config).
Proof.
  unfold Provisioner.tick, Provisioner.performScalingCheck,
    Provisioner.cleanupIdleNodes, Provisioner.cleanupStuckNodes.
  apply preserves_bind.
  { apply preserves_bind; [by apply CalculateScaling_preserves|].
    intros decision. destruct (predictor.ShouldScaleUp decision);
      [|apply preserves_ret].
    apply preserves_times, preserves_bind; [apply provisionNode_keyed|].
    intros _. apply preserves_ret. }
  intros _. apply preserves_bind.
  { apply preserves_bind; [by apply GetIdleNodes_preserves|].
    intros idle. apply preserves_forEach. intros n _.
    apply preserves_bind;
      [apply preserves_same, TerminateNode_nodes|].
    intros [err|]; [apply preserves_ret|]. apply UpdateStatus_keyed. }
  intros _. apply preserves_bind.
  { apply preserves_same. intros w.
    by rewrite (GetStuckBootingNodes_run env alone). }
  intros stuck. apply preserves_forEach. intros n _.
  apply preserves_bind; [apply preserves_same, TerminateNode_nodes|].
  intros [err|]; [apply preserves_ret|]. apply Remove_keyed.
Qed.

(** Every world the provisioner reaches from start-up is keyed. *)
Lemma steps_keyed config (steps : list Provisioner.Step) (w : World) :
  keyed (nodes w) →
  keyed (nodes (foldl (λ w s, (Provisioner.step env config s w).2)
                  w steps)).
Proof.
  revert w. induction steps as [|s steps IH]; intros w Hk; [done|].
  cbn [foldl]. apply IH. destruct s as [e|]; cbn [Provisioner.step].
  - revert w Hk. apply preserves_bind; [apply handle_keyed|].
    intros _. apply preserves_ret.
  - by apply tick_keyed.
Qed.

Lemma initial_keyed : keyed (nodes initial).
Proof.
  intros k n Hk. unfold initial, NodePool.NewNodePool in Hk.
  cbn [nodes] in Hk. by rewrite lookup_empty in Hk.
Qed.

End Keyed.

(** * Further properties of the code *)

(** ** What an allocation does *)

Lemma GetReadyNode_run env w :
  Alone env →
  NodePool.GetReadyNode env w
  = (find (λ n, bool_decide (node.Status n = node.NodeStatusReady))
       (orderNodes env (S (sched w)) (nodes w)),
     mkWorld (nodes w) (users w) (apiLog w) (clockReads w)
             (S (S (sched w)))).
Proof. intros Ha. unfold NodePool.GetReadyNode. run_alone Ha. done. Qed.

(** The node picked is a ready node of the pool, stored under its
    identifier. *)
Lemma picked_node_is_ready env k (p : gmap string node.Node) n :
  FairRange env → keyed p →
  find (λ n, bool_decide (node.Status n = node.NodeStatusReady))
       (orderNodes env k p) = Some n →
  p !! node.ID n = Some n ∧ node.Status n = node.NodeStatusReady.
Proof.
  intros [Hn _] Hkey Hfind. apply find_some in Hfind as [Hin Hs].
  apply bool_decide_eq_true in Hs. split; [|done].
  apply list_elem_of_In in Hin. rewrite Hn in Hin.
  apply elem_of_values in Hin as [k' Hk'].
  by rewrite (Hkey _ _ Hk').
Qed.

(** No node is picked only when no node is ready. *)
Lemma nothing_picked_nothing_ready env k (p : gmap string node.Node) :
  FairRange env →
  find (λ n, bool_decide (node.Status n = node.NodeStatusReady))
       (orderNodes env k p) = None →
  countStatus p node.NodeStatusReady = 0%nat.
Proof.
  intros [Hn _] Hfind. unfold countStatus. rewrite <- (Hn k p).
  destruct (filter _ _) as [|n rest] eqn:Hflt; [done|]. exfalso.
  assert (Hin : n ∈ n :: rest) by left. rewrite <- Hflt in Hin.
  apply list_elem_of_filter in Hin as [Hs Hin].
  apply list_elem_of_In in Hin.
  pose proof (find_none _ _ Hfind n Hin) as Hf. cbn in Hf.
  apply bool_decide_eq_false in Hf. done.
Qed.

Lemma countStatus_pos_of_lookup (p : gmap string node.Node) k n s :
  p !! k = Some n → node.Status n = s → (0 < countStatus p s)%nat.
Proof.
  intros Hk Hs. unfold countStatus.
  assert (Hin : n ∈ filter (λ n, node.Status n = s) (values p)).
  { apply list_elem_of_filter. split; [done|].
    apply elem_of_values. eauto. }
  destruct (filter _ _); [by apply elem_of_nil in Hin|cbn; lia].
Qed.

(** The three outcomes of [AllocateNodeToUser] when no other goroutine
    interferes. *)
Lemma AllocateNodeToUser_outcome env w userID :
  Alone env → FairRange env → keyed (nodes w) →
  let r := NodeAllocator.AllocateNodeToUser env userID w in
  (NodeAllocator.hasNode (users w !! userID) = true ∧
   r.1 = (from_option user.AllocatedNodeID "" (users w !! userID),
          Some ErrAlreadyAllocated) ∧
   nodes r.2 = nodes w ∧ users r.2 = users w ∧ apiLog r.2 = apiLog w)
  ∨ (NodeAllocator.hasNode (users w !! userID) = false ∧
     countStatus (nodes w) node.NodeStatusReady = 0%nat ∧
     r.1 = ("", Some ErrNoReadyNode) ∧
     nodes r.2 = nodes w ∧ users r.2 = users w ∧ apiLog r.2 = apiLog w)
  ∨ (NodeAllocator.hasNode (users w !! userID) = false ∧
     ∃ n,
       nodes w !! node.ID n = Some n ∧
       node.Status n = node.NodeStatusReady ∧
       r.1 = (node.ID n, None) ∧
       nodes r.2
       = <[node.ID n := node.mkNode (node.ID n) node.NodeStatusAllocated
                          userID (node.CreatedAt n)
                          (clockAt env (clockReads w))]> (nodes w) ∧
       users r.2
       = <[userID := connectedState (users w) userID (node.ID n)]>
           (users w) ∧
       apiLog r.2 = apiLog w ∧
       clockReads r.2 = S (clockReads w)).
Proof.
  intros Ha Hf Hkey. cbv zeta.
  unfold NodeAllocator.AllocateNodeToUser, UserTracker.GetUserState.
  run_alone Ha.
  destruct (NodeAllocator.hasNode (users w !! userID)) eqn:Hhas.
  { left. unfold mret, M_ret. cbn. auto. }
  right. rewrite GetReadyNode_run by done.
  cbn [nodes users apiLog clockReads sched].
  destruct (find _ _) as [n|] eqn:Hfind.
  - right. split; [done|]. exists n.
    destruct (picked_node_is_ready _ _ _ _ Hf Hkey Hfind) as [Hn Hs].
    unfold NodePool.AllocateNode, UserTracker.MarkConnected.
    run_alone Ha. rewrite Hn. run_alone Ha.
    destruct (decide (node.Status n ≠ node.NodeStatusReady)); [done|].
    run_alone Ha. unfold connectedState.
    destruct (users w !! userID); cbn; auto 10.
  - left. unfold mret, M_ret. cbn.
    pose proof (nothing_picked_nothing_ready _ _ _ Hf Hfind). auto 10.
Qed.

(** Replacing a record moves one unit between the counts of the old
    and the new status. *)
Lemma countStatus_replace_exact (p : gmap string node.Node) k n n' s :
  p !! k = Some n →
  (countStatus (<[k := n']> p) s
   + (if decide (node.Status n = s) then 1 else 0)
   = countStatus p s
     + (if decide (node.Status n' = s) then 1 else 0))%nat.
Proof.
  intros Hk. destruct (values_replace p k n n' Hk) as (rest & H1 & H2).
  unfold countStatus. rewrite H1, H2, !filter_cons.
  destruct (decide (node.Status n = s)), (decide (node.Status n' = s));
    cbn [length]; lia.
Qed.

(** The error [AllocateNodeToUser] returns tells the state it found:
    none when the user had no node and a node was ready,
    [ErrAlreadyAllocated] when the user had a node, [ErrNoReadyNode]
    when the user had none and no node was ready; run alone it never
    returns [ErrNodeNotReady]. *)
Theorem AllocateNodeToUser_error_meaning
    (env : Env) (w : World) (userID : string) :
  Alone env → FairRange env → keyed (nodes w) →
  let err := (NodeAllocator.AllocateNodeToUser env userID w).1.2 in
  let has := NodeAllocator.hasNode (users w !! userID) in
  let ready := countStatus (nodes w) node.NodeStatusReady in
  (err = None ↔ has = false ∧ (0 < ready)%nat)
  ∧ (err = Some ErrAlreadyAllocated ↔ has = true)
  ∧ (err = Some ErrNoReadyNode ↔ has = false ∧ ready = 0%nat)
  ∧ err ≠ Some ErrNodeNotReady.
Proof.
  intros Ha Hf Hkey. cbv zeta.
  destruct (AllocateNodeToUser_outcome env w userID Ha Hf Hkey)
    as [(Hhas & Hr & _)|[(Hhas & H0 & Hr & _)|(Hhas & n & Hn & Hs & Hr & _)]];
    rewrite Hr, Hhas; cbn [fst snd].
  - repeat split; try done; intros [? ?]; done.
  - rewrite H0. repeat split; try done; try lia; intros [? ?]; lia.
  - pose proof (countStatus_pos_of_lookup _ _ _ _ Hn Hs).
    repeat split; try done; try lia; intros [? ?]; lia.
Qed.

(** A successful allocation takes one ready node of the pool, marks it
    allocated and bound to the user, and touches no other node: one
    ready node fewer, one allocated node more. *)
Theorem AllocateNodeToUser_success_effect
    (env : Env) (w : World) (userID nodeID : string) :
  Alone env → FairRange env → keyed (nodes w) →
  (NodeAllocator.AllocateNodeToUser env userID w).1 = (nodeID, None) →
  let w' := (NodeAllocator.AllocateNodeToUser env userID w).2 in
  (∃ n,
     nodes w !! nodeID = Some n
     ∧ node.Status n = node.NodeStatusReady
     ∧ nodes w' !! nodeID
       = Some (node.mkNode nodeID node.NodeStatusAllocated userID
                 (node.CreatedAt n) (clockAt env (clockReads w))))
  ∧ (∀ k, k ≠ nodeID → nodes w' !! k = nodes w !! k)
  ∧ S (countStatus (nodes w') node.NodeStatusReady)
    = countStatus (nodes w) node.NodeStatusReady
  ∧ countStatus (nodes w') node.NodeStatusAllocated
    = S (countStatus (nodes w) node.NodeStatusAllocated)
  ∧ apiLog w' = apiLog w.
Proof.
  intros Ha Hf Hkey Hok. cbv zeta.
  destruct (AllocateNodeToUser_outcome env w userID Ha Hf Hkey)
    as [(_ & Hr & _)|[(_ & _ & Hr & _)
                     |(_ & n & Hn & Hs & Hr & Hnodes & _ & Hlog & _)]];
    rewrite Hr in Hok; try discriminate Hok.
  injection Hok as <-. rewrite Hnodes, Hlog.
  split; [|split; [|split; [|split]]]; [| | | |done].
  - exists n. by rewrite lookup_insert_eq.
  - intros k Hk. by rewrite lookup_insert_ne.
  - pose proof (countStatus_replace_exact (nodes w) (node.ID n) n
                  (node.mkNode (node.ID n) node.NodeStatusAllocated userID
                     (node.CreatedAt n) (clockAt env (clockReads w)))
                  node.NodeStatusReady Hn) as Hc.
    cbn [node.Status] in Hc. rewrite Hs in Hc.
    destruct (decide (node.NodeStatusReady = node.NodeStatusReady));
      [|done].
    destruct (decide (node.NodeStatusAllocated = node.NodeStatusReady));
      [discriminate|]. lia.
  - pose proof (countStatus_replace_exact (nodes w) (node.ID n) n
                  (node.mkNode (node.ID n) node.NodeStatusAllocated userID
                     (node.CreatedAt n) (clockAt env (clockReads w)))
                  node.NodeStatusAllocated Hn) as Hc.
    cbn [node.Status] in Hc. rewrite Hs in Hc.
    destruct (decide (node.NodeStatusReady = node.NodeStatusAllocated));
      [discriminate|].
    destruct (decide (node.NodeStatusAllocated
                      = node.NodeStatusAllocated)); [|done].
    lia.
Qed.

(** A check of [keyed] that runs. *)
Lemma keyed_check (p : gmap string node.Node) :
  forallb (λ entry : string * node.Node,
             bool_decide (node.ID entry.2 = entry.1))
          (map_to_list p) = true →
  keyed p.
Proof.
  intros Hall k n Hk. apply elem_of_map_to_list, list_elem_of_In in Hk.
  rewrite forallb_forall in Hall. specialize (Hall _ Hk).
  by apply bool_decide_eq_true in Hall.
Qed.

Lemma AllocateNodeToUser_error_meaning_witness :
  let env := quietEnv (GoTime.Unix 1000) [] in
  let err := (NodeAllocator.AllocateNodeToUser env "u1" warm).1.2 in
  let has := NodeAllocator.hasNode (users warm !! "u1") in
  let ready := countStatus (nodes warm) node.NodeStatusReady in
  (err = None ↔ has = false ∧ (0 < ready)%nat)
  ∧ (err = Some ErrAlreadyAllocated ↔ has = true)
  ∧ (err = Some ErrNoReadyNode ↔ has = false ∧ ready = 0%nat)
  ∧ err ≠ Some ErrNodeNotReady.
Proof.
  apply (AllocateNodeToUser_error_meaning
           (quietEnv (GoTime.Unix 1000) []) warm "u1").
  - apply quietEnv_alone.
  - apply quietEnv_fair.
  - apply keyed_check. vm_compute. reflexivity.
Defined.

Lemma AllocateNodeToUser_success_effect_witness :
  let env := quietEnv (GoTime.Unix 1000) [] in
  let w' := (NodeAllocator.AllocateNodeToUser env "u1" warm).2 in
  (∃ n,
     nodes warm !! "n1" = Some n
     ∧ node.Status n = node.NodeStatusReady
     ∧ nodes w' !! "n1"
       = Some (node.mkNode "n1" node.NodeStatusAllocated "u1"
                 (node.CreatedAt n) (clockAt env (clockReads warm))))
  ∧ (∀ k, k ≠ "n1" → nodes w' !! k = nodes warm !! k)
  ∧ S (countStatus (nodes w') node.NodeStatusReady)
    = countStatus (nodes warm) node.NodeStatusReady
  ∧ countStatus (nodes w') node.NodeStatusAllocated
    = S (countStatus (nodes warm) node.NodeStatusAllocated)
  ∧ apiLog w' = apiLog warm.
Proof.
  apply (AllocateNodeToUser_success_effect
           (quietEnv (GoTime.Unix 1000) []) warm "u1" "n1").
  - apply quietEnv_alone.
  - apply quietEnv_fair.
  - apply keyed_check. vm_compute. reflexivity.
  - vm_compute. reflexivity.
Defined.

(** ** Releasing a node *)

(** The four outcomes of [DeallocateNodeFromUser]. *)
Lemma DeallocateNodeFromUser_outcome env w userID :
  Alone env →
  let r := NodeAllocator.DeallocateNodeFromUser env userID w in
  match users w !! userID with
  | None =>
      r.1 = Some ErrUserNotFound
      ∧ nodes r.2 = nodes w ∧ users r.2 = users w
  | Some st =>
      if user.IsConnected st then
        if decide (user.AllocatedNodeID st = "") then
          r.1 = Some ErrNodeNotFound
          ∧ nodes r.2 = nodes w ∧ users r.2 = users w
        else
          r.1 = None
          ∧ nodes r.2
            = match nodes w !! user.AllocatedNodeID st with
              | Some n =>
                  <[user.AllocatedNodeID st :=
                      node.mkNode (node.ID n) node.NodeStatusReady ""
                        (node.CreatedAt n) (clockAt env (clockReads w))]>
                    (nodes w)
              | None => nodes w
              end
          ∧ users r.2
            = <[userID := user.mkUserState (user.UserID st)
                            (user.LastActivityTime st)
                            (user.ActivityCount st) false ""]> (users w)
      else
        r.1 = Some ErrUserNotFound
        ∧ nodes r.2 = nodes w ∧ users r.2 = users w
  end
  ∧ apiLog r.2 = apiLog w.
Proof.
  intros Ha. cbv zeta.
  unfold NodeAllocator.DeallocateNodeFromUser, UserTracker.GetUserState,
    NodePool.DeallocateNode, UserTracker.MarkDisconnected.
  run_alone Ha. destruct (users w !! userID) as [st|] eqn:Hst; [|done].
  destruct (user.IsConnected st); cbn [negb]; [|done].
  destruct (decide (user.AllocatedNodeID st = "")) as [|Hne]; [done|].
  run_alone Ha.
  destruct (nodes w !! user.AllocatedNodeID st) as [m|]; run_alone Ha;
    rewrite Hst; run_alone Ha; done.
Qed.

(** The world a successful allocation leaves. *)
Lemma AllocateNodeToUser_success_world env w userID nodeID :
  Alone env → FairRange env → keyed (nodes w) →
  (NodeAllocator.AllocateNodeToUser env userID w).1 = (nodeID, None) →
  let w1 := (NodeAllocator.AllocateNodeToUser env userID w).2 in
  ∃ n,
    nodes w !! nodeID = Some n
    ∧ node.ID n = nodeID
    ∧ node.Status n = node.NodeStatusReady
    ∧ nodes w1
      = <[nodeID := node.mkNode nodeID node.NodeStatusAllocated userID
                      (node.CreatedAt n) (clockAt env (clockReads w))]>
          (nodes w)
    ∧ users w1
      = <[userID := connectedState (users w) userID nodeID]> (users w)
    ∧ apiLog w1 = apiLog w
    ∧ clockReads w1 = S (clockReads w).
Proof.
  intros Ha Hf Hkey Hok. cbv zeta.
  destruct (AllocateNodeToUser_outcome env w userID Ha Hf Hkey)
    as [(_ & Hr & _)|[(_ & _ & Hr & _)
                     |(_ & n & Hn & Hs & Hr & Hnodes & Husers & Hlog & Hc)]];
    rewrite Hr in Hok; try discriminate Hok.
  injection Hok as <-. exists n. auto 10.
Qed.

(** Connect, then disconnect: the disconnect succeeds, the node is
    ready again with no bound user, every other node is untouched, the
    count of every status is what it was before the connect, and the
    user is left disconnected with its activity history. *)
Theorem connect_then_disconnect_restores_counts
    (env : Env) (w : World) (userID nodeID : string) :
  Alone env → FairRange env → keyed (nodes w) →
  (NodeAllocator.AllocateNodeToUser env userID w).1 = (nodeID, None) →
  nodeID ≠ "" →
  let w1 := (NodeAllocator.AllocateNodeToUser env userID w).2 in
  let r := NodeAllocator.DeallocateNodeFromUser env userID w1 in
  r.1 = None
  ∧ (∀ s, countStatus (nodes r.2) s = countStatus (nodes w) s)
  ∧ (∃ n, nodes w !! nodeID = Some n
          ∧ nodes r.2 !! nodeID
            = Some (node.mkNode nodeID node.NodeStatusReady ""
                      (node.CreatedAt n)
                      (clockAt env (S (clockReads w)))))
  ∧ (∀ k, k ≠ nodeID → nodes r.2 !! k = nodes w !! k)
  ∧ users r.2 !! userID
    = Some (user.mkUserState
              (from_option user.UserID userID (users w !! userID))
              (from_option user.LastActivityTime GoTime.zero
                 (users w !! userID))
              (from_option user.ActivityCount 0 (users w !! userID))
              false "").
Proof.
  intros Ha Hf Hkey Hok Hne. cbv zeta.
  destruct (AllocateNodeToUser_success_world env w userID nodeID
              Ha Hf Hkey Hok)
    as (n & Hn & Hid & Hs & Hnodes & Husers & _ & Hclock).
  set (w1 := (NodeAllocator.AllocateNodeToUser env userID w).2) in *.
  pose proof (DeallocateNodeFromUser_outcome env w1 userID Ha) as Hd.
  cbv zeta in Hd. rewrite Husers, lookup_insert_eq in Hd.
  cbn [connectedState user.IsConnected user.AllocatedNodeID user.UserID
       user.LastActivityTime user.ActivityCount] in Hd.
  destruct (decide (nodeID = "")); [done|].
  rewrite Hnodes, lookup_insert_eq, insert_insert_eq in Hd.
  cbn [node.ID node.CreatedAt] in Hd. rewrite Hclock in Hd.
  destruct Hd as [(Herr & Hnodes' & Husers') _].
  rewrite Herr, Hnodes', Husers'.
  split; [done|]. split; [|split; [|split]].
  - intros s.
    pose proof (countStatus_replace_exact (nodes w) nodeID n
                  (node.mkNode nodeID node.NodeStatusReady ""
                     (node.CreatedAt n) (clockAt env (S (clockReads w))))
                  s Hn) as Hc.
    cbn [node.Status] in Hc. rewrite Hs in Hc.
    destruct (decide (node.NodeStatusReady = s)); lia.
  - exists n. by rewrite lookup_insert_eq.
  - intros k Hk. by rewrite lookup_insert_ne.
  - by rewrite insert_insert_eq, lookup_insert_eq.
Qed.

Lemma connect_then_disconnect_witness :
  let env := quietEnv (GoTime.Unix 1000) [] in
  let w1 := (NodeAllocator.AllocateNodeToUser env "u1" warm).2 in
  let r := NodeAllocator.DeallocateNodeFromUser env "u1" w1 in
  r.1 = None
  ∧ (∀ s, countStatus (nodes r.2) s = countStatus (nodes warm) s)
  ∧ (∃ n, nodes warm !! "n1" = Some n
          ∧ nodes r.2 !! "n1"
            = Some (node.mkNode "n1" node.NodeStatusReady ""
                      (node.CreatedAt n)
                      (clockAt env (S (clockReads warm)))))
  ∧ (∀ k, k ≠ "n1" → nodes r.2 !! k = nodes warm !! k)
  ∧ users r.2 !! "u1"
    = Some (user.mkUserState
              (from_option user.UserID "u1" (users warm !! "u1"))
              (from_option user.LastActivityTime GoTime.zero
                 (users warm !! "u1"))
              (from_option user.ActivityCount 0 (users warm !! "u1"))
              false "").
Proof.
  apply (connect_then_disconnect_restores_counts
           (quietEnv (GoTime.Unix 1000) []) warm "u1" "n1").
  - apply quietEnv_alone.
  - apply quietEnv_fair.
  - apply keyed_check. vm_compute. reflexivity.
  - vm_compute. reflexivity.
  - discriminate.
Defined.

(** ** Repeated messages *)

Lemma AllocateNodeToUser_already env w userID :
  Alone env →
  NodeAllocator.hasNode (users w !! userID) = true →
  NodeAllocator.AllocateNodeToUser env userID w
  = ((from_option user.AllocatedNodeID "" (users w !! userID),
      Some ErrAlreadyAllocated),
     mkWorld (nodes w) (users w) (apiLog w) (clockReads w) (S (sched w))).
Proof.
  intros Ha Hhas.
  unfold NodeAllocator.AllocateNodeToUser, UserTracker.GetUserState.
  run_alone Ha. rewrite Hhas. reflexivity.
Qed.

(** A second connect of a user that holds a node returns the same node
    with [ErrAlreadyAllocated]; the handler turns it into success; no
    node, no user record changes and no request is sent. *)
Theorem second_connect_is_harmless
    (env : Env) (w : World) (userID nodeID : string) :
  Alone env → FairRange env → keyed (nodes w) →
  (NodeAllocator.AllocateNodeToUser env userID w).1 = (nodeID, None) →
  nodeID ≠ "" →
  let w1 := (NodeAllocator.AllocateNodeToUser env userID w).2 in
  (NodeAllocator.AllocateNodeToUser env userID w1).1
  = (nodeID, Some ErrAlreadyAllocated)
  ∧ (Provisioner.HandleUserConnect env userID w1).1 = None
  ∧ nodes (Provisioner.HandleUserConnect env userID w1).2 = nodes w1
  ∧ users (Provisioner.HandleUserConnect env userID w1).2 = users w1
  ∧ apiLog (Provisioner.HandleUserConnect env userID w1).2 = apiLog w1.
Proof.
  intros Ha Hf Hkey Hok Hne. cbv zeta.
  destruct (AllocateNodeToUser_success_world env w userID nodeID
              Ha Hf Hkey Hok)
    as (n & _ & _ & _ & _ & Husers & _).
  set (w1 := (NodeAllocator.AllocateNodeToUser env userID w).2) in *.
  assert (Hhas : NodeAllocator.hasNode (users w1 !! userID) = true).
  { rewrite Husers, lookup_insert_eq. cbn.
    by apply bool_decide_eq_true. }
  assert (Hid : from_option user.AllocatedNodeID "" (users w1 !! userID)
                = nodeID).
  { by rewrite Husers, lookup_insert_eq. }
  pose proof (AllocateNodeToUser_already env w1 userID Ha Hhas) as Hrun.
  rewrite Hid in Hrun.
  unfold Provisioner.HandleUserConnect, mbind, M_bind.
  rewrite Hrun. cbn. auto.
Qed.

Lemma second_connect_witness :
  let env := quietEnv (GoTime.Unix 1000) [] in
  let w1 := (NodeAllocator.AllocateNodeToUser env "u1" warm).2 in
  (NodeAllocator.AllocateNodeToUser env "u1" w1).1
  = ("n1", Some ErrAlreadyAllocated)
  ∧ (Provisioner.HandleUserConnect env "u1" w1).1 = None
  ∧ nodes (Provisioner.HandleUserConnect env "u1" w1).2 = nodes w1
  ∧ users (Provisioner.HandleUserConnect env "u1" w1).2 = users w1
  ∧ apiLog (Provisioner.HandleUserConnect env "u1" w1).2 = apiLog w1.
Proof.
  apply (second_connect_is_harmless
           (quietEnv (GoTime.Unix 1000) []) warm "u1" "n1").
  - apply quietEnv_alone.
  - apply quietEnv_fair.
  - apply keyed_check. vm_compute. reflexivity.
  - vm_compute. reflexivity.
  - discriminate.
Defined.

Lemma DeallocateNodeFromUser_success_state env w userID :
  Alone env →
  (NodeAllocator.DeallocateNodeFromUser env userID w).1 = None →
  ∃ st,
    users (NodeAllocator.DeallocateNodeFromUser env userID w).2 !! userID
    = Some st
    ∧ user.IsConnected st = false
    ∧ user.AllocatedNodeID st = "".
Proof.
  intros Ha Hok.
  pose proof (DeallocateNodeFromUser_outcome env w userID Ha) as [Hd _].
  cbv zeta in Hd.
  destruct (users w !! userID) as [st|].
  - destruct (user.IsConnected st).
    + destruct (decide (user.AllocatedNodeID st = "")) as [He|He].
      * destruct Hd as (Hr & _). congruence.
      * destruct Hd as (_ & _ & Hu). rewrite Hu, lookup_insert_eq. eauto.
    + destruct Hd as (Hr & _). congruence.
  - destruct Hd as (Hr & _). congruence.
Qed.

(** [DeallocateNodeFromUser] fails with [ErrUserNotFound] for a user
    that is unknown or not connected and with [ErrNodeNotFound] for a
    connected user whose node identifier is empty, and then changes
    nothing; otherwise it succeeds, also when the pool no longer holds
    the node, and the user ends disconnected. *)
Theorem DeallocateNodeFromUser_error_meaning
    (env : Env) (w : World) (userID : string) :
  Alone env →
  let r := NodeAllocator.DeallocateNodeFromUser env userID w in
  let connected :=
    from_option user.IsConnected false (users w !! userID) in
  let bound :=
    from_option user.AllocatedNodeID "" (users w !! userID) in
  (r.1 = Some ErrUserNotFound ↔ connected = false)
  ∧ (r.1 = Some ErrNodeNotFound ↔ connected = true ∧ bound = "")
  ∧ (r.1 = None ↔ connected = true ∧ bound ≠ "")
  ∧ (r.1 ≠ None → nodes r.2 = nodes w ∧ users r.2 = users w)
  ∧ (r.1 = None →
     ∃ st, users r.2 !! userID = Some st
           ∧ user.IsConnected st = false
           ∧ user.AllocatedNodeID st = "").
Proof.
  intros Ha. cbv zeta.
  pose proof (DeallocateNodeFromUser_outcome env w userID Ha) as [Hd _].
  cbv zeta in Hd.
  destruct (users w !! userID) as [st|]; cbn [from_option].
  - destruct (user.IsConnected st).
    + destruct (decide (user.AllocatedNodeID st = "")) as [He|He].
      * destruct Hd as (-> & Hn & Hu). rewrite He.
        repeat split; try done; intros [? ?]; done.
      * destruct Hd as (-> & Hn & Hu). rewrite Hu, lookup_insert_eq.
        split; [split; done|]. split; [split; [done|intros [? ?]; done]|].
        split; [done|]. split; [done|]. intros _. eauto.
    + destruct Hd as (-> & Hn & Hu).
      repeat split; try done; intros [? ?]; done.
  - destruct Hd as (-> & Hn & Hu).
    repeat split; try done; intros [? ?]; done.
Qed.

Lemma DeallocateNodeFromUser_error_meaning_witness :
  let r := NodeAllocator.DeallocateNodeFromUser (quietEnv 0 []) "u1"
             allocated in
  let connected :=
    from_option user.IsConnected false (users allocated !! "u1") in
  let bound :=
    from_option user.AllocatedNodeID "" (users allocated !! "u1") in
  (r.1 = Some ErrUserNotFound ↔ connected = false)
  ∧ (r.1 = Some ErrNodeNotFound ↔ connected = true ∧ bound = "")
  ∧ (r.1 = None ↔ connected = true ∧ bound ≠ "")
  ∧ (r.1 ≠ None → nodes r.2 = nodes allocated ∧ users r.2 = users allocated)
  ∧ (r.1 = None →
     ∃ st, users r.2 !! "u1" = Some st
           ∧ user.IsConnected st = false
           ∧ user.AllocatedNodeID st = "").
Proof.
  apply (DeallocateNodeFromUser_error_meaning (quietEnv 0 []) allocated
           "u1").
  apply quietEnv_alone.
Defined.

(** A second disconnect right after a successful one returns
    [ErrUserNotFound] and changes nothing. *)
Theorem second_disconnect_is_refused
    (env : Env) (w : World) (userID : string) :
  Alone env →
  (NodeAllocator.DeallocateNodeFromUser env userID w).1 = None →
  let w1 := (NodeAllocator.DeallocateNodeFromUser env userID w).2 in
  let r := NodeAllocator.DeallocateNodeFromUser env userID w1 in
  r.1 = Some ErrUserNotFound
  ∧ nodes r.2 = nodes w1 ∧ users r.2 = users w1 ∧ apiLog r.2 = apiLog w1.
Proof.
  intros Ha Hok. cbv zeta.
  destruct (DeallocateNodeFromUser_success_state env w userID Ha Hok)
    as (st & Hst & Hc & _).
  set (w1 := (NodeAllocator.DeallocateNodeFromUser env userID w).2) in *.
  pose proof (DeallocateNodeFromUser_outcome env w1 userID Ha) as [Hd Hl].
  cbv zeta in Hd. rewrite Hst, Hc in Hd. destruct Hd as (? & ? & ?). auto.
Qed.

Lemma second_disconnect_witness :
  let env := quietEnv 0 [] in
  let w1 := (NodeAllocator.DeallocateNodeFromUser env "u1" allocated).2 in
  let r := NodeAllocator.DeallocateNodeFromUser env "u1" w1 in
  r.1 = Some ErrUserNotFound
  ∧ nodes r.2 = nodes w1 ∧ users r.2 = users w1 ∧ apiLog r.2 = apiLog w1.
Proof.
  apply (second_disconnect_is_refused (quietEnv 0 []) allocated "u1").
  - apply quietEnv_alone.
  - vm_compute. reflexivity.
Defined.

(** ** One node, one user *)

(** A node is given to one user only: on an allocated node a second
    [AllocateNode] returns false and leaves the pool as it is. *)
Theorem AllocateNode_is_test_and_set
    (env : Env) (w : World) (nodeID u1 u2 : string) :
  Alone env →
  (NodePool.AllocateNode env nodeID u1 w).1 = true →
  let w1 := (NodePool.AllocateNode env nodeID u1 w).2 in
  (node.Status <$> nodes w1 !! nodeID = Some node.NodeStatusAllocated
   ∧ node.UserID <$> nodes w1 !! nodeID = Some u1)
  ∧ (NodePool.AllocateNode env nodeID u2 w1).1 = false
  ∧ nodes (NodePool.AllocateNode env nodeID u2 w1).2 = nodes w1.
Proof.
  intros Ha. cbv zeta. unfold NodePool.AllocateNode. run_alone Ha.
  destruct (nodes w !! nodeID) as [n|] eqn:Hn; run_alone Ha; [|done].
  destruct (decide (node.Status n ≠ node.NodeStatusReady));
    run_alone Ha; [done|].
  intros _. rewrite !lookup_insert_eq. run_alone Ha.
  destruct (decide _) as [|Hne]; [done|].
  exfalso. apply Hne. discriminate.
Qed.

Lemma AllocateNode_is_test_and_set_witness :
  let env := quietEnv 0 [] in
  let w1 := (NodePool.AllocateNode env "n1" "u1" twoReady).2 in
  (node.Status <$> nodes w1 !! "n1" = Some node.NodeStatusAllocated
   ∧ node.UserID <$> nodes w1 !! "n1" = Some "u1")
  ∧ (NodePool.AllocateNode env "n1" "u2" w1).1 = false
  ∧ nodes (NodePool.AllocateNode env "n1" "u2" w1).2 = nodes w1.
Proof.
  apply (AllocateNode_is_test_and_set (quietEnv 0 []) twoReady "n1" "u1"
           "u2").
  - apply quietEnv_alone.
  - vm_compute. reflexivity.
Defined.

(** Two allocations that both succeed, one after the other, hand out
    two different nodes. *)
Theorem successive_allocations_differ
    (env : Env) (w : World) (u1 u2 id1 id2 : string) :
  Alone env → FairRange env → keyed (nodes w) →
  (NodeAllocator.AllocateNodeToUser env u1 w).1 = (id1, None) →
  let w1 := (NodeAllocator.AllocateNodeToUser env u1 w).2 in
  (NodeAllocator.AllocateNodeToUser env u2 w1).1 = (id2, None) →
  id1 ≠ id2.
Proof.
  intros Ha Hf Hkey Hok1. cbv zeta. intros Hok2 <-.
  destruct (AllocateNodeToUser_success_world env w u1 id1 Ha Hf Hkey Hok1)
    as (n & Hn & Hid & _ & Hnodes & _).
  set (w1 := (NodeAllocator.AllocateNodeToUser env u1 w).2) in *.
  assert (Hkey1 : keyed (nodes w1)).
  { rewrite Hnodes. by apply keyed_insert. }
  destruct (AllocateNodeToUser_success_world env w1 u2 id1 Ha Hf Hkey1
              Hok2)
    as (m & Hm & _ & Hs & _).
  rewrite Hnodes, lookup_insert_eq in Hm. injection Hm as <-.
  discriminate Hs.
Qed.

Lemma successive_allocations_differ_witness : "n1" ≠ "n2".
Proof.
  apply (successive_allocations_differ (quietEnv 0 []) twoReady "u1" "u2"
           "n1" "n2").
  - apply quietEnv_alone.
  - apply quietEnv_fair.
  - apply keyed_check. vm_compute. reflexivity.
  - vm_compute. reflexivity.
  - vm_compute. reflexivity.
Defined.

(** After a successful allocation both reverse lookups agree with it:
    [GetAllocation] gives the node of the user and [GetNodeAllocation]
    the user of the node. *)
Theorem lookups_agree_after_allocation
    (env : Env) (w : World) (userID nodeID : string) :
  Alone env → FairRange env → keyed (nodes w) →
  (NodeAllocator.AllocateNodeToUser env userID w).1 = (nodeID, None) →
  let w1 := (NodeAllocator.AllocateNodeToUser env userID w).2 in
  (NodeAllocator.GetAllocation env userID w1).1 = (nodeID, true)
  ∧ (NodeAllocator.GetNodeAllocation env nodeID w1).1 = (userID, true).
Proof.
  intros Ha Hf Hkey Hok. cbv zeta.
  destruct (AllocateNodeToUser_success_world env w userID nodeID
              Ha Hf Hkey Hok)
    as (n & _ & _ & _ & Hnodes & Husers & _).
  set (w1 := (NodeAllocator.AllocateNodeToUser env userID w).2) in *.
  unfold NodeAllocator.GetAllocation, NodeAllocator.GetNodeAllocation,
    UserTracker.GetUserState, NodePool.Get.
  run_alone Ha. rewrite Husers, Hnodes, !lookup_insert_eq. cbn.
  split; [done|].
  destruct (decide _) as [Hne|]; [|done]. exfalso. by apply Hne.
Qed.

Lemma lookups_agree_witness :
  let env := quietEnv (GoTime.Unix 1000) [] in
  let w1 := (NodeAllocator.AllocateNodeToUser env "u1" warm).2 in
  (NodeAllocator.GetAllocation env "u1" w1).1 = ("n1", true)
  ∧ (NodeAllocator.GetNodeAllocation env "n1" w1).1 = ("u1", true).
Proof.
  apply (lookups_agree_after_allocation
           (quietEnv (GoTime.Unix 1000) []) warm "u1" "n1").
  - apply quietEnv_alone.
  - apply quietEnv_fair.
  - apply keyed_check. vm_compute. reflexivity.
  - vm_compute. reflexivity.
Defined.

(** ** Scale-up stays under the cap *)

Lemma decide_scaling_up_under_cap config (r b a d : Z) :
  0 <= r → 0 <= b → 0 <= a → 0 <= d →
  r + b + a <= GoInt.max_int →
  d + a <= GoInt.max_int →
  predictor.MinReadyNodes config + a <= GoInt.max_int →
  GoInt.in_range (predictor.MinReadyNodes config) →
  0 <= predictor.MaxReadyNodes config <= GoInt.max_int →
  let decision := Predictor.decide_scaling config r b a d in
  predictor.ShouldScaleUp decision = true →
  1 <= predictor.TargetNodes decision
  ∧ r + b + a + predictor.TargetNodes decision
    <= predictor.MaxReadyNodes config.
Proof.
  intros Hr Hb Ha Hd Hfit Hda Hma Hmin Hmax.
  assert (Hcap : GoInt.add r b = r + b).
  { unfold GoInt.add. apply wrap_in_range.
    unfold GoInt.in_range, GoInt.min_int, GoInt.max_int in *. lia. }
  assert (Htot : GoInt.add (r + b) a = r + b + a).
  { unfold GoInt.add. apply wrap_in_range.
    unfold GoInt.in_range, GoInt.min_int, GoInt.max_int in *. lia. }
  assert (Hsub : GoInt.sub (predictor.MaxReadyNodes config) (r + b + a)
                 = predictor.MaxReadyNodes config - (r + b + a)).
  { unfold GoInt.sub. apply wrap_in_range.
    unfold GoInt.in_range, GoInt.min_int, GoInt.max_int in *. lia. }
  unfold Predictor.decide_scaling. rewrite !Hcap, !Htot, !Hsub.
  cbv zeta.
  cbn [predictor.ShouldScaleUp predictor.ShouldScaleDown
       predictor.TargetNodes predictor.Reason].
  destruct (decide (0 < GoInt.sub r (predictor.MinReadyNodes config)
                    ∧ d = 0)) as [[Hex Hd0]|Hno].
  - (* scale-down fired: scale-up cannot have *)
    cbn [predictor.ShouldScaleUp].
    assert (Hlt : predictor.MinReadyNodes config < r).
    { unfold GoInt.sub in Hex.
      destruct (decide (r <= predictor.MinReadyNodes config)); [|lia].
      rewrite wrap_in_range in Hex; [lia|].
      unfold GoInt.in_range, GoInt.min_int, GoInt.max_int in *. lia. }
    destruct (decide (r + b < d)); [lia|].
    destruct (decide (r < predictor.MinReadyNodes config ∧
                      r + b < predictor.MinReadyNodes config)); [lia|].
    cbn. discriminate.
  - destruct (decide (r + b < d)) as [Hdem|Hdem].
    + cbn [predictor.ShouldScaleUp predictor.TargetNodes].
      assert (Ht : GoInt.sub d (r + b) = d - (r + b)).
      { unfold GoInt.sub. apply wrap_in_range.
        unfold GoInt.in_range, GoInt.min_int, GoInt.max_int in *. lia. }
      rewrite Ht.
      assert (Hsum : GoInt.add (r + b + a) (d - (r + b)) = a + d).
      { unfold GoInt.add. rewrite wrap_in_range; [lia|].
        unfold GoInt.in_range, GoInt.min_int, GoInt.max_int in *. lia. }
      rewrite Hsum.
      repeat case_decide; cbn; intros ?; try discriminate; lia.
    + destruct (decide (r < predictor.MinReadyNodes config ∧
                        r + b < predictor.MinReadyNodes config))
        as [[Hr' Hm]|Hm].
      * cbn [predictor.ShouldScaleUp predictor.TargetNodes].
        assert (Ht : GoInt.sub (predictor.MinReadyNodes config) (r + b)
                     = predictor.MinReadyNodes config - (r + b)).
        { unfold GoInt.sub. apply wrap_in_range.
          unfold GoInt.in_range, GoInt.min_int, GoInt.max_int in *. lia. }
        rewrite Ht.
        assert (Hsum : GoInt.add (r + b + a)
                         (predictor.MinReadyNodes config - (r + b))
                       = a + predictor.MinReadyNodes config).
        { unfold GoInt.add. rewrite wrap_in_range; [lia|].
          unfold GoInt.in_range, GoInt.min_int, GoInt.max_int in *. lia. }
        rewrite Hsum.
        repeat case_decide; cbn; intros ?; try discriminate; lia.
      * cbn. discriminate.
Qed.

Lemma CalculateScaling_world env config w :
  Alone env →
  (Predictor.CalculateScaling env config w).2
  = mkWorld (nodes w) (users w) (apiLog w) (S (clockReads w))
            (8 + sched w).
Proof.
  intros Ha. unfold Predictor.CalculateScaling, NodePool.CountByStatus,
    UserTracker.GetLikelyToConnect.
  run_alone Ha. reflexivity.
Qed.

Lemma CalculateScaling_target_fits env config w :
  Alone env → FairRange env → fitsInt config w →
  let decision := (Predictor.CalculateScaling env config w).1 in
  predictor.ShouldScaleUp decision = true →
  1 <= predictor.TargetNodes decision
  ∧ Z.of_nat (liveCount (nodes w)) + predictor.TargetNodes decision
    <= predictor.MaxReadyNodes config.
Proof.
  intros Ha Hf (Hsz & Hmin & Hminr & Hmax).
  assert (Hn : Z.of_nat (size (nodes w)) <= GoInt.max_int) by lia.
  destruct (CalculateScaling_run env config w Ha Hf Hn) as (d & Hd & ->).
  pose proof (countStatus_live_le_size (nodes w)) as Hlive.
  cbv zeta. intros Hflag. unfold liveCount. rewrite !Nat2Z.inj_add.
  revert Hflag. apply decide_scaling_up_under_cap; try lia; done.
Qed.

(** When [CalculateScaling] asks to scale up, the nodes it asks for fit
    under [MaxReadyNodes] together with the ready, booting and allocated
    nodes the pool holds; a pool already at the cap is never scaled
    up. *)
Theorem CalculateScaling_up_under_cap
    (env : Env) (config : predictor.PredictionConfig) (w : World) :
  Alone env → FairRange env → fitsInt config w →
  let decision := (Predictor.CalculateScaling env config w).1 in
  (predictor.ShouldScaleUp decision = true →
   1 <= predictor.TargetNodes decision
   ∧ Z.of_nat (liveCount (nodes w)) + predictor.TargetNodes decision
     <= predictor.MaxReadyNodes config)
  ∧ (predictor.MaxReadyNodes config <= Z.of_nat (liveCount (nodes w)) →
     predictor.ShouldScaleUp decision = false).
Proof.
  intros Ha Hf Hfits.
  pose proof (CalculateScaling_target_fits env config w Ha Hf Hfits)
    as Hup.
  cbv zeta in *. split; [exact Hup|].
  intros Hfull.
  destruct (predictor.ShouldScaleUp _) eqn:Hflag; [|done].
  specialize (Hup eq_refl). lia.
Qed.

Lemma CalculateScaling_up_under_cap_witness :
  let env := quietEnv (GoTime.Unix 1000) [] in
  let config := predictor.DefaultPredictionConfig in
  let decision := (Predictor.CalculateScaling env config overCap).1 in
  (predictor.ShouldScaleUp decision = true →
   1 <= predictor.TargetNodes decision
   ∧ Z.of_nat (liveCount (nodes overCap)) + predictor.TargetNodes decision
     <= predictor.MaxReadyNodes config)
  ∧ (predictor.MaxReadyNodes config <= Z.of_nat (liveCount (nodes overCap)) →
     predictor.ShouldScaleUp decision = false).
Proof.
  apply (CalculateScaling_up_under_cap (quietEnv (GoTime.Unix 1000) [])
           predictor.DefaultPredictionConfig overCap).
  - apply quietEnv_alone.
  - apply quietEnv_fair.
  - unfold fitsInt, GoInt.in_range. vm_compute.
    repeat split; discriminate.
Defined.

(** In that world the defaults ask for one node. *)
Example CalculateScaling_predictive_scale_up :
  (Predictor.CalculateScaling (quietEnv (GoTime.Unix 1000) [])
     predictor.DefaultPredictionConfig overCap).1
  = predictor.mkScalingDecision true false 1 "demand exceeds capacity".
Proof. vm_compute. reflexivity. Qed.

Lemma countStatus_insert_le (p : gmap string node.Node) k n s :
  (countStatus (<[k := n]> p) s
   <= countStatus p s + (if decide (node.Status n = s) then 1 else 0))%nat.
Proof.
  destruct (p !! k) as [m|] eqn:Hk.
  - pose proof (countStatus_replace_exact p k m n s Hk).
    destruct (decide (node.Status m = s)); lia.
  - unfold countStatus, values.
    rewrite map_to_list_insert by done. rewrite fmap_cons, filter_cons.
    cbn [snd]. destruct (decide (node.Status n = s)); cbn [length]; lia.
Qed.

Lemma liveCount_insert_le (p : gmap string node.Node) k n :
  (liveCount (<[k := n]> p) <= S (liveCount p))%nat.
Proof.
  unfold liveCount.
  pose proof (countStatus_insert_le p k n node.NodeStatusReady).
  pose proof (countStatus_insert_le p k n node.NodeStatusBooting).
  pose proof (countStatus_insert_le p k n node.NodeStatusAllocated).
  destruct (decide (node.Status n = node.NodeStatusReady)) as [e1|],
    (decide (node.Status n = node.NodeStatusBooting)) as [e2|],
    (decide (node.Status n = node.NodeStatusAllocated)) as [e3|];
    try lia; exfalso;
    unfold node.NodeStatusReady, node.NodeStatusBooting,
      node.NodeStatusAllocated in *; congruence.
Qed.

Lemma provisionNode_run env w :
  Alone env →
  (Provisioner.provisionNode env w).2
  = match createNode env (length (apiLog w)) with
    | Some id =>
        mkWorld
          (<[id := node.mkNode id node.NodeStatusBooting ""
                     (clockAt env (clockReads w))
                     (clockAt env (S (clockReads w)))]> (nodes w))
          (users w) (apiLog w ++ [PostNodes]) (S (S (clockReads w)))
          (S (sched w))
    | None =>
        mkWorld (nodes w) (users w) (apiLog w ++ [PostNodes])
          (clockReads w) (sched w)
    end.
Proof.
  intros Ha. unfold Provisioner.provisionNode, NodeManager.ProvisionNode,
    NodePool.Add.
  run_alone Ha. destruct (createNode env _); run_alone Ha; reflexivity.
Qed.

Lemma provision_loop env (k : nat) (w : World) :
  Alone env →
  let w' := (times k (Provisioner.provisionNode env;; mret tt) w).2 in
  apiLog w' = apiLog w ++ replicate k PostNodes
  ∧ users w' = users w
  ∧ (liveCount (nodes w') <= liveCount (nodes w) + k)%nat.
Proof.
  intros Ha. set (body := Provisioner.provisionNode env;; mret tt).
  revert w. induction k as [|k IH]; intros w.
  - cbn. rewrite app_nil_r. auto with lia.
  - cbv zeta. cbn [times].
    destruct (body w) as [[] w1] eqn:Hbody.
    assert (Hrun : (body ≫= λ _, times k body) w = times k body w1).
    { unfold mbind, M_bind. by rewrite Hbody. }
    rewrite Hrun.
    assert (Hw1 : w1 = (Provisioner.provisionNode env w).2).
    { unfold body, mbind, M_bind, mret, M_ret in Hbody.
      destruct (Provisioner.provisionNode env w). by injection Hbody. }
    rewrite provisionNode_run in Hw1 by done.
    specialize (IH w1). cbv zeta in IH. destruct IH as (Hl & Hu & Hc).
    rewrite Hl, Hu.
    assert (Hstep : apiLog w1 = apiLog w ++ [PostNodes]
                    ∧ users w1 = users w
                    ∧ (liveCount (nodes w1) <= S (liveCount (nodes w)))%nat).
    { rewrite Hw1. destruct (createNode env _); cbn [apiLog users nodes].
      - split; [done|]. split; [done|]. apply liveCount_insert_le.
      - auto. }
    destruct Hstep as (Hl1 & Hu1 & Hc1). rewrite Hl1, Hu1.
    split; [|split; [done|lia]].
    rewrite <- app_assoc. reflexivity.
Qed.

(** [performScalingCheck] sends one [POST /api/nodes] per node the
    decision asks for when it scales up and none otherwise, leaves the
    tracker alone, and never takes the ready, booting and allocated
    nodes past [MaxReadyNodes] (nor past what they were). *)
Theorem performScalingCheck_respects_cap
    (env : Env) (config : predictor.PredictionConfig) (w : World) :
  Alone env → FairRange env → fitsInt config w →
  let decision := (Predictor.CalculateScaling env config w).1 in
  let w' := (Provisioner.performScalingCheck env config w).2 in
  apiLog w'
  = apiLog w
    ++ replicate (if predictor.ShouldScaleUp decision
                  then Z.to_nat (predictor.TargetNodes decision) else 0)
         PostNodes
  ∧ users w' = users w
  ∧ Z.of_nat (liveCount (nodes w'))
    <= Z.max (Z.of_nat (liveCount (nodes w)))
         (predictor.MaxReadyNodes config).
Proof.
  intros Ha Hf Hfits. cbv zeta.
  pose proof (CalculateScaling_target_fits env config w Ha Hf Hfits)
    as Hup. cbv zeta in Hup.
  pose proof (CalculateScaling_world env config w Ha) as Hw.
  destruct (Predictor.CalculateScaling env config w) as [decision w0]
    eqn:Hcalc.
  cbn [fst snd] in *. subst w0.
  assert (Hrun :
    Provisioner.performScalingCheck env config w
    = (if predictor.ShouldScaleUp decision
       then times (Z.to_nat (predictor.TargetNodes decision))
              (Provisioner.provisionNode env;; mret tt)
       else mret tt)
        (mkWorld (nodes w) (users w) (apiLog w) (S (clockReads w))
           (8 + sched w))).
  { unfold Provisioner.performScalingCheck.
    unfold mbind at 1, M_bind at 1. by rewrite Hcalc. }
  rewrite Hrun.
  destruct (predictor.ShouldScaleUp decision).
  - destruct (Hup eq_refl) as [Hpos Hcap].
    pose proof (provision_loop env
                  (Z.to_nat (predictor.TargetNodes decision))
                  (mkWorld (nodes w) (users w) (apiLog w)
                     (S (clockReads w)) (8 + sched w)) Ha) as Hloop.
    cbv zeta in Hloop. cbn [nodes users apiLog] in Hloop.
    destruct Hloop as (Hl & Hu & Hc). split; [done|]. split; [done|]. lia.
  - unfold mret, M_ret. cbn. rewrite app_nil_r. auto with lia.
Qed.

Lemma performScalingCheck_respects_cap_witness :
  let env := quietEnv (GoTime.Unix 1000) ["n9"] in
  let config := predictor.DefaultPredictionConfig in
  let decision := (Predictor.CalculateScaling env config overCap).1 in
  let w' := (Provisioner.performScalingCheck env config overCap).2 in
  apiLog w'
  = apiLog overCap
    ++ replicate (if predictor.ShouldScaleUp decision
                  then Z.to_nat (predictor.TargetNodes decision) else 0)
         PostNodes
  ∧ users w' = users overCap
  ∧ Z.of_nat (liveCount (nodes w'))
    <= Z.max (Z.of_nat (liveCount (nodes overCap)))
         (predictor.MaxReadyNodes config).
Proof.
  apply (performScalingCheck_respects_cap
           (quietEnv (GoTime.Unix 1000) ["n9"])
           predictor.DefaultPredictionConfig overCap).
  - apply quietEnv_alone.
  - apply quietEnv_fair.
  - unfold fitsInt, GoInt.in_range. vm_compute.
    repeat split; discriminate.
Defined.

(** ** Stuck booting nodes *)

(** [GetStuckBootingNodes] returns exactly the booting nodes of the pool
    created before the clock reading minus [BootingNodeTimeout]. *)
Lemma GetStuckBootingNodes_spec env config w n :
  Alone env → FairRange env →
  GoInt.min_int < predictor.BootingNodeTimeout config <= GoInt.max_int →
  n ∈ (Predictor.GetStuckBootingNodes env config w).1
  ↔ (∃ k, nodes w !! k = Some n)
    ∧ node.Status n = node.NodeStatusBooting
    ∧ node.CreatedAt n
      < clockAt env (clockReads w) - predictor.BootingNodeTimeout config.
Proof.
  intros Ha [Hn _] Ht. rewrite (GetStuckBootingNodes_run env Ha).
  cbn [fst]. rewrite !list_elem_of_filter, Hn, elem_of_values.
  assert (Hcut : Add (clockAt env (clockReads w))
                   (GoInt.neg (predictor.BootingNodeTimeout config))
                 = clockAt env (clockReads w)
                   - predictor.BootingNodeTimeout config).
  { unfold Add, GoInt.neg. rewrite wrap_in_range; [lia|].
    unfold GoInt.in_range, GoInt.min_int, GoInt.max_int in *. lia. }
  rewrite Hcut. unfold Before. rewrite bool_decide_eq_true. tauto.
Qed.

(** The loop of [cleanupStuckNodes]: it only deletes, and only under
    identifiers of the listed nodes; it deletes every listed node when
    the API accepts every deletion. *)
Lemma cleanupStuck_loop env (l : list node.Node) (w : World) :
  Alone env →
  let body := λ n : node.Node,
    err ← NodeManager.TerminateNode env (node.ID n);
    match err with
    | Some _ => mret tt
    | None => NodePool.Remove env (node.ID n)
    end in
  let w' := (forEach l body w).2 in
  (∀ k, nodes w' !! k = nodes w !! k
        ∨ (nodes w' !! k = None ∧ ∃ n, n ∈ l ∧ node.ID n = k))
  ∧ users w' = users w
  ∧ ((∀ j id, deleteNode env j id = true) →
     ∀ n, n ∈ l → nodes w' !! node.ID n = None).
Proof.
  intros Ha body. revert w. induction l as [|n l IH]; intros w.
  - cbn. split; [auto|]. split; [done|]. intros _ n Hn.
    by apply elem_of_nil in Hn.
  - cbv zeta. cbn [forEach].
    destruct (body n w) as [[] w1] eqn:Hbody.
    assert (Hrun : (body n ≫= λ _, forEach l body) w = forEach l body w1).
    { unfold mbind, M_bind. by rewrite Hbody. }
    rewrite Hrun.
    assert (Hstep : users w1 = users w
                    ∧ (nodes w1 = nodes w
                       ∨ nodes w1 = delete (node.ID n) (nodes w))
                    ∧ ((∀ j id, deleteNode env j id = true) →
                       nodes w1 = delete (node.ID n) (nodes w))).
    { unfold body, NodeManager.TerminateNode, NodePool.Remove in Hbody.
      run_alone Ha.
      destruct (deleteNode env (length (apiLog w)) (node.ID n)) eqn:Hdel;
        run_alone Ha; injection Hbody as <-; cbn [nodes users].
      - auto.
      - split; [done|]. split; [auto|]. intros Hall.
        rewrite Hall in Hdel. discriminate. }
    destruct Hstep as (Hu1 & Hn1 & Hall1).
    specialize (IH w1). cbv zeta in IH. destruct IH as (Hk & Hu & Hall).
    split; [|split].
    + intros k. destruct (Hk k) as [Hsame|[Hnone (m & Hm & Hid)]].
      * rewrite Hsame. destruct Hn1 as [->| ->]; [by left|].
        destruct (decide (node.ID n = k)) as [<-|Hne].
        -- right. rewrite lookup_delete_eq. split; [done|].
           exists n. split; [left|done].
        -- left. by rewrite lookup_delete_ne.
      * right. split; [done|]. exists m. split; [by right|done].
    + by rewrite Hu, Hu1.
    + intros Hacc m Hm. apply elem_of_cons in Hm as [->|Hm].
      * destruct (Hk (node.ID n)) as [Hsame|[Hnone _]]; [|done].
        rewrite Hsame, (Hall1 Hacc). apply lookup_delete_eq.
      * by apply Hall.
Qed.

(** [cleanupStuckNodes] adds and changes no node and leaves the tracker
    alone; the nodes it removes were booting and created before the
    clock reading minus [BootingNodeTimeout]; when the API accepts
    every deletion no such node is left. *)
Theorem cleanupStuckNodes_removes_only_stuck
    (env : Env) (config : predictor.PredictionConfig) (w : World) :
  Alone env → FairRange env → keyed (nodes w) →
  GoInt.min_int < predictor.BootingNodeTimeout config <= GoInt.max_int →
  let w' := (Provisioner.cleanupStuckNodes env config w).2 in
  let stuck := λ n : node.Node,
    node.Status n = node.NodeStatusBooting
    ∧ node.CreatedAt n
      < clockAt env (clockReads w) - predictor.BootingNodeTimeout config in
  (∀ k n, nodes w' !! k = Some n → nodes w !! k = Some n)
  ∧ (∀ k n, nodes w !! k = Some n → nodes w' !! k = None → stuck n)
  ∧ ((∀ j id, deleteNode env j id = true) →
     ∀ k n, nodes w' !! k = Some n → ¬ stuck n)
  ∧ users w' = users w.
Proof.
  intros Ha Hf Hkey Ht. cbv zeta.
  assert (Hrun :
    Provisioner.cleanupStuckNodes env config w
    = forEach (Predictor.GetStuckBootingNodes env config w).1
        (λ n, err ← NodeManager.TerminateNode env (node.ID n);
              match err with
              | Some _ => mret tt
              | None => NodePool.Remove env (node.ID n)
              end)
        (mkWorld (nodes w) (users w) (apiLog w) (S (clockReads w))
           (S (S (sched w))))).
  { unfold Provisioner.cleanupStuckNodes. unfold mbind at 1, M_bind at 1.
    by rewrite (GetStuckBootingNodes_run env Ha). }
  rewrite Hrun.
  pose proof (cleanupStuck_loop env
                (Predictor.GetStuckBootingNodes env config w).1
                (mkWorld (nodes w) (users w) (apiLog w)
                   (S (clockReads w)) (S (S (sched w)))) Ha) as Hloop.
  cbv zeta in Hloop. cbn [nodes users] in Hloop.
  destruct Hloop as (Hk & Hu & Hall).
  split; [|split; [|split]]; [| | |done].
  - intros k n Hl. destruct (Hk k) as [Hsame|[Hnone _]]; congruence.
  - intros k n Hl Hgone.
    destruct (Hk k) as [Hsame|[_ (m & Hm & Hid)]]; [congruence|].
    apply (GetStuckBootingNodes_spec env config w m Ha Hf Ht)
      in Hm as ((k' & Hk') & Hs & Hc).
    pose proof (Hkey _ _ Hk') as Hidm. rewrite Hid in Hidm. subst k'.
    rewrite Hl in Hk'. injection Hk' as ->. done.
  - intros Hacc k n Hl [Hs Hc].
    assert (Hin : nodes w !! k = Some n).
    { destruct (Hk k) as [Hsame|[Hnone _]]; congruence. }
    assert (Hstuck : n ∈ (Predictor.GetStuckBootingNodes env config w).1).
    { apply (GetStuckBootingNodes_spec env config w n Ha Hf Ht). eauto. }
    pose proof (Hall Hacc n Hstuck) as Hnone.
    rewrite (Hkey _ _ Hin) in Hnone. congruence.
Qed.

Lemma cleanupStuckNodes_witness :
  let env := quietEnv (10 * Minute) [] in
  let config := predictor.DefaultPredictionConfig in
  let w' := (Provisioner.cleanupStuckNodes env config bootingAndReady).2 in
  let stuck := λ n : node.Node,
    node.Status n = node.NodeStatusBooting
    ∧ node.CreatedAt n
      < clockAt env (clockReads bootingAndReady)
        - predictor.BootingNodeTimeout config in
  (∀ k n, nodes w' !! k = Some n → nodes bootingAndReady !! k = Some n)
  ∧ (∀ k n, nodes bootingAndReady !! k = Some n →
            nodes w' !! k = None → stuck n)
  ∧ ((∀ j id, deleteNode env j id = true) →
     ∀ k n, nodes w' !! k = Some n → ¬ stuck n)
  ∧ users w' = users bootingAndReady.
Proof.
  apply (cleanupStuckNodes_removes_only_stuck (quietEnv (10 * Minute) [])
           predictor.DefaultPredictionConfig bootingAndReady).
  - apply quietEnv_alone.
  - apply quietEnv_fair.
  - apply keyed_check. vm_compute. reflexivity.
  - vm_compute. split; [reflexivity | discriminate].
Defined.

(** The booting node, ten minutes old, is deleted and removed; the ready
    one stays. *)
Example cleanupStuckNodes_removes_n1 :
  let w' := (Provisioner.cleanupStuckNodes (quietEnv (10 * Minute) [])
               predictor.DefaultPredictionConfig bootingAndReady).2 in
  nodes w' !! "n1" = None
  ∧ node.Status <$> nodes w' !! "n2" = Some node.NodeStatusReady
  ∧ apiLog w' = [DeleteNodes "n1"].
Proof. cbv zeta. repeat split; vm_compute; reflexivity. Qed.

(** ** Idle terminations *)

Lemma cleanupIdle_loop env (l : list node.Node) (w : World) :
  Alone env →
  let body := λ n : node.Node,
    err ← NodeManager.TerminateNode env (node.ID n);
    match err with
    | Some _ => mret tt
    | None =>
        NodePool.UpdateStatus env (node.ID n) node.NodeStatusTerminated
    end in
  let w' := (forEach l body w).2 in
  apiLog w' = apiLog w ++ ((λ n, DeleteNodes (node.ID n)) <$> l)
  ∧ users w' = users w
  ∧ (∀ k n, nodes w !! k = Some n →
       ∃ n', nodes w' !! k = Some n'
             ∧ (n' = n ∨ terminatedVersion n n'))
  ∧ (∀ k, nodes w !! k = None → nodes w' !! k = None)
  ∧ ((∀ j id, deleteNode env j id = false) → nodes w' = nodes w)
  ∧ ((∀ j id, deleteNode env j id = true) →
     ∀ n, n ∈ l → is_Some (nodes w !! node.ID n) →
       node.Status <$> nodes w' !! node.ID n
       = Some node.NodeStatusTerminated).
Proof.
  intros Ha body. revert w. induction l as [|n l IH]; intros w.
  - cbn. rewrite app_nil_r. split; [done|]. split; [done|].
    split; [eauto|]. split; [done|]. split; [done|].
    intros _ n Hn. by apply elem_of_nil in Hn.
  - cbv zeta. cbn [forEach].
    destruct (body n w) as [[] w1] eqn:Hbody.
    assert (Hrun : (body n ≫= λ _, forEach l body) w = forEach l body w1).
    { unfold mbind, M_bind. by rewrite Hbody. }
    rewrite Hrun.
    assert (Hstep :
      apiLog w1 = apiLog w ++ [DeleteNodes (node.ID n)]
      ∧ users w1 = users w
      ∧ (nodes w1 = nodes w
         ∨ ∃ m, nodes w !! node.ID n = Some m
                ∧ nodes w1
                  = <[node.ID n :=
                        node.mkNode (node.ID m) node.NodeStatusTerminated
                          (node.UserID m) (node.CreatedAt m)
                          (clockAt env (clockReads w))]> (nodes w))
      ∧ ((∀ j id, deleteNode env j id = false) → nodes w1 = nodes w)
      ∧ ((∀ j id, deleteNode env j id = true) →
         is_Some (nodes w !! node.ID n) →
         node.Status <$> nodes w1 !! node.ID n
         = Some node.NodeStatusTerminated)).
    { unfold body, NodeManager.TerminateNode, NodePool.UpdateStatus
        in Hbody.
      run_alone Ha.
      destruct (deleteNode env (length (apiLog w)) (node.ID n)) eqn:Hdel;
        run_alone Ha.
      - destruct (nodes w !! node.ID n) as [m|] eqn:Hm; run_alone Ha;
          injection Hbody as <-; cbn [nodes users apiLog].
        + split; [done|]. split; [done|]. split; [eauto|].
          split.
          * intros Hall. rewrite Hall in Hdel. discriminate.
          * intros _ _. by rewrite lookup_insert_eq.
        + split; [done|]. split; [done|]. split; [auto|].
          split; [done|]. intros _ [? ?]. discriminate.
      - injection Hbody as <-. cbn [nodes users apiLog].
        split; [done|]. split; [done|]. split; [auto|].
        split; [done|]. intros Hall. rewrite Hall in Hdel. discriminate. }
    destruct Hstep as (Hl1 & Hu1 & Hn1 & Hrej1 & Hacc1).
    specialize (IH w1). cbv zeta in IH.
    destruct IH as (Hl & Hu & Hkeep & Hnone & Hrej & Hacc).
    assert (Hkeep1 : ∀ k m, nodes w !! k = Some m →
              ∃ m1, nodes w1 !! k = Some m1
                    ∧ (m1 = m ∨ terminatedVersion m m1)).
    { intros k m Hk. destruct Hn1 as [->|(m0 & Hm0 & ->)]; [eauto|].
      destruct (decide (node.ID n = k)) as [<-|Hne].
      - rewrite lookup_insert_eq. eexists. split; [done|]. right.
        rewrite Hm0 in Hk. injection Hk as <-. by repeat split.
      - rewrite lookup_insert_ne by done. eauto. }
    split; [|split; [|split; [|split; [|split]]]].
    + rewrite Hl, Hl1, fmap_cons, <- app_assoc. reflexivity.
    + by rewrite Hu, Hu1.
    + intros k m Hk. destruct (Hkeep1 k m Hk) as (m1 & Hm1 & Hrel1).
      destruct (Hkeep k m1 Hm1) as (m' & Hm' & Hrel).
      exists m'. split; [done|].
      destruct Hrel1 as [->|(Hi1 & Hs1 & Hu1' & Hc1)]; [done|].
      right. destruct Hrel as [->|(Hi & Hs & Hu' & Hc)].
      * by repeat split.
      * repeat split; congruence.
    + intros k Hk. apply Hnone.
      destruct Hn1 as [->|(m0 & Hm0 & ->)]; [done|].
      rewrite lookup_insert_ne; [done|]. intros <-. congruence.
    + intros Hall. by rewrite (Hrej Hall), (Hrej1 Hall).
    + intros Hall m Hm Hsome. apply elem_of_cons in Hm as [->|Hm].
      * pose proof (Hacc1 Hall Hsome) as Hs1.
        destruct (nodes w1 !! node.ID n) as [m1|] eqn:Hm1;
          [|discriminate].
        cbn in Hs1. injection Hs1 as Hs1.
        destruct (Hkeep _ _ Hm1) as (m' & -> & [->|(_ & Hs & _)]);
          cbn; congruence.
      * apply (Hacc Hall m Hm). destruct Hsome as [m0 Hm0].
        destruct (Hkeep1 _ _ Hm0) as (m1 & -> & _). eauto.
Qed.

Lemma cleanupIdleNodes_run env config w :
  Alone env →
  Provisioner.cleanupIdleNodes env config w
  = forEach (Predictor.GetIdleNodes env config w).1
      (λ n, err ← NodeManager.TerminateNode env (node.ID n);
            match err with
            | Some _ => mret tt
            | None =>
                NodePool.UpdateStatus env (node.ID n)
                  node.NodeStatusTerminated
            end)
      (mkWorld (nodes w) (users w) (apiLog w) (S (clockReads w))
         (S (S (sched w)))).
Proof.
  intros Ha. unfold Provisioner.cleanupIdleNodes.
  unfold mbind at 1, M_bind at 1.
  by rewrite (GetIdleNodes_run env config w Ha).
Qed.

(** [cleanupIdleNodes] sends one [DELETE] per idle node, in the order
    [GetIdleNodes] lists them; it adds and removes no node and leaves
    the tracker alone; a node it changes keeps its identifier, bound
    user and creation time and becomes terminated.  If the API refuses
    every deletion the pool is unchanged; if it accepts every deletion
    every idle node ends terminated. *)
Theorem cleanupIdleNodes_effect
    (env : Env) (config : predictor.PredictionConfig) (w : World) :
  Alone env → FairRange env → keyed (nodes w) →
  let idle := (Predictor.GetIdleNodes env config w).1 in
  let w' := (Provisioner.cleanupIdleNodes env config w).2 in
  apiLog w' = apiLog w ++ ((λ n, DeleteNodes (node.ID n)) <$> idle)
  ∧ users w' = users w
  ∧ (∀ k n, nodes w !! k = Some n →
       ∃ n', nodes w' !! k = Some n'
             ∧ (n' = n ∨ terminatedVersion n n'))
  ∧ (∀ k, nodes w !! k = None → nodes w' !! k = None)
  ∧ ((∀ j id, deleteNode env j id = false) → nodes w' = nodes w)
  ∧ ((∀ j id, deleteNode env j id = true) →
     ∀ n, n ∈ idle →
       node.Status <$> nodes w' !! node.ID n
       = Some node.NodeStatusTerminated).
Proof.
  intros Ha Hf Hkey. cbv zeta. rewrite cleanupIdleNodes_run by done.
  pose proof (cleanupIdle_loop env
                (Predictor.GetIdleNodes env config w).1
                (mkWorld (nodes w) (users w) (apiLog w)
                   (S (clockReads w)) (S (S (sched w)))) Ha) as Hloop.
  cbv zeta in Hloop. cbn [nodes users apiLog] in Hloop.
  destruct Hloop as (Hl & Hu & Hkeep & Hnone & Hrej & Hacc).
  repeat (split; [done|]).
  intros Hall n Hin. apply (Hacc Hall n Hin).
  (* an idle node is a node of the pool, under its identifier *)
  pose proof (GetIdleNodes_run env config w Ha) as Hrun.
  cbv zeta in Hrun. rewrite Hrun in Hin. cbn [fst] in Hin.
  assert (Hin' : n ∈ orderNodes env (S (sched w)) (nodes w)).
  { destruct (decide _) in Hin.
    - apply subseteq_take in Hin.
      rewrite !list_elem_of_filter in Hin. tauto.
    - rewrite !list_elem_of_filter in Hin. tauto. }
  destruct Hf as [Hn _]. rewrite Hn in Hin'.
  apply elem_of_values in Hin' as [k Hk].
  rewrite <- (Hkey _ _ Hk) in Hk. eauto.
Qed.

Lemma cleanupIdleNodes_effect_witness :
  let env := quietEnv (10 * Minute) [] in
  let config := predictor.DefaultPredictionConfig in
  let idle := (Predictor.GetIdleNodes env config twoReady).1 in
  let w' := (Provisioner.cleanupIdleNodes env config twoReady).2 in
  apiLog w' = apiLog twoReady ++ ((λ n, DeleteNodes (node.ID n)) <$> idle)
  ∧ users w' = users twoReady
  ∧ (∀ k n, nodes twoReady !! k = Some n →
       ∃ n', nodes w' !! k = Some n'
             ∧ (n' = n ∨ terminatedVersion n n'))
  ∧ (∀ k, nodes twoReady !! k = None → nodes w' !! k = None)
  ∧ ((∀ j id, deleteNode env j id = false) → nodes w' = nodes twoReady)
  ∧ ((∀ j id, deleteNode env j id = true) →
     ∀ n, n ∈ idle →
       node.Status <$> nodes w' !! node.ID n
       = Some node.NodeStatusTerminated).
Proof.
  apply (cleanupIdleNodes_effect (quietEnv (10 * Minute) [])
           predictor.DefaultPredictionConfig twoReady).
  - apply quietEnv_alone.
  - apply quietEnv_fair.
  - apply keyed_check. vm_compute. reflexivity.
Defined.

Lemma GetIdleNodes_at_floor env config w :
  Alone env → FairRange env →
  Z.of_nat (size (nodes w)) <= GoInt.max_int →
  GoInt.in_range (predictor.MinReadyNodes config) →
  Z.of_nat (countStatus (nodes w) node.NodeStatusReady)
    <= predictor.MinReadyNodes config →
  (Predictor.GetIdleNodes env config w).1 = [].
Proof.
  intros Ha Hf Hsz Hmin Hfloor.
  rewrite (GetIdleNodes_run env config w Ha). cbn [fst].
  destruct Hf as [Hn _].
  set (readyNodes := filter (λ n, node.Status n = node.NodeStatusReady)
                       (orderNodes env (S (sched w)) (nodes w))).
  assert (Hready : length readyNodes
                   = countStatus (nodes w) node.NodeStatusReady)
    by apply count_order, Hn.
  assert (HR : 0 <= GoInt.len readyNodes <= GoInt.max_int).
  { unfold GoInt.len. rewrite Hready.
    pose proof (countStatus_live_le_size (nodes w)). lia. }
  pose proof (maxTerminations_bound config _ HR Hmin) as Hm.
  unfold GoInt.len in Hm. rewrite Hready in Hm.
  assert (Hm0 : maxTerminations config (GoInt.len readyNodes) = 0).
  { unfold GoInt.len. rewrite Hready. lia. }
  rewrite Hm0. case_decide as Hlen; [done|].
  unfold GoInt.len in Hlen.
  destruct (filter _ readyNodes); [done|]. cbn [length] in Hlen. lia.
Qed.

(** With no more ready nodes than [MinReadyNodes], [GetIdleNodes]
    returns nothing however old the nodes are, and [cleanupIdleNodes]
    sends no request and changes no node. *)
Theorem no_idle_termination_at_the_floor
    (env : Env) (config : predictor.PredictionConfig) (w : World) :
  Alone env → FairRange env →
  Z.of_nat (size (nodes w)) <= GoInt.max_int →
  GoInt.in_range (predictor.MinReadyNodes config) →
  Z.of_nat (countStatus (nodes w) node.NodeStatusReady)
    <= predictor.MinReadyNodes config →
  (Predictor.GetIdleNodes env config w).1 = []
  ∧ nodes (Provisioner.cleanupIdleNodes env config w).2 = nodes w
  ∧ users (Provisioner.cleanupIdleNodes env config w).2 = users w
  ∧ apiLog (Provisioner.cleanupIdleNodes env config w).2 = apiLog w.
Proof.
  intros Ha Hf Hsz Hmin Hfloor.
  pose proof (GetIdleNodes_at_floor env config w Ha Hf Hsz Hmin Hfloor)
    as Hnil.
  split; [done|]. rewrite cleanupIdleNodes_run by done. rewrite Hnil.
  cbn. done.
Qed.

Lemma no_idle_termination_witness :
  let env := quietEnv (GoTime.Unix 5000) [] in
  let config := predictor.DefaultPredictionConfig in
  (Predictor.GetIdleNodes env config warm).1 = []
  ∧ nodes (Provisioner.cleanupIdleNodes env config warm).2 = nodes warm
  ∧ users (Provisioner.cleanupIdleNodes env config warm).2 = users warm
  ∧ apiLog (Provisioner.cleanupIdleNodes env config warm).2 = apiLog warm.
Proof.
  apply (no_idle_termination_at_the_floor (quietEnv (GoTime.Unix 5000) [])
           predictor.DefaultPredictionConfig warm).
  - apply quietEnv_alone.
  - apply quietEnv_fair.
  - vm_compute. discriminate.
  - vm_compute. split; discriminate.
  - vm_compute. discriminate.
Defined.

(** ** The user tracker *)

(** The users [GetLikelyToConnect] returns: not connected, last active
    strictly after the clock reading minus [within], and with at least
    [threshold] activities counted. *)
Lemma GetLikelyToConnect_spec env w threshold within st :
  Alone env → FairRange env →
  GoInt.min_int < within <= GoInt.max_int →
  st ∈ (UserTracker.GetLikelyToConnect env threshold within w).1
  ↔ (∃ k, users w !! k = Some st)
    ∧ user.IsConnected st = false
    ∧ clockAt env (clockReads w) - within < user.LastActivityTime st
    ∧ threshold <= user.ActivityCount st.
Proof.
  intros Ha [_ Hu] Hw. unfold UserTracker.GetLikelyToConnect.
  run_alone Ha. rewrite list_elem_of_filter, Hu, elem_of_values.
  assert (Hcut : Add (clockAt env (clockReads w)) (GoInt.neg within)
                 = clockAt env (clockReads w) - within).
  { unfold Add, GoInt.neg. rewrite wrap_in_range; [lia|].
    unfold GoInt.in_range, GoInt.min_int, GoInt.max_int in *. lia. }
  rewrite Hcut. unfold After.
  rewrite !andb_true_iff, negb_true_iff, !bool_decide_eq_true. tauto.
Qed.

(** Activities of one user, handled one after the other. *)
Lemma activities_known env u (tss : list Z) (w : World) st :
  Alone env →
  users w !! u = Some st →
  GoInt.min_int <= user.ActivityCount st →
  user.ActivityCount st + Z.of_nat (length tss) <= GoInt.max_int →
  users (forEach tss
           (λ ts, Provisioner.HandleUserActivity env u ts;; mret tt) w).2
    !! u
  = Some (user.mkUserState (user.UserID st)
            (from_option GoTime.Unix (user.LastActivityTime st) (last tss))
            (user.ActivityCount st + Z.of_nat (length tss))
            (user.IsConnected st) (user.AllocatedNodeID st)).
Proof.
  intros Ha.
  set (body := λ ts, Provisioner.HandleUserActivity env u ts;; mret tt).
  revert w st.
  induction tss as [|ts tss IH]; intros w st Hst Hlo Hhi.
  - cbn. rewrite Hst, Z.add_0_r. by destruct st.
  - cbn [forEach].
    destruct (body ts w) as [[] w1] eqn:Hbody.
    assert (Hrun : (body ts ≫= λ _, forEach tss body) w
                   = forEach tss body w1).
    { unfold mbind, M_bind. by rewrite Hbody. }
    rewrite Hrun.
    assert (Hw1 : users w1 !! u
                  = Some (user.mkUserState (user.UserID st) (GoTime.Unix ts)
                            (user.ActivityCount st + 1)
                            (user.IsConnected st)
                            (user.AllocatedNodeID st))).
    { unfold body, Provisioner.HandleUserActivity,
        UserTracker.RecordActivity in Hbody.
      run_alone Ha. rewrite Hst in Hbody. run_alone Ha.
      injection Hbody as <-. cbn [users]. rewrite lookup_insert_eq.
      unfold GoInt.add. rewrite wrap_in_range; [done|].
      cbn [length] in Hhi.
      unfold GoInt.in_range, GoInt.min_int, GoInt.max_int in *. lia. }
    cbn [length] in Hhi.
    rewrite (IH w1 _ Hw1); cbn [user.ActivityCount]; [|lia..].
    cbn [user.UserID user.LastActivityTime user.IsConnected
         user.AllocatedNodeID].
    assert (Hc : user.ActivityCount st + 1 + Z.of_nat (length tss)
                 = user.ActivityCount st + Z.of_nat (S (length tss)))
      by lia.
    assert (Ht : from_option GoTime.Unix (GoTime.Unix ts) (last tss)
                 = from_option GoTime.Unix (user.LastActivityTime st)
                     (last (ts :: tss))).
    { destruct tss as [|ts' tss]; [done|]. rewrite last_cons_cons.
      destruct (last (ts' :: tss)) eqn:Hlast; [done|].
      apply last_None in Hlast. discriminate. }
    by rewrite Hc, Ht.
Qed.

(** The record of a new user after its first activity events. *)
Lemma activities_of_new_user
    (env : Env) (w : World) (u : string) (ts : Z) (tss : list Z) :
  Alone env →
  users w !! u = None →
  Z.of_nat (length (ts :: tss)) <= GoInt.max_int →
  users (forEach (ts :: tss)
           (λ ts, Provisioner.HandleUserActivity env u ts;; mret tt) w).2
    !! u
  = Some (user.mkUserState u
            (GoTime.Unix (default ts (last tss)))
            (Z.of_nat (length (ts :: tss))) false "").
Proof.
  intros Ha Hnew Hlen.
  set (body := λ ts, Provisioner.HandleUserActivity env u ts;; mret tt).
  cbn [forEach].
  destruct (body ts w) as [[] w1] eqn:Hbody.
  assert (Hrun : (body ts ≫= λ _, forEach tss body) w
                 = forEach tss body w1).
  { unfold mbind, M_bind. by rewrite Hbody. }
  rewrite Hrun.
  assert (Hw1 : users w1 !! u
                = Some (user.mkUserState u (GoTime.Unix ts) 1 false "")).
  { unfold body, Provisioner.HandleUserActivity,
      UserTracker.RecordActivity in Hbody.
    run_alone Ha. rewrite Hnew in Hbody. run_alone Ha.
    injection Hbody as <-. cbn [users]. by rewrite lookup_insert_eq. }
  cbn [length] in Hlen.
  unfold body.
  rewrite (activities_known env u tss w1 _ Ha Hw1);
    cbn [user.ActivityCount user.UserID user.LastActivityTime
         user.IsConnected user.AllocatedNodeID];
    [|unfold GoInt.min_int; lia|lia].
  assert (Hc : 1 + Z.of_nat (length tss) = Z.of_nat (S (length tss)))
    by lia.
  assert (Ht : from_option GoTime.Unix (GoTime.Unix ts) (last tss)
               = GoTime.Unix (default ts (last tss)))
    by (by destruct (last tss)).
  by rewrite Hc, Ht.
Qed.

Lemma activities_leave_clock env u (tss : list Z) (w : World) :
  Alone env →
  clockReads (forEach tss
                (λ ts, Provisioner.HandleUserActivity env u ts;; mret tt)
                w).2
  = clockReads w.
Proof.
  intros Ha.
  set (body := λ ts, Provisioner.HandleUserActivity env u ts;; mret tt).
  revert w. induction tss as [|ts tss IH]; intros w; [done|].
  cbn [forEach]. destruct (body ts w) as [[] w1] eqn:Hbody.
  assert (Hrun : (body ts ≫= λ _, forEach tss body) w
                 = forEach tss body w1).
  { unfold mbind, M_bind. by rewrite Hbody. }
  rewrite Hrun, IH.
  unfold body, Provisioner.HandleUserActivity, UserTracker.RecordActivity
    in Hbody.
  run_alone Ha. destruct (users w !! u); run_alone Ha;
    by injection Hbody as <-.
Qed.

(** Every activity event of a user the tracker did not know is counted
    and the last one handled gives the last-activity time, which is
    [time.Unix] of its timestamp with the wrap-around of [int64]; the
    user counts as likely to connect exactly when there were at least
    [threshold] events and that time is strictly after the clock
    reading minus [within]. *)
Theorem likely_after_enough_recent_activities
    (env : Env) (w : World) (u : string) (ts : Z) (tss : list Z)
    (threshold : Z) (within : Duration) :
  Alone env → FairRange env →
  users w !! u = None →
  Z.of_nat (length (ts :: tss)) <= GoInt.max_int →
  GoInt.min_int < within <= GoInt.max_int →
  let w' := (forEach (ts :: tss)
               (λ ts, Provisioner.HandleUserActivity env u ts;; mret tt)
               w).2 in
  let record := user.mkUserState u (GoTime.Unix (default ts (last tss)))
                  (Z.of_nat (length (ts :: tss))) false "" in
  users w' !! u = Some record
  ∧ (record ∈ (UserTracker.GetLikelyToConnect env threshold within w').1
     ↔ threshold <= Z.of_nat (length (ts :: tss))
       ∧ clockAt env (clockReads w) - within
         < GoTime.Unix (default ts (last tss))).
Proof.
  intros Ha Hf Hnew Hlen Hwithin. cbv zeta.
  pose proof (activities_of_new_user env w u ts tss Ha Hnew Hlen) as Hrec.
  split; [exact Hrec|].
  rewrite (GetLikelyToConnect_spec env _ threshold within _ Ha Hf Hwithin).
  rewrite (activities_leave_clock env u (ts :: tss) w Ha).
  cbn [user.IsConnected user.LastActivityTime user.ActivityCount].
  split; [tauto|]. intros [? ?]. eauto 10.
Qed.

Lemma likely_after_activities_witness :
  let env := quietEnv (GoTime.Unix 1003) [] in
  let w' := (forEach [1000; 1001; 1002]
               (λ ts, Provisioner.HandleUserActivity env "u3" ts;; mret tt)
               initial).2 in
  let record := user.mkUserState "u3"
                  (GoTime.Unix (default 1000 (last [1001; 1002])))
                  (Z.of_nat (length [1000; 1001; 1002])) false "" in
  users w' !! "u3" = Some record
  ∧ record ∈ (UserTracker.GetLikelyToConnect env 3 (2 * Minute) w').1.
Proof.
  destruct (likely_after_enough_recent_activities
              (quietEnv (GoTime.Unix 1003) []) initial "u3" 1000
              [1001; 1002] 3 (2 * Minute)) as [Hrec Hlikely].
  - apply quietEnv_alone.
  - apply quietEnv_fair.
  - reflexivity.
  - vm_compute. discriminate.
  - vm_compute. split; [reflexivity | discriminate].
  - split; [exact Hrec|]. apply Hlikely. vm_compute.
    split; [discriminate | reflexivity].
Defined.

(** Where [time.Unix] wraps: three activities stamped one second past
    [MaxInt64 - unixToInternal] are counted, with a last-activity time
    far before the zero [Time], and the user is not listed. *)
Example wrapped_timestamp_is_not_recent :
  let env := quietEnv (GoTime.Unix 1003) [] in
  let ts := 9223371974719179008 in
  let w' := (forEach [ts; ts; ts]
               (λ ts, Provisioner.HandleUserActivity env "u3" ts;; mret tt)
               initial).2 in
  user.ActivityCount <$> users w' !! "u3" = Some 3
  ∧ GoTime.Unix ts = GoInt.min_int * Second
  ∧ (UserTracker.GetLikelyToConnect env 3 (2 * Minute) w').1 = [].
Proof.
  cbv zeta. repeat split; vm_compute; reflexivity.
Qed.

(** A user that has just been given a node is not in the list
    [GetLikelyToConnect] returns, whatever the threshold and the
    window: it no longer counts as demand. *)
Theorem connected_user_is_no_demand
    (env : Env) (w : World) (userID nodeID : string)
    (threshold : Z) (within : Duration) :
  Alone env → FairRange env → keyed (nodes w) →
  (NodeAllocator.AllocateNodeToUser env userID w).1 = (nodeID, None) →
  GoInt.min_int < within <= GoInt.max_int →
  let w1 := (NodeAllocator.AllocateNodeToUser env userID w).2 in
  ∃ st, users w1 !! userID = Some st
        ∧ st ∉ (UserTracker.GetLikelyToConnect env threshold within w1).1.
Proof.
  intros Ha Hf Hkey Hok Hwithin. cbv zeta.
  destruct (AllocateNodeToUser_success_world env w userID nodeID
              Ha Hf Hkey Hok)
    as (n & _ & _ & _ & _ & Husers & _).
  exists (connectedState (users w) userID nodeID). split.
  - by rewrite Husers, lookup_insert_eq.
  - rewrite (GetLikelyToConnect_spec env _ threshold within _ Ha Hf
               Hwithin).
    intros (_ & Hc & _). discriminate Hc.
Qed.

Lemma connected_user_is_no_demand_witness :
  let env := quietEnv (GoTime.Unix 1000) [] in
  let w1 := (NodeAllocator.AllocateNodeToUser env "u1" warm).2 in
  ∃ st, users w1 !! "u1" = Some st
        ∧ st ∉ (UserTracker.GetLikelyToConnect env 3 (2 * Minute) w1).1.
Proof.
  apply (connected_user_is_no_demand (quietEnv (GoTime.Unix 1000) [])
           warm "u1" "n1" 3 (2 * Minute)).
  - apply quietEnv_alone.
  - apply quietEnv_fair.
  - apply keyed_check. vm_compute. reflexivity.
  - vm_compute. reflexivity.
  - vm_compute. split; [reflexivity | discriminate].
Defined.

(** [ResetActivityCount] sets the count of a known user to zero and
    keeps the rest of its record, so that the user is not likely to
    connect under any positive threshold; it creates no record for an
    unknown user. *)
Theorem ResetActivityCount_clears_demand
    (env : Env) (w : World) (userID : string)
    (threshold : Z) (within : Duration) :
  Alone env → FairRange env →
  GoInt.min_int < within <= GoInt.max_int →
  1 <= threshold →
  let w' := (UserTracker.ResetActivityCount env userID w).2 in
  (∀ k, k ≠ userID → users w' !! k = users w !! k)
  ∧ nodes w' = nodes w
  ∧ match users w !! userID with
    | None => users w' !! userID = None
    | Some st =>
        let st' := user.mkUserState (user.UserID st)
                     (user.LastActivityTime st) 0 (user.IsConnected st)
                     (user.AllocatedNodeID st) in
        users w' !! userID = Some st'
        ∧ st' ∉ (UserTracker.GetLikelyToConnect env threshold within w').1
    end.
Proof.
  intros Ha Hf Hwithin Hth. cbv zeta.
  assert (Hrun : (UserTracker.ResetActivityCount env userID w).2
            = mkWorld (nodes w)
                (match users w !! userID with
                 | Some st =>
                     <[userID := user.mkUserState (user.UserID st)
                                   (user.LastActivityTime st) 0
                                   (user.IsConnected st)
                                   (user.AllocatedNodeID st)]> (users w)
                 | None => users w
                 end)
                (apiLog w) (clockReads w) (S (sched w))).
  { unfold UserTracker.ResetActivityCount. run_alone Ha.
    destruct (users w !! userID); run_alone Ha; done. }
  split; [|split].
  - intros k Hk. rewrite Hrun. cbn [users].
    destruct (users w !! userID); [by rewrite lookup_insert_ne|done].
  - by rewrite Hrun.
  - destruct (users w !! userID) as [st|] eqn:Hst.
    + split.
      * rewrite Hrun. cbn [users]. by rewrite lookup_insert_eq.
      * rewrite (GetLikelyToConnect_spec env _ threshold within _ Ha Hf
                   Hwithin).
        cbn [user.ActivityCount]. intros (_ & _ & _ & Hc). lia.
    + rewrite Hrun. cbn [users]. done.
Qed.

Lemma ResetActivityCount_witness :
  let env := quietEnv (GoTime.Unix 1000) [] in
  let w' := (UserTracker.ResetActivityCount env "u1" warm).2 in
  (∀ k, k ≠ "u1" → users w' !! k = users warm !! k)
  ∧ nodes w' = nodes warm
  ∧ match users warm !! "u1" with
    | None => users w' !! "u1" = None
    | Some st =>
        let st' := user.mkUserState (user.UserID st)
                     (user.LastActivityTime st) 0 (user.IsConnected st)
                     (user.AllocatedNodeID st) in
        users w' !! "u1" = Some st'
        ∧ st' ∉ (UserTracker.GetLikelyToConnect env 3 (2 * Minute) w').1
    end.
Proof.
  apply (ResetActivityCount_clears_demand
           (quietEnv (GoTime.Unix 1000) []) warm "u1" 3 (2 * Minute)).
  - apply quietEnv_alone.
  - apply quietEnv_fair.
  - vm_compute. split; [reflexivity | discriminate].
  - vm_compute. discriminate.
Defined.

(** [CleanupOldActivity] keeps exactly the records of the users that are
    connected or were last active at or after [before], unchanged; a
    connected user is never dropped, however long ago it was active.
    The pool is not touched. *)
Theorem CleanupOldActivity_keeps_connected_and_recent
    (env : Env) (w : World) (before : Time) :
  Alone env →
  let w' := (UserTracker.CleanupOldActivity env before w).2 in
  (∀ k st,
     users w' !! k = Some st
     ↔ users w !! k = Some st
       ∧ (user.IsConnected st = true
          ∨ before <= user.LastActivityTime st))
  ∧ nodes w' = nodes w.
Proof.
  intros Ha. cbv zeta. unfold UserTracker.CleanupOldActivity.
  run_alone Ha. split; [|done]. intros k st.
  rewrite map_lookup_filter_Some. cbn [snd].
  unfold Before. rewrite andb_true_iff, negb_true_iff, bool_decide_eq_true.
  split; intros [Hk Hkeep]; (split; [done|]).
  - destruct (user.IsConnected st); [by left|right].
    destruct (decide (before <= user.LastActivityTime st)); [done|].
    exfalso. apply Hkeep. split; [done|lia].
  - intros [Hc Hold]. destruct Hkeep as [Hc'|Hrecent]; [congruence|lia].
Qed.

Lemma CleanupOldActivity_witness :
  let env := quietEnv 0 [] in
  let w' := (UserTracker.CleanupOldActivity env (GoTime.Unix 2000)
               overCap).2 in
  (∀ k st,
     users w' !! k = Some st
     ↔ users overCap !! k = Some st
       ∧ (user.IsConnected st = true
          ∨ GoTime.Unix 2000 <= user.LastActivityTime st))
  ∧ nodes w' = nodes overCap.
Proof.
  apply (CleanupOldActivity_keeps_connected_and_recent (quietEnv 0 [])
           overCap (GoTime.Unix 2000)).
  apply quietEnv_alone.
Defined.

(** The connected [u1] and [u2] stay, the idle [u3] goes. *)
Example CleanupOldActivity_drops_u3 :
  let w' := (UserTracker.CleanupOldActivity (quietEnv 0 [])
               (GoTime.Unix 2000) overCap).2 in
  is_Some (users w' !! "u1") ∧ is_Some (users w' !! "u2")
  ∧ users w' !! "u3" = None ∧ is_Some (users overCap !! "u3").
Proof.
  cbv zeta. repeat split; try (vm_compute; eauto).
Qed.

(** ** Operations on a node the pool does not hold *)

(** On an identifier the pool does not hold, [Get] finds nothing,
    [AllocateNode] returns false, [GetNodeAllocation] reports no
    allocation, and [AllocateNode], [DeallocateNode], [UpdateStatus]
    and [Remove] leave the pool as it is: none of them creates a
    record. *)
Theorem unknown_node_is_left_alone
    (env : Env) (w : World) (nodeID userID : string)
    (status : node.NodeStatus) :
  Alone env →
  nodes w !! nodeID = None →
  (NodePool.Get env nodeID w).1 = None
  ∧ (NodePool.AllocateNode env nodeID userID w).1 = false
  ∧ (NodeAllocator.GetNodeAllocation env nodeID w).1 = ("", false)
  ∧ nodes (NodePool.AllocateNode env nodeID userID w).2 = nodes w
  ∧ nodes (NodePool.DeallocateNode env nodeID w).2 = nodes w
  ∧ nodes (NodePool.UpdateStatus env nodeID status w).2 = nodes w
  ∧ nodes (NodePool.Remove env nodeID w).2 = nodes w.
Proof.
  intros Ha Hnone.
  unfold NodeAllocator.GetNodeAllocation, NodePool.Get,
    NodePool.AllocateNode, NodePool.DeallocateNode, NodePool.UpdateStatus,
    NodePool.Remove.
  run_alone Ha. rewrite !Hnone. run_alone Ha.
  repeat split; try done. by apply delete_id.
Qed.

Lemma unknown_node_witness :
  let env := quietEnv 0 [] in
  (NodePool.Get env "n7" twoReady).1 = None
  ∧ (NodePool.AllocateNode env "n7" "u1" twoReady).1 = false
  ∧ (NodeAllocator.GetNodeAllocation env "n7" twoReady).1 = ("", false)
  ∧ nodes (NodePool.AllocateNode env "n7" "u1" twoReady).2 = nodes twoReady
  ∧ nodes (NodePool.DeallocateNode env "n7" twoReady).2 = nodes twoReady
  ∧ nodes (NodePool.UpdateStatus env "n7" "ready" twoReady).2
    = nodes twoReady
  ∧ nodes (NodePool.Remove env "n7" twoReady).2 = nodes twoReady.
Proof.
  apply (unknown_node_is_left_alone (quietEnv 0 []) twoReady "n7" "u1"
           "ready").
  - apply quietEnv_alone.
  - vm_compute. reflexivity.
Defined.

(** ** Records stay well formed *)

Section UsersWf.

Variable env : Env.
Hypothesis alone : Alone env.
Variable I : gmap string user.UserState → Prop.

Lemma preservesUsers_ret {A} (a : A) : preservesUsers I (mret a : M A).
Proof. intros w HI. exact HI. Qed.

Lemma preservesUsers_bind {A B} (m : M A) (f : A → M B) :
  preservesUsers I m → (∀ a, preservesUsers I (f a)) →
  preservesUsers I (m ≫= f).
Proof.
  intros Hm Hf w HI. unfold mbind, M_bind.
  specialize (Hm w HI). destruct (m w) as [a w1]. by apply Hf.
Qed.

Lemma preservesUsers_forEach {A} (l : list A) (body : A → M unit) :
  (∀ x, preservesUsers I (body x)) → preservesUsers I (forEach l body).
Proof.
  intros Hbody. induction l as [|x l IH]; [apply preservesUsers_ret|].
  cbn [forEach]. apply preservesUsers_bind; [apply Hbody|].
  intros _. exact IH.
Qed.

Lemma preservesUsers_times (k : nat) (body : M unit) :
  preservesUsers I body → preservesUsers I (times k body).
Proof.
  intros Hbody. induction k as [|k IH]; [apply preservesUsers_ret|].
  cbn [times]. apply preservesUsers_bind; [done|]. intros _. exact IH.
Qed.

Lemma preservesUsers_same {A} (m : M A) :
  (∀ w, users (m w).2 = users w) → preservesUsers I m.
Proof. intros Hsame w HI. by rewrite Hsame. Qed.

(** The pool, the clock and the API leave the tracker alone. *)
Lemma pool_methods_keep_users :
  (∀ n, preservesUsers I (NodePool.Add env n))
  ∧ (∀ k, preservesUsers I (NodePool.Get env k))
  ∧ (∀ k, preservesUsers I (NodePool.Remove env k))
  ∧ (∀ s, preservesUsers I (NodePool.GetAllByStatus env s))
  ∧ preservesUsers I (NodePool.GetReadyNode env)
  ∧ (∀ k u, preservesUsers I (NodePool.AllocateNode env k u))
  ∧ (∀ k, preservesUsers I (NodePool.DeallocateNode env k))
  ∧ (∀ k s, preservesUsers I (NodePool.UpdateStatus env k s))
  ∧ (∀ s, preservesUsers I (NodePool.CountByStatus env s))
  ∧ preservesUsers I (timeNow env)
  ∧ preservesUsers I (NodeManager.ProvisionNode env)
  ∧ (∀ k, preservesUsers I (NodeManager.TerminateNode env k)).
Proof.
  repeat split; intros; apply preservesUsers_same; intros w;
    unfold NodePool.Add, NodePool.Get, NodePool.Remove,
      NodePool.GetAllByStatus, NodePool.GetReadyNode,
      NodePool.AllocateNode, NodePool.DeallocateNode,
      NodePool.UpdateStatus, NodePool.CountByStatus,
      NodeManager.ProvisionNode, NodeManager.TerminateNode;
    run_alone alone; try done.
  - destruct (nodes w !! k); run_alone alone; [|done].
    destruct (decide _); run_alone alone; done.
  - destruct (nodes w !! k); run_alone alone; done.
  - destruct (nodes w !! k); run_alone alone; done.
  - destruct (createNode env _); done.
  - destruct (deleteNode env _ _); done.
Qed.

Lemma tracker_reads_keep_users :
  (∀ u, preservesUsers I (UserTracker.GetUserState env u))
  ∧ (∀ th d, preservesUsers I (UserTracker.GetLikelyToConnect env th d)).
Proof.
  split; intros; apply preservesUsers_same; intros w;
    unfold UserTracker.GetUserState, UserTracker.GetLikelyToConnect;
    run_alone alone; done.
Qed.

End UsersWf.

Section Reachable.

Variable env : Env.
Hypothesis alone : Alone env.

Lemma usersWf_insert t k st :
  usersWf t → user.UserID st = k →
  (user.IsConnected st = false → user.AllocatedNodeID st = "") →
  usersWf (<[k := st]> t).
Proof.
  intros Hwf Hid Hc k' st' Hl. destruct (decide (k = k')) as [<-|Hne].
  - rewrite lookup_insert_eq in Hl. by injection Hl as <-.
  - rewrite lookup_insert_ne in Hl by done. by apply Hwf.
Qed.

Lemma RecordActivity_usersWf u ts :
  preservesUsers usersWf (UserTracker.RecordActivity env u ts).
Proof.
  intros w Hwf. unfold UserTracker.RecordActivity. run_alone alone.
  destruct (users w !! u) as [st|] eqn:Hst; run_alone alone;
    apply usersWf_insert; try done; cbn.
  - by apply (Hwf _ _ Hst).
  - by apply (Hwf _ _ Hst).
Qed.

Lemma MarkConnected_usersWf u k :
  preservesUsers usersWf (UserTracker.MarkConnected env u k).
Proof.
  intros w Hwf. unfold UserTracker.MarkConnected. run_alone alone.
  apply usersWf_insert; [done| |done]. cbn.
  destruct (users w !! u) as [st|] eqn:Hst; [|done].
  by apply (Hwf _ _ Hst).
Qed.

Lemma MarkDisconnected_usersWf u :
  preservesUsers usersWf (UserTracker.MarkDisconnected env u).
Proof.
  intros w Hwf. unfold UserTracker.MarkDisconnected. run_alone alone.
  destruct (users w !! u) as [st|] eqn:Hst; run_alone alone; [|done].
  apply usersWf_insert; [done| |done]. cbn. by apply (Hwf _ _ Hst).
Qed.

Lemma provisionNode_usersWf :
  preservesUsers usersWf (Provisioner.provisionNode env).
Proof.
  destruct (pool_methods_keep_users env alone usersWf)
    as (HAdd & _ & _ & _ & _ & _ & _ & _ & _ & Hnow & Hprov & _).
  unfold Provisioner.provisionNode.
  apply preservesUsers_bind; [done|].
  intros [id [err|]]; [apply preservesUsers_ret|].
  apply preservesUsers_bind; [done|]. intros created.
  apply preservesUsers_bind; [done|]. intros updated.
  apply preservesUsers_bind; [done|]. intros _.
  apply preservesUsers_ret.
Qed.

Lemma handle_usersWf e : preservesUsers usersWf (Provisioner.handle env e).
Proof.
  destruct (pool_methods_keep_users env alone usersWf)
    as (HAdd & HGet & _ & _ & HReady & HAlloc & HDealloc & HUpd & _
        & Hnow & _).
  destruct (tracker_reads_keep_users env alone usersWf) as [HState _].
  destruct e as [u ts|u|u|id status]; cbn [Provisioner.handle].
  - unfold Provisioner.HandleUserActivity.
    apply preservesUsers_bind; [apply RecordActivity_usersWf|].
    intros _. apply preservesUsers_ret.
  - unfold Provisioner.HandleUserConnect,
      NodeAllocator.AllocateNodeToUser.
    apply preservesUsers_bind.
    { apply preservesUsers_bind; [done|]. intros state.
      destruct (NodeAllocator.hasNode state); [apply preservesUsers_ret|].
      apply preservesUsers_bind; [done|].
      intros [n|]; [|apply preservesUsers_ret].
      apply preservesUsers_bind; [done|].
      intros []; cbn [negb]; [|apply preservesUsers_ret].
      apply preservesUsers_bind; [apply MarkConnected_usersWf|].
      intros _. apply preservesUsers_ret. }
    intros [id [e|]]; [destruct e|]; try apply preservesUsers_ret.
    apply preservesUsers_bind; [apply provisionNode_usersWf|].
    intros _. apply preservesUsers_ret.
  - unfold Provisioner.HandleUserDisconnect,
      NodeAllocator.DeallocateNodeFromUser.
    apply preservesUsers_bind; [done|].
    intros [st|]; [|apply preservesUsers_ret].
    destruct (negb (user.IsConnected st)); [apply preservesUsers_ret|].
    cbv zeta. destruct (decide _); [apply preservesUsers_ret|].
    apply preservesUsers_bind; [done|]. intros _.
    apply preservesUsers_bind; [apply MarkDisconnected_usersWf|].
    intros _. apply preservesUsers_ret.
  - unfold Provisioner.HandleNodeStatus.
    apply preservesUsers_bind; [done|].
    intros [n|].
    + apply preservesUsers_bind; [done|]. intros _.
      apply preservesUsers_ret.
    + apply preservesUsers_bind; [done|]. intros created.
      apply preservesUsers_bind; [done|]. intros updated.
      apply preservesUsers_bind; [done|]. intros _.
      apply preservesUsers_ret.
Qed.

Lemma tick_usersWf config :
  preservesUsers usersWf (Provisioner.tick env config).
Proof.
  destruct (pool_methods_keep_users env alone usersWf)
    as (_ & _ & HRemove & HAll & _ & _ & _ & HUpd & HCount
        & Hnow & _ & HTerm).
  destruct (tracker_reads_keep_users env alone usersWf) as [_ HLikely].
  unfold Provisioner.tick, Provisioner.performScalingCheck,
    Provisioner.cleanupIdleNodes, Provisioner.cleanupStuckNodes,
    Predictor.CalculateScaling, Predictor.GetIdleNodes,
    Predictor.GetStuckBootingNodes.
  apply preservesUsers_bind.
  { apply preservesUsers_bind.
    { do 3 (apply preservesUsers_bind; [done|]; intros ?).
      apply preservesUsers_bind; [done|]. intros ?.
      apply preservesUsers_ret. }
    intros decision. destruct (predictor.ShouldScaleUp decision);
      [|apply preservesUsers_ret].
    apply preservesUsers_times, preservesUsers_bind;
      [apply provisionNode_usersWf|].
    intros _. apply preservesUsers_ret. }
  intros _. apply preservesUsers_bind.
  { apply preservesUsers_bind.
    { apply preservesUsers_bind; [done|]. intros ?.
      apply preservesUsers_bind; [done|]. intros ?.
      apply preservesUsers_ret. }
    intros idle. apply preservesUsers_forEach. intros n.
    apply preservesUsers_bind; [done|].
    intros [err|]; [apply preservesUsers_ret|done]. }
  intros _. apply preservesUsers_bind.
  { apply preservesUsers_bind; [done|]. intros ?.
    apply preservesUsers_bind; [done|]. intros ?.
    apply preservesUsers_ret. }
  intros stuck. apply preservesUsers_forEach. intros n.
  apply preservesUsers_bind; [done|].
  intros [err|]; [apply preservesUsers_ret|done].
Qed.

Lemma steps_usersWf config (steps : list Provisioner.Step) (w : World) :
  usersWf (users w) →
  usersWf (users (foldl (λ w s, (Provisioner.step env config s w).2)
                    w steps)).
Proof.
  revert w. induction steps as [|s steps IH]; intros w Hwf; [done|].
  cbn [foldl]. apply IH. destruct s as [e|]; cbn [Provisioner.step].
  - revert w Hwf. apply preservesUsers_bind; [apply handle_usersWf|].
    intros _. apply preservesUsers_ret.
  - by apply tick_usersWf.
Qed.

End Reachable.

(** In every world the provisioner reaches from start-up by handling
    bus messages and running ticks, every node record and every user
    record sits under its own identifier, and a user record that is not
    connected holds no node identifier. *)
Theorem reachable_records_are_well_formed
    (env : Env) (config : predictor.PredictionConfig)
    (steps : list Provisioner.Step) :
  Alone env →
  let w := foldl (λ w s, (Provisioner.step env config s w).2) initial
             steps in
  keyed (nodes w) ∧ usersWf (users w).
Proof.
  intros Ha. cbv zeta. split.
  - apply steps_keyed; [done|]. apply initial_keyed.
  - apply steps_usersWf; [done|].
    intros k st Hk. unfold initial, UserTracker.NewUserTracker in Hk.
    cbn [users] in Hk. by rewrite lookup_empty in Hk.
Qed.

Lemma reachable_records_witness :
  let w := foldl (λ w s,
                    (Provisioner.step (quietEnv 0 ["n9"])
                       predictor.DefaultPredictionConfig s w).2)
             initial
             [ Provisioner.Tick;
               Provisioner.Handle (events.NodeStatusEvent "n9" "ready");
               Provisioner.Handle (events.UserConnectEvent "u1");
               Provisioner.Handle (events.UserDisconnectEvent "u1") ] in
  keyed (nodes w) ∧ usersWf (users w).
Proof.
  apply (reachable_records_are_well_formed (quietEnv 0 ["n9"])
           predictor.DefaultPredictionConfig).
  apply quietEnv_alone.
Defined.

(** ** A tick with nothing to do *)

Lemma CalculateScaling_no_demand env config w :
  Alone env → FairRange env →
  Z.of_nat (size (nodes w)) <= GoInt.max_int →
  (∀ k st, users w !! k = Some st →
     user.IsConnected st = true
     ∨ user.ActivityCount st < predictor.ActivityThreshold config) →
  (Predictor.CalculateScaling env config w).1
  = Predictor.decide_scaling config
      (Z.of_nat (countStatus (nodes w) node.NodeStatusReady))
      (Z.of_nat (countStatus (nodes w) node.NodeStatusBooting))
      (Z.of_nat (countStatus (nodes w) node.NodeStatusAllocated))
      0.
Proof.
  intros Ha Hf Hsz Hquiet. unfold Predictor.CalculateScaling.
  unfold mbind at 1, M_bind at 1. rewrite CountByStatus_run by done.
  unfold mbind at 1, M_bind at 1. rewrite CountByStatus_run by done.
  unfold mbind at 1, M_bind at 1. rewrite CountByStatus_run by done.
  unfold UserTracker.GetLikelyToConnect. run_alone Ha.
  f_equal. unfold GoInt.len.
  destruct (filter _ _) as [|st rest] eqn:Hflt; [done|]. exfalso.
  assert (Hin : st ∈ st :: rest) by left. rewrite <- Hflt in Hin.
  apply list_elem_of_filter in Hin as [Hp Hin].
  destruct Hf as [_ Hu]. rewrite Hu in Hin.
  apply elem_of_values in Hin as [k Hk].
  rewrite !andb_true_iff, negb_true_iff, bool_decide_eq_true in Hp.
  destruct (Hquiet _ _ Hk); [|lia].
  destruct Hp as [[Hc _] _]. congruence.
Qed.

Lemma decide_scaling_at_rest config (b a : Z) :
  0 <= b → 0 <= predictor.MinReadyNodes config →
  predictor.MinReadyNodes config + b <= GoInt.max_int →
  let decision :=
    Predictor.decide_scaling config (predictor.MinReadyNodes config)
      b a 0 in
  predictor.ShouldScaleUp decision = false
  ∧ predictor.ShouldScaleDown decision = false.
Proof.
  intros Hb Hmin Hfit. unfold Predictor.decide_scaling.
  assert (Hcap : GoInt.add (predictor.MinReadyNodes config) b
                 = predictor.MinReadyNodes config + b).
  { unfold GoInt.add. apply wrap_in_range.
    unfold GoInt.in_range, GoInt.min_int, GoInt.max_int in *. lia. }
  assert (Hex : GoInt.sub (predictor.MinReadyNodes config)
                  (predictor.MinReadyNodes config) = 0).
  { unfold GoInt.sub. rewrite Z.sub_diag. reflexivity. }
  rewrite !Hcap, Hex. cbv zeta.
  destruct (decide (predictor.MinReadyNodes config + b < 0)); [lia|].
  destruct (decide (predictor.MinReadyNodes config
                    < predictor.MinReadyNodes config ∧ _)); [lia|].
  cbn [predictor.ShouldScaleUp].
  destruct (decide (0 < 0 ∧ 0 = 0)); [lia|]. done.
Qed.

(** A tick at rest does nothing: with exactly [MinReadyNodes] ready
    nodes, no booting node, and no user that is both disconnected and
    at the activity threshold, the tick sends no request and changes no
    node and no user record. *)
Theorem tick_at_rest_changes_nothing
    (env : Env) (config : predictor.PredictionConfig) (w : World) :
  Alone env → FairRange env →
  Z.of_nat (size (nodes w)) <= GoInt.max_int →
  Z.of_nat (countStatus (nodes w) node.NodeStatusReady)
    = predictor.MinReadyNodes config →
  countStatus (nodes w) node.NodeStatusBooting = 0%nat →
  (∀ k st, users w !! k = Some st →
     user.IsConnected st = true
     ∨ user.ActivityCount st < predictor.ActivityThreshold config) →
  let w' := (Provisioner.tick env config w).2 in
  nodes w' = nodes w ∧ users w' = users w ∧ apiLog w' = apiLog w.
Proof.
  intros Ha Hf Hsz Hready Hboot Hquiet. cbv zeta.
  pose proof (countStatus_live_le_size (nodes w)) as Hlive.
  (* the scaling check *)
  pose proof (CalculateScaling_no_demand env config w Ha Hf Hsz Hquiet)
    as Hdec.
  pose proof (CalculateScaling_world env config w Ha) as Hw.
  rewrite Hready, Hboot in Hdec.
  destruct (decide_scaling_at_rest config (Z.of_nat 0)
              (Z.of_nat (countStatus (nodes w) node.NodeStatusAllocated)))
    as [Hup _]; [lia..|].
  cbv zeta in Hup. rewrite <- Hdec in Hup.
  set (w1 := mkWorld (nodes w) (users w) (apiLog w) (S (clockReads w))
               (8 + sched w)) in *.
  assert (Hcheck : Provisioner.performScalingCheck env config w = (tt, w1)).
  { unfold Provisioner.performScalingCheck.
    unfold mbind at 1, M_bind at 1.
    destruct (Predictor.CalculateScaling env config w) as [decision w0].
    cbn [fst snd] in *. subst w0. by rewrite Hup. }
  (* the idle cleanup *)
  assert (Hin : GoInt.in_range (predictor.MinReadyNodes config)).
  { unfold GoInt.in_range, GoInt.min_int, GoInt.max_int in *. lia. }
  assert (Hidle : (Predictor.GetIdleNodes env config w1).1 = []).
  { apply GetIdleNodes_at_floor; try done; unfold w1; cbn [nodes]; lia. }
  pose proof (cleanupIdleNodes_run env config w1 Ha) as Hclean.
  rewrite Hidle in Hclean. cbn [forEach nodes users apiLog] in Hclean.
  set (w2 := mkWorld (nodes w) (users w) (apiLog w) (S (clockReads w1))
               (S (S (sched w1)))) in *.
  (* the stuck cleanup *)
  assert (Hstuck : (Predictor.GetStuckBootingNodes env config w2).1 = []).
  { rewrite (GetStuckBootingNodes_run env Ha). cbn [fst].
    destruct Hf as [Hn _].
    assert (Hb : filter (λ n, node.Status n = node.NodeStatusBooting)
                   (orderNodes env (S (sched w2)) (nodes w2)) = []).
    { apply length_zero_iff_nil.
      by rewrite (count_order (nodes w2)) by apply Hn. }
    by rewrite Hb. }
  assert (Hlast : Provisioner.cleanupStuckNodes env config w2
                  = (tt, mkWorld (nodes w) (users w) (apiLog w)
                           (S (clockReads w2)) (S (S (sched w2))))).
  { unfold Provisioner.cleanupStuckNodes.
    unfold mbind at 1, M_bind at 1.
    pose proof (GetStuckBootingNodes_run env Ha config w2) as Hrun.
    destruct (Predictor.GetStuckBootingNodes env config w2) as [l w3].
    cbn [fst] in Hstuck. subst l. injection Hrun as _ ->. reflexivity. }
  assert (Htick : Provisioner.tick env config w
                  = Provisioner.cleanupStuckNodes env config w2).
  { unfold Provisioner.tick, mbind, M_bind. rewrite Hcheck.
    cbv beta iota. rewrite Hclean. reflexivity. }
  rewrite Htick, Hlast. done.
Qed.

(** A check over the user records that runs. *)
Lemma users_check (t : gmap string user.UserState)
    (P : user.UserState → bool) :
  forallb (λ entry : string * user.UserState, P entry.2) (map_to_list t)
  = true →
  ∀ k st, t !! k = Some st → P st = true.
Proof.
  intros Hall k st Hk. apply elem_of_map_to_list, list_elem_of_In in Hk.
  rewrite forallb_forall in Hall. exact (Hall _ Hk).
Qed.

Lemma tick_at_rest_witness :
  let env := quietEnv (GoTime.Unix 1000) ["n9"] in
  let w' := (Provisioner.tick env predictor.DefaultPredictionConfig
               atRest).2 in
  nodes w' = nodes atRest ∧ users w' = users atRest
  ∧ apiLog w' = apiLog atRest.
Proof.
  apply (tick_at_rest_changes_nothing (quietEnv (GoTime.Unix 1000) ["n9"])
           predictor.DefaultPredictionConfig atRest).
  - apply quietEnv_alone.
  - apply quietEnv_fair.
  - vm_compute. discriminate.
  - vm_compute. reflexivity.
  - vm_compute. reflexivity.
  - intros k st Hk.
    pose proof (users_check (users atRest)
                  (λ st, user.IsConnected st
                         || bool_decide (user.ActivityCount st < 3))
                  eq_refl k st Hk) as Hp.
    apply orb_true_iff in Hp as [Hp|Hp]; [by left|right].
    by apply bool_decide_eq_true in Hp.
Defined.

(** ** Counting *)

(** [CountByStatus] returns the number of nodes with the given status,
    in whatever order [range] visits the map, and the counts of ready,
    booting and allocated nodes add up to at most [Count]. *)
Theorem CountByStatus_counts_each_node_once
    (env : Env) (w : World) (status : node.NodeStatus) :
  Alone env → FairRange env →
  Z.of_nat (size (nodes w)) <= GoInt.max_int →
  (NodePool.CountByStatus env status w).1
  = Z.of_nat (length (filter (λ n, node.Status n = status)
                        (values (nodes w))))
  ∧ (NodePool.CountByStatus env node.NodeStatusReady w).1
    + (NodePool.CountByStatus env node.NodeStatusBooting w).1
    + (NodePool.CountByStatus env node.NodeStatusAllocated w).1
    <= (NodePool.Count env w).1.
Proof.
  intros Ha Hf Hsz. rewrite !CountByStatus_run by done. cbn [fst].
  split; [reflexivity|].
  unfold NodePool.Count. run_alone Ha.
  pose proof (countStatus_live_le_size (nodes w)). lia.
Qed.

Lemma CountByStatus_counts_witness :
  let env := quietEnv 0 [] in
  (NodePool.CountByStatus env "ready" bootingAndReady).1
  = Z.of_nat (length (filter (λ n, node.Status n = "ready")
                        (values (nodes bootingAndReady))))
  ∧ (NodePool.CountByStatus env node.NodeStatusReady bootingAndReady).1
    + (NodePool.CountByStatus env node.NodeStatusBooting bootingAndReady).1
    + (NodePool.CountByStatus env node.NodeStatusAllocated
         bootingAndReady).1
    <= (NodePool.Count env bootingAndReady).1.
Proof.
  apply (CountByStatus_counts_each_node_once (quietEnv 0 [])
           bootingAndReady "ready").
  - apply quietEnv_alone.
  - apply quietEnv_fair.
  - vm_compute. discriminate.
Defined.

(** ** Status events and the size of the pool *)

(** A [node:status] event never removes a node: afterwards the pool
    holds the named node with the announced status, every other node is
    as before, and [Count] has grown by one exactly when the identifier
    was unknown. A node created this way belongs to no user. *)
Theorem HandleNodeStatus_adds_or_updates
    (env : Env) (w : World) (nodeID : string) (status : string) :
  Alone env →
  let w' := (Provisioner.HandleNodeStatus env nodeID status w).2 in
  (∃ n, nodes w' !! nodeID = Some n
        ∧ node.Status n = status
        ∧ (nodes w !! nodeID = None → node.UserID n = ""
                                      ∧ node.ID n = nodeID))
  ∧ (∀ k, k ≠ nodeID → nodes w' !! k = nodes w !! k)
  ∧ (NodePool.Count env w').1
    = (NodePool.Count env w).1
      + match nodes w !! nodeID with Some _ => 0 | None => 1 end
  ∧ users w' = users w ∧ apiLog w' = apiLog w.
Proof.
  intros Ha. cbv zeta.
  unfold Provisioner.HandleNodeStatus, NodePool.Get, NodePool.Count,
    NodePool.UpdateStatus, NodePool.Add.
  run_alone Ha.
  destruct (nodes w !! nodeID) as [n|] eqn:Hn; run_alone Ha.
  - rewrite Hn. run_alone Ha. cbn [node.ID].
    split; [|split; [|split]].
    + eexists. rewrite lookup_insert_eq. split; [reflexivity|].
      split; [reflexivity|]. done.
    + intros k Hk. by rewrite lookup_insert_ne.
    + rewrite map_size_insert_Some by eauto. lia.
    + done.
  - cbn [node.ID]. split; [|split; [|split]].
    + eexists. rewrite lookup_insert_eq. split; [reflexivity|].
      split; [reflexivity|]. done.
    + intros k Hk. by rewrite lookup_insert_ne.
    + rewrite map_size_insert_None by done. lia.
    + done.
Qed.

Lemma HandleNodeStatus_adds_or_updates_witness :
  let env := quietEnv 0 [] in
  let w' := (Provisioner.HandleNodeStatus env "n3" "booting" twoReady).2 in
  (∃ n, nodes w' !! "n3" = Some n
        ∧ node.Status n = "booting"
        ∧ (nodes twoReady !! "n3" = None → node.UserID n = EmptyString
                                           ∧ node.ID n = "n3"))
  ∧ (∀ k, k ≠ "n3" → nodes w' !! k = nodes twoReady !! k)
  ∧ (NodePool.Count env w').1
    = (NodePool.Count env twoReady).1
      + match nodes twoReady !! "n3" with Some _ => 0 | None => 1 end
  ∧ users w' = users twoReady ∧ apiLog w' = apiLog twoReady.
Proof.
  apply (HandleNodeStatus_adds_or_updates (quietEnv 0 []) twoReady "n3"
           "booting").
  apply quietEnv_alone.
Defined.

(** ** [ShouldAllocateNode] and the allocator *)

(** When [ShouldAllocateNode] answers true, [AllocateNodeToUser] does
    not refuse with [ErrAlreadyAllocated]: it succeeds exactly when a
    ready node exists. *)
Theorem ShouldAllocateNode_true_allows_allocation
    (env : Env) (w : World) (userID : string) :
  Alone env → FairRange env → keyed (nodes w) →
  (Predictor.ShouldAllocateNode env userID w).1 = true →
  let err := (NodeAllocator.AllocateNodeToUser env userID w).1.2 in
  err ≠ Some ErrAlreadyAllocated
  ∧ (err = None ↔ (0 < countStatus (nodes w) node.NodeStatusReady)%nat).
Proof.
  intros Ha Hf Hkey Hshould. cbv zeta.
  assert (Hhas : NodeAllocator.hasNode (users w !! userID) = false).
  { revert Hshould.
    unfold Predictor.ShouldAllocateNode, UserTracker.GetUserState,
      NodeAllocator.hasNode.
    run_alone Ha.
    destruct (users w !! userID) as [st|]; [|done].
    destruct (user.IsConnected st); [|done].
    unfold mret, M_ret. cbn. discriminate. }
  destruct (AllocateNodeToUser_outcome env w userID Ha Hf Hkey)
    as [(Hh & _) | [(_ & Hzero & Hr & _) | (_ & n & Hn & Hs & Hr & _)]].
  - congruence.
  - rewrite Hr. cbn [snd]. split; [discriminate|].
    split; [discriminate | lia].
  - rewrite Hr. cbn [snd]. split; [discriminate|].
    split; [|done]. intros _.
    by apply (countStatus_pos_of_lookup _ (node.ID n) n).
Qed.

Lemma ShouldAllocateNode_true_witness :
  let env := quietEnv (GoTime.Unix 1000) [] in
  let err := (NodeAllocator.AllocateNodeToUser env "u1" warm).1.2 in
  err ≠ Some ErrAlreadyAllocated
  ∧ (err = None ↔ (0 < countStatus (nodes warm) node.NodeStatusReady)%nat).
Proof.
  apply (ShouldAllocateNode_true_allows_allocation
           (quietEnv (GoTime.Unix 1000) []) warm "u1").
  - apply quietEnv_alone.
  - apply quietEnv_fair.
  - apply keyed_check. vm_compute. reflexivity.
  - vm_compute. reflexivity.
Defined.

(** The two checks differ on a user that is connected to the node whose
    identifier is empty: [ShouldAllocateNode] answers false, yet
    [AllocateNodeToUser] does not see an allocation and hands out
    another ready node. *)
Theorem connected_to_empty_id_gets_another_node
    (env : Env) (w : World) (userID : string) (st : user.UserState) :
  Alone env → FairRange env → keyed (nodes w) →
  users w !! userID = Some st →
  user.IsConnected st = true →
  user.AllocatedNodeID st = "" →
  (0 < countStatus (nodes w) node.NodeStatusReady)%nat →
  (Predictor.ShouldAllocateNode env userID w).1 = false
  ∧ (NodeAllocator.AllocateNodeToUser env userID w).1.2 = None.
Proof.
  intros Ha Hf Hkey Hst Hc Hid Hready. split.
  - unfold Predictor.ShouldAllocateNode, UserTracker.GetUserState.
    run_alone Ha. rewrite Hst, Hc. reflexivity.
  - assert (Hhas : NodeAllocator.hasNode (users w !! userID) = false).
    { unfold NodeAllocator.hasNode. rewrite Hst, Hc, Hid. reflexivity. }
    destruct (AllocateNodeToUser_outcome env w userID Ha Hf Hkey)
      as [(Hh & _) | [(_ & Hzero & _) | (_ & n & _ & _ & Hr & _)]].
    + congruence.
    + lia.
    + by rewrite Hr.
Qed.

Lemma connected_to_empty_id_witness :
  let env := quietEnv 0 [] in
  (Predictor.ShouldAllocateNode env "u1" emptyIdTaken).1 = false
  ∧ (NodeAllocator.AllocateNodeToUser env "u1" emptyIdTaken).1.2 = None.
Proof.
  apply (connected_to_empty_id_gets_another_node (quietEnv 0 [])
           emptyIdTaken "u1"
           (connectedState (users initial) "u1" "")).
  - apply quietEnv_alone.
  - apply quietEnv_fair.
  - apply keyed_check. vm_compute. reflexivity.
  - vm_compute. reflexivity.
  - vm_compute. reflexivity.
  - vm_compute. reflexivity.
  - vm_compute. reflexivity.
Defined.
